(** * CAPrint: the return-label mailing pipeline

    A shallow embedding of the serverless handlers of the repository
    ([api/create-label.js], [api/mail-label.js] and the draft of the latter
    that logs under the source tag "CAphysical-mail"), and the properties of
    the specification checked against them. The three earlier drafts of
    [api/mail-label.js] follow the handlers, and further properties of the
    code follow those of the specification.

    - JavaScript numbers are IEEE-754 doubles: they are modelled by the
      kernel's primitive floats, so arithmetic rounds exactly as it does
      in the deployed code.
    - A string is its sequence of code units, restricted to units below 256.
    - What the JavaScript runtime provides and the handlers only call
      (number parsing and printing, [JSON.parse], base64 decoding, the clock,
      [fetch], pdf-lib) is a field of the [World] the handlers run in.
    - A handler is a computation that returns or throws and leaves a trace
      of the requests it sent and of the audit records it handed to the
      sink; [await] is sequencing, [try]/[catch] is [try_catch].

    The file has three parts: the embedding (JavaScript values, the layout
    arithmetic, the world, the three handlers and their deployment together,
    a small world to run examples in), the vocabulary of the specification,
    and the properties, section by section of the specification. *)

From Stdlib Require Import String Ascii List Bool Arith ZArith NArith.
From Stdlib Require Import QArith Qminmax Floats Lia Lqa DecimalString.
Import ListNotations.
Close Scope Q_scope.
Open Scope nat_scope.
Open Scope list_scope.
Open Scope string_scope.
Set Warnings "-register-all".

(** ** Results and exceptions *)

(** A JavaScript computation returns or throws; a thrown value is kept as the
    string [String(e)] renders, which is all the handlers ever read of it. *)
Inductive Result (A : Type) : Type :=
| Ok (a : A)
| Throw (e : string).
Arguments Ok {A} a.
Arguments Throw {A} e.

(** One step after another: the first that throws ends the sequence. *)
Definition and_then {A B : Type} (r : Result A) (k : A -> Result B) : Result B :=
  match r with
  | Ok a => k a
  | Throw e => Throw e
  end.

Notation "'let*' x ':=' r 'in' k" := (and_then r (fun x => k))
  (at level 10, x name, r at level 200, k at level 200).

(** ** JavaScript values *)

Module JS.

Inductive value : Type :=
| VUndefined
| VNull
| VBool (b : bool)
| VNumber (n : float)
| VString (s : string)
| VArray (items : list value)
| VObject (props : list (string * value)).

Fixpoint assoc {A : Type} (k : string) (l : list (string * A)) : option A :=
  match l with
  | [] => None
  | (k', a) :: rest => if String.eqb k k' then Some a else assoc k rest
  end.

(** [v?.[k]]: [undefined] on [null] and [undefined], the own property
    otherwise. None of the keys the handlers read is a property of a
    primitive wrapper or of [Array.prototype], so only plain objects answer. *)
Definition opt_get (v : value) (k : string) : value :=
  match v with
  | VObject props => match assoc k props with Some x => x | None => VUndefined end
  | _ => VUndefined
  end.

Definition nullish (v : value) : bool :=
  match v with VUndefined | VNull => true | _ => false end.

(** [v[k]] and [v.k]: a TypeError on [null] and [undefined]. *)
Definition get (v : value) (k : string) : Result value :=
  if nullish v
  then Throw ("TypeError: Cannot read properties of " ++
              (match v with VNull => "null" | _ => "undefined" end) ++
              " (reading '" ++ k ++ "')")
  else Ok (opt_get v k).

(** [v?.[0]]: the first element of an array, the first code unit of a
    string, the property "0" of an object. *)
Definition opt_first (v : value) : value :=
  match v with
  | VArray (x :: _) => x
  | VString (String c _) => VString (String c "")
  | VObject props => match assoc "0" props with Some x => x | None => VUndefined end
  | _ => VUndefined
  end.

Definition is_zero_or_nan (n : float) : bool :=
  PrimFloat.eqb n PrimFloat.zero || PrimFloat.is_nan n.

Definition truthy (v : value) : bool :=
  match v with
  | VUndefined | VNull => false
  | VBool b => b
  | VNumber n => negb (is_zero_or_nan n)
  | VString s => negb (String.eqb s "")
  | VArray _ | VObject _ => true
  end.

(** [a || b] and [a ?? b] on values already evaluated (the right operands the
    handlers use are literals or property reads without effects). *)
Definition or_else (a b : value) : value := if truthy a then a else b.
Definition coalesce (a b : value) : value := if nullish a then b else a.

(** *** Strings *)

(** White space of [String.prototype.trim] among the code units below 256:
    TAB, LF, VT, FF, CR, SP and NBSP. *)
Definition is_space (c : ascii) : bool :=
  let n := nat_of_ascii c in
  (((9 <=? n) && (n <=? 13)) || (n =? 32) || (n =? 160))%nat.

Fixpoint trimStart (s : string) : string :=
  match s with
  | EmptyString => EmptyString
  | String c rest => if is_space c then trimStart rest else s
  end.

Fixpoint rev_append (s acc : string) : string :=
  match s with
  | EmptyString => acc
  | String c rest => rev_append rest (String c acc)
  end.

Definition reverse (s : string) : string := rev_append s "".

Definition trim (s : string) : string :=
  reverse (trimStart (reverse (trimStart s))).

Definition startsWith (s p : string) : bool := String.prefix p s.

(** [s.slice(n)] for [0 <= n]. *)
Fixpoint slice_from (n : nat) (s : string) : string :=
  match n, s with
  | O, _ => s
  | S n', String _ rest => slice_from n' rest
  | S _, EmptyString => EmptyString
  end.

(** [s.indexOf(":")] cuts [s] in two: [None] is the answer [-1], and
    [Some (a, b)] stands for [s.slice(0, idx)] and [s.slice(idx + 1)]. *)
Fixpoint split_at_colon (s : string) : option (string * string) :=
  match s with
  | EmptyString => None
  | String c rest =>
      if Ascii.eqb c ":"%char then Some (EmptyString, rest)
      else match split_at_colon rest with
           | Some (a, b) => Some (String c a, b)
           | None => None
           end
  end.

(** [s.replace(/\/+$/, "")]: the trailing slashes removed. *)
Fixpoint dropSlashes (s : string) : string :=
  match s with
  | EmptyString => EmptyString
  | String c rest => if Ascii.eqb c "/"%char then dropSlashes rest else s
  end.

Definition stripTrailingSlashes (s : string) : string :=
  reverse (dropSlashes (reverse s)).

(** [parts.join(sep)] on strings. *)
Fixpoint join (sep : string) (parts : list string) : string :=
  match parts with
  | [] => ""
  | [p] => p
  | p :: rest => p ++ sep ++ join sep rest
  end.

(** The decimal rendering of a non-negative integer, as a template literal
    renders an HTTP status or a millisecond count. *)
Definition decimal (n : N) : string := NilZero.string_of_uint (N.to_uint n).

(** A small non-negative integer as a JavaScript number. *)
Definition number_of_N (n : N) : float := PrimFloat.of_uint63 (Uint63.of_Z (Z.of_N n)).

(** *** Conversions that need the runtime's number grammar *)

Section Conversions.

(** [StringToNumber] is the runtime's reading of a numeric string and
    [NumberToString] its printing of a double. *)
Variable StringToNumber : string -> float.
Variable NumberToString : float -> string.

(** What a conversion throws on an object that has no primitive value. *)
Definition noPrimitive : string :=
  "TypeError: Cannot convert object to primitive value".

(** [String(v)] and [`${v}`]. The values are data, as JSON carries them: an
    object has no method of its own, so it prints through
    [Object.prototype.toString] as long as no property of its own is called
    [toString]; when one is, that property is no function, [valueOf]
    returns the object, and the conversion throws. An array joins its
    elements with a comma, [null] and [undefined] elements printing as
    nothing, and throws when an element does. *)
Fixpoint ToString (v : value) : Result string :=
  match v with
  | VUndefined => Ok "undefined"
  | VNull => Ok "null"
  | VBool true => Ok "true"
  | VBool false => Ok "false"
  | VNumber n => Ok (NumberToString n)
  | VString s => Ok s
  | VArray items =>
      (fix joined (l : list value) : Result string :=
         match l with
         | [] => Ok ""
         | x :: rest =>
             match (if nullish x then Ok "" else ToString x) with
             | Throw e => Throw e
             | Ok here =>
                 match rest with
                 | [] => Ok here
                 | _ =>
                     match joined rest with
                     | Throw e => Throw e
                     | Ok others => Ok (here ++ "," ++ others)
                     end
                 end
             end
         end) items
  | VObject props =>
      match assoc "toString" props with
      | Some _ => Throw noPrimitive
      | None => Ok "[object Object]"
      end
  end.

(** [Number(v)]. Arrays and objects go through their string, and throw
    when it does. *)
Definition ToNumber (v : value) : Result float :=
  match v with
  | VUndefined => Ok PrimFloat.nan
  | VNull => Ok PrimFloat.zero
  | VBool true => Ok PrimFloat.one
  | VBool false => Ok PrimFloat.zero
  | VNumber n => Ok n
  | VString s => Ok (StringToNumber s)
  | VArray _ | VObject _ =>
      match ToString v with
      | Throw e => Throw e
      | Ok s => Ok (StringToNumber s)
      end
  end.

End Conversions.

Definition Number_isFinite (n : float) : bool := PrimFloat.is_finite n.

End JS.
Import JS.

(** ** Fitting the label on a letter page *)

(** The placement arithmetic of [buildInstructionsPlusLabelPdf], written once
    over the number type and its operations: it is run on doubles, as the
    code does, and on exact rationals, where the geometry is proved. *)
Module Layout.

Section Generic.

Variable num : Type.
Variable of_Z : Z -> num.
Variables mul div sub : num -> num -> num.
Variable min : num -> num -> num.

Record Placement : Type := {
  scale : num;
  drawW : num;
  drawH : num;
  x : num;
  y : num
}.

Definition LETTER_W : num := of_Z 612.
Definition LETTER_H : num := of_Z 792.
Definition targetW : num := of_Z 420.
Definition targetH : num := of_Z 600.

Definition place (width height : num) : Placement :=
  let scale := min (div targetW width) (div targetH height) in
  let drawW := mul width scale in
  let drawH := mul height scale in
  let x := div (sub LETTER_W drawW) (of_Z 2) in
  let y := div (sub LETTER_H drawH) (of_Z 2) in
  {| scale := scale; drawW := drawW; drawH := drawH; x := x; y := y |}.

End Generic.

Arguments scale {num} _.
Arguments drawW {num} _.
Arguments drawH {num} _.
Arguments x {num} _.
Arguments y {num} _.

(** [Math.min] on two doubles: NaN if either is, and -0 below +0. *)
Definition Math_min (a b : float) : float :=
  if PrimFloat.is_nan a || PrimFloat.is_nan b then PrimFloat.nan
  else if PrimFloat.ltb a b then a
  else if PrimFloat.ltb b a then b
  else if PrimFloat.get_sign a then a else b.

Definition float_of_Z (z : Z) : float := PrimFloat.of_uint63 (Uint63.of_Z z).

(** The placement as the code computes it. *)
Definition placeLabel (width height : float) : Placement float :=
  place float float_of_Z PrimFloat.mul PrimFloat.div PrimFloat.sub Math_min width height.

(** The same formulas in exact arithmetic. *)
Definition placeExact (width height : Q) : Placement Q :=
  place Q inject_Z Qmult Qdiv Qminus Qmin width height.

End Layout.

(** ** The world a handler runs in *)

Module Pdf.

(** [page.drawPage(embedded, { x, y, xScale, yScale })]. *)
Record Drawing : Type := {
  embedded_width : float;
  embedded_height : float;
  at_x : float;
  at_y : float;
  xScale : float;
  yScale : float
}.

Inductive Page : Type :=
| InstructionPage (index : nat)
| LetterPage (width height : float) (label : Drawing).

Definition Document : Type := list Page.

End Pdf.

Inductive FormEntry : Type :=
| Field (text : string)
| File (content : Pdf.Document) (mime filename : string).

(** The body of an outgoing request: [JSON.stringify(v)] is kept as [v], a
    [FormData] as its entries. *)
Inductive FetchBody : Type :=
| NoBody
| JsonBody (v : value)
| FormBody (entries : list (string * FormEntry)).

Record FetchRequest : Type := {
  fr_url : string;
  fr_method : string;
  fr_headers : list (string * string);
  fr_body : FetchBody
}.

(** What [fetch] resolves to. [resp_json] is [None] when [resp.json()]
    rejects. *)
Record FetchResponse : Type := {
  resp_status : N;
  resp_json : option value;
  resp_text : string
}.

Definition resp_ok (r : FetchResponse) : bool :=
  ((200 <=? resp_status r) && (resp_status r <=? 299))%N.

Inductive FetchOutcome : Type :=
| NetworkError (e : string)
| Responded (r : FetchResponse).

Record World : Type := {
  (** [process.env] *)
  env : string -> option string;
  (** the runtime's number grammar *)
  StringToNumber : string -> float;
  NumberToString : float -> string;
  (** [JSON.parse], which throws a SyntaxError, and [JSON.stringify] *)
  JSON_parse : string -> Result value;
  JSON_stringify : value -> string;
  (** [Buffer.from(s, "base64").toString("utf8")] *)
  base64_to_utf8 : string -> string;
  (** [Buffer.from(v, "base64")], a TypeError on what is no string or buffer *)
  Buffer_from_base64 : value -> Result string;
  (** [Buffer.from(s).toString("base64")] *)
  to_base64 : string -> string;
  (** the clock at its k-th reading, in milliseconds, and [toISOString] *)
  clock : nat -> N;
  toISOString : N -> string;
  (** [crypto.randomUUID()] at the k-th reading *)
  randomUUID : nat -> string;
  (** the network *)
  fetch : FetchRequest -> FetchOutcome;
  (** [fs.existsSync] and [fs.readFileSync] on power-off-instructions.pdf *)
  instructions_file : option string;
  (** pdf-lib: the page count of a document that loads, the size of the
      first page of a document that embeds *)
  PDF_load : string -> Result nat;
  PDF_embed_first : string -> Result (float * float)
}.

(** ** Handlers as computations *)

(** A handler leaves a trace: every [fetch] it starts, and every audit record
    it hands to [postToSheets] (logged on entry, so that an attempt is counted
    also when the sink is not configured and nothing is sent). *)
Inductive Event : Type :=
| EvFetch (r : FetchRequest)
| EvAudit (payload : value).

Record St : Type := {
  trace : list Event;
  reads : nat
}.

Definition M (A : Type) : Type := St -> Result A * St.

Definition ret {A : Type} (a : A) : M A := fun s => (Ok a, s).

Definition bind {A B : Type} (m : M A) (k : A -> M B) : M B :=
  fun s => match m s with
           | (Ok a, s') => k a s'
           | (Throw e, s') => (Throw e, s')
           end.

Definition throw {A : Type} (e : string) : M A := fun s => (Throw e, s).

(** [try { m } catch (e) { h e }] *)
Definition try_catch {A : Type} (m : M A) (h : string -> M A) : M A :=
  fun s => match m s with
           | (Ok a, s') => (Ok a, s')
           | (Throw e, s') => h e s'
           end.

Definition lift {A : Type} (r : Result A) : M A := fun s => (r, s).

Definition emit (e : Event) : M unit :=
  fun s => (Ok tt, {| trace := trace s ++ [e]; reads := reads s |}%list).

(** The next reading of a source of fresh values (clock, UUIDs). *)
Definition next_read : M nat :=
  fun s => (Ok (reads s), {| trace := trace s; reads := S (reads s) |}).

Declare Scope js_scope.
Delimit Scope js_scope with js.
Notation "x <- m ;; k" := (bind m (fun x => k))
  (at level 61, m at next level, right associativity) : js_scope.
Notation "m ;;; k" := (bind m (fun _ => k))
  (at level 61, right associativity) : js_scope.
Open Scope js_scope.

Definition initial : St := {| trace := []; reads := 0 |}.

(** Running a handler from the start of a request. *)
Definition run {A : Type} (m : M A) : Result A * list Event :=
  let (r, s) := m initial in (r, trace s).

Section Effects.

Variable w : World.

(** [await fetch(...)]: rejects on a transport error. *)
Definition do_fetch (r : FetchRequest) : M FetchResponse :=
  emit (EvFetch r) ;;;
  match fetch w r with
  | NetworkError e => throw e
  | Responded resp => ret resp
  end.

(** [await resp.json().catch(() => null)] *)
Definition json_or_null (r : FetchResponse) : value :=
  match resp_json r with Some v => v | None => VNull end.

(** [Date.now()] *)
Definition Date_now : M N :=
  k <- next_read ;; ret (clock w k).

(** [new Date().toISOString()] *)
Definition todayIso : M string :=
  k <- next_read ;; ret (toISOString w (clock w k)).

(** [process.env.NAME || fallback] *)
Definition env_or (name fallback : string) : string :=
  match env w name with
  | Some s => if String.eqb s "" then fallback else s
  | None => fallback
  end.

Definition String_ (v : value) : Result string := ToString (NumberToString w) v.
Definition Number_ (v : value) : Result float :=
  ToNumber (StringToNumber w) (NumberToString w) v.

End Effects.

(** What a handler answers. *)
Inductive ResBody : Type :=
| JsonOut (v : value)
| TextOut (s : string).

Record Response : Type := {
  statusCode : N;
  res_headers : list (string * string);
  res_body : ResBody
}.

(** An incoming request: the method, the headers by (lower-cased) name, and
    [req.body] as the platform hands it over. *)
Record Request : Type := {
  req_method : string;
  req_headers : string -> option string;
  req_body : value
}.

Definition obj (props : list (string * value)) : value := VObject props.
Definition str (s : string) : value := VString s.

(** A variable that holds a string or [null]. *)
Definition nullable (o : option string) : value :=
  match o with Some s => VString s | None => VNull end.

Definition dquote : string := String (ascii_of_nat 34) "".

(** ** api/mail-label.js *)

Module MailLabel.

Section Handler.

Variable w : World.

Definition SHEETS_WEBHOOK_URL : string := env_or w "SHEETS_WEBHOOK_URL" "".

Definition sendJson (status : N) (o : value) : Response :=
  {| statusCode := status;
     res_headers := [("Content-Type", "application/json")];
     res_body := JsonOut o |}.

Definition unauthorized : Response :=
  {| statusCode := 401;
     res_headers :=
       [("WWW-Authenticate", "Basic realm=" ++ dquote ++ "Return Label Mailer" ++ dquote)];
     res_body := TextOut "Unauthorized" |}.

(** [req.headers.authorization || req.headers.Authorization] *)
Definition authorizationHeader (req : Request) : option string :=
  match req_headers req "authorization" with
  | Some h => if String.eqb h "" then req_headers req "Authorization" else Some h
  | None => req_headers req "Authorization"
  end.

Definition parseBasicAuth (req : Request) : option (string * string) :=
  match authorizationHeader req with
  | None => None
  | Some header =>
      if String.eqb header "" || negb (startsWith header "Basic ") then None
      else
        let b64 := trim (slice_from (String.length "Basic ") header) in
        let decoded := base64_to_utf8 w b64 in
        split_at_colon decoded
  end.

Definition getBaseUrl (req : Request) : string :=
  let proto := match req_headers req "x-forwarded-proto" with
               | Some p => if String.eqb p "" then "https" else p
               | None => "https"
               end in
  let host := match req_headers req "host" with
              | Some h => h
              | None => "undefined"
              end in
  proto ++ "://" ++ host.

Definition requireField (body : value) (key : string) : Result (option string) :=
  let v := opt_get body key in
  if nullish v then Ok None
  else
    let* text := String_ w v in
    let s := trim text in
    Ok (if String.eqb s "" then None else Some s).

Definition webhookRequest (webhookUrl : string) (payload : value) : FetchRequest :=
  {| fr_url := webhookUrl;
     fr_method := "POST";
     fr_headers := [("Content-Type", "application/json")];
     fr_body := JsonBody payload |}.

Definition postToSheets (webhookUrl : string) (payload : value) : M value :=
  emit (EvAudit payload) ;;;
  if String.eqb webhookUrl "" then ret VNull
  else
    try_catch
      (r <- do_fetch w (webhookRequest webhookUrl payload) ;;
       ret (obj [("ok", VBool (resp_ok r));
                 ("status", VNumber (number_of_N (resp_status r)))]))
      (fun e => ret (obj [("ok", VBool false); ("error", str e)])).

Definition normalizeWeightOz (body : value) : Result value :=
  let* oz := Number_ w (opt_get body "weightOz") in
  if Number_isFinite oz && PrimFloat.ltb 0 oz then Ok (VNumber oz)
  else
    let* lbs := Number_ w (opt_get body "weightLbs") in
    if Number_isFinite lbs && PrimFloat.ltb 0 lbs then Ok (VNumber (PrimFloat.mul lbs 16))
    else Ok VNull.

Definition buildInstructionsPlusLabelPdf (labelBase64 : value) : M Pdf.Document :=
  labelBytes <- lift (Buffer_from_base64 w labelBase64) ;;
  instrPages <- match instructions_file w with
                | Some instrBytes =>
                    n <- lift (PDF_load w instrBytes) ;;
                    ret (map Pdf.InstructionPage (seq 0 n))
                | None => ret []
                end ;;
  embeddedLabel <- lift (PDF_embed_first w labelBytes) ;;
  let (width, height) := embeddedLabel in
  let p := Layout.placeLabel width height in
  ret (instrPages ++
       [Pdf.LetterPage 612 792
          {| Pdf.embedded_width := width;
             Pdf.embedded_height := height;
             Pdf.at_x := Layout.x p;
             Pdf.at_y := Layout.y p;
             Pdf.xScale := Layout.scale p;
             Pdf.yScale := Layout.scale p |}])%list.

(** [typeof req.body === "string" ? JSON.parse(req.body || "{}") : (req.body || {})] *)
Definition bodyOf (req : Request) : Result value :=
  match req_body req with
  | VString s => JSON_parse w (if String.eqb s "" then "{}" else s)
  | b => Ok (or_else b (obj []))
  end.

Definition parseBody (req : Request) : M value := lift (bodyOf req).

(** [!name] for a variable that holds [null] or a non-empty string. *)
Definition absent (field : option string) : bool :=
  match field with None => true | Some _ => false end.

(** [if (!field) missing.push(label)] *)
Definition pushIfAbsent (field : option string) (label : string)
    (missing : list string) : list string :=
  if absent field then (missing ++ [label])%list else missing.

Record Fields : Type := {
  name : option string;
  address1 : option string;
  address2 : string;
  city : option string;
  state : option string;
  zip : option string;
  phone : option string;
  deviceType : option string
}.

Definition readFields (body : value) : Result Fields :=
  let* name := requireField body "name" in
  let* address1 := requireField body "address1" in
  let* address2 := requireField body "address2" in
  let* city := requireField body "city" in
  let* state := requireField body "state" in
  let* zip := requireField body "zip" in
  let* phone := requireField body "phone" in
  let* deviceType := requireField body "deviceType" in
  Ok {| name := name;
        address1 := address1;
        address2 := match address2 with Some s => s | None => "" end;
        city := city;
        state := state;
        zip := zip;
        phone := phone;
        deviceType := deviceType |}.

(** [String(body.email || "")] and the like. *)
Definition textAt (body : value) (key : string) : M string :=
  v <- lift (get body key) ;;
  lift (String_ w (or_else v (str ""))).

Definition missingFields (f : Fields) : list string :=
  let missing := [] in
  let missing := pushIfAbsent (name f) "name" missing in
  let missing := pushIfAbsent (address1 f) "address1" missing in
  let missing := pushIfAbsent (city f) "city" missing in
  let missing := pushIfAbsent (state f) "state" missing in
  let missing := pushIfAbsent (zip f) "zip" missing in
  let missing := pushIfAbsent (phone f) "phone" missing in
  let missing := pushIfAbsent (deviceType f) "deviceType" missing in
  missing.

Definition missingMessage (missing : list string) : string :=
  "Missing required fields: " ++ join ", " missing.

(** The audit record of a request that fails validation. *)
Definition missingPayload (body : value) (f : Fields) (missing : list string) : M value :=
  now <- Date_now w ;;
  created <- todayIso w ;;
  customer_email <- textAt body "email" ;;
  device_type <- lift (String_ w (or_else (nullable (deviceType f)) (str ""))) ;;
  device_serial <- textAt body "deviceSerial" ;;
  return_reason <- textAt body "returnReason" ;;
  weight_oz <- lift (normalizeWeightOz body) ;;
  checked <- todayIso w ;;
  ret (obj
    [("request_id", str ("mail_" ++ decimal now));
     ("lob_letter_id", str "");
     ("source", str "Lifelinephysical-mail");
     ("created_at_iso", str created);
     ("customer_name", or_else (nullable (name f)) (str ""));
     ("customer_email", str customer_email);
     ("customer_phone", or_else (nullable (phone f)) (str ""));
     ("from_address1", or_else (nullable (address1 f)) (str ""));
     ("from_address2", or_else (str (address2 f)) (str ""));
     ("from_city", or_else (nullable (city f)) (str ""));
     ("from_state", or_else (nullable (state f)) (str ""));
     ("from_zip", or_else (nullable (zip f)) (str ""));
     ("device_type", str device_type);
     ("device_serial", str device_serial);
     ("return_reason", str return_reason);
     ("weight_oz", weight_oz);
     ("service_type", str "usps_ground_advantage");
     ("tracking_number", str "");
     ("label_id", str "");
     ("postage_total_usd", VNull);
     ("status", str "Exception");
     ("status_last_checked", str checked);
     ("delivered_at", VNull);
     ("latest_event", str (missingMessage missing))]).

Definition labelRequest (req : Request) (body : value) : FetchRequest :=
  {| fr_url := getBaseUrl req ++ "/api/create-label";
     fr_method := "POST";
     fr_headers := [("Content-Type", "application/json")];
     fr_body := JsonBody body |}.

(** The audit record of a request whose label was not created. *)
Definition labelFailPayload (body : value) (f : Fields) (labelResp : FetchResponse)
    : M value :=
  now <- Date_now w ;;
  created <- todayIso w ;;
  customer_email <- textAt body "email" ;;
  device_type <- lift (String_ w (or_else (nullable (deviceType f)) (str ""))) ;;
  device_serial <- textAt body "deviceSerial" ;;
  return_reason <- textAt body "returnReason" ;;
  weight_oz <- lift (normalizeWeightOz body) ;;
  checked <- todayIso w ;;
  ret (obj
    [("request_id", str ("mail_" ++ decimal now));
     ("lob_letter_id", str "");
     ("source", str "Lifelinephysical-mail");
     ("created_at_iso", str created);
     ("customer_name", nullable (name f));
     ("customer_email", str customer_email);
     ("customer_phone", nullable (phone f));
     ("from_address1", nullable (address1 f));
     ("from_address2", str (address2 f));
     ("from_city", nullable (city f));
     ("from_state", nullable (state f));
     ("from_zip", nullable (zip f));
     ("device_type", str device_type);
     ("device_serial", str device_serial);
     ("return_reason", str return_reason);
     ("weight_oz", weight_oz);
     ("service_type", str "usps_ground_advantage");
     ("tracking_number", str "");
     ("label_id", str "");
     ("postage_total_usd", VNull);
     ("status", str "Exception");
     ("status_last_checked", str checked);
     ("delivered_at", VNull);
     ("latest_event",
      str ("Label creation failed (Endicia). HTTP " ++ decimal (resp_status labelResp)))]).

(** [form.set(key, value)] with a string or [null] for a value: the string
    as it is, and [null] as its name. *)
Definition formText (field : option string) : FormEntry :=
  Field (match field with Some s => s | None => "null" end).

Definition lobForm (f : Fields) (combinedPdfBuffer : Pdf.Document)
    : list (string * FormEntry) :=
  ([("to[name]", formText (name f));
    ("to[address_line1]", formText (address1 f))] ++
   (if String.eqb (address2 f) "" then [] else [("to[address_line2]", Field (address2 f))]) ++
   [("to[address_city]", formText (city f));
    ("to[address_state]", formText (state f));
    ("to[address_zip]", formText (zip f));
    ("from[name]", Field (env_or w "LOB_FROM_NAME" "Connect America Returns"));
    ("from[address_line1]", Field (env_or w "LOB_FROM_ADDRESS1" "3 Bala Plaza West"));
    ("from[address_city]", Field (env_or w "LOB_FROM_CITY" "Bala Cynwyd"));
    ("from[address_state]", Field (env_or w "LOB_FROM_STATE" "PA"));
    ("from[address_zip]", Field (env_or w "LOB_FROM_ZIP" "19004"));
    ("color", Field "true");
    ("use_type", Field "operational");
    ("file", File combinedPdfBuffer "application/pdf" "return-label-and-instructions.pdf")])%list.

Definition lobRequest (f : Fields) (combinedPdfBuffer : Pdf.Document) : FetchRequest :=
  let key := match env w "LOB_API_KEY" with Some k => k | None => "undefined" end in
  let auth := to_base64 w (key ++ ":") in
  {| fr_url := "https://api.lob.com/v1/letters";
     fr_method := "POST";
     fr_headers := [("Authorization", "Basic " ++ auth)];
     fr_body := FormBody (lobForm f combinedPdfBuffer) |}.

(** The audit record of a request whose letter was not created. *)
Definition lobFailPayload (body : value) (f : Fields) (labelJson trackingNumber weightOz : value)
    (lobResp : FetchResponse) : M value :=
  now <- Date_now w ;;
  created <- todayIso w ;;
  customer_email <- textAt body "email" ;;
  device_type <- lift (String_ w (or_else (nullable (deviceType f)) (str ""))) ;;
  device_serial <- textAt body "deviceSerial" ;;
  return_reason <- textAt body "returnReason" ;;
  checked <- todayIso w ;;
  ret (obj
    [("request_id", str ("mail_" ++ decimal now));
     ("lob_letter_id", str "");
     ("source", str "physical-mail");
     ("created_at_iso", str created);
     ("customer_name", nullable (name f));
     ("customer_email", str customer_email);
     ("customer_phone", nullable (phone f));
     ("from_address1", nullable (address1 f));
     ("from_address2", str (address2 f));
     ("from_city", nullable (city f));
     ("from_state", nullable (state f));
     ("from_zip", nullable (zip f));
     ("device_type", str device_type);
     ("device_serial", str device_serial);
     ("return_reason", str return_reason);
     ("weight_oz", weightOz);
     ("service_type",
      or_else (opt_get labelJson "service_type") (str "usps_ground_advantage"));
     ("tracking_number", trackingNumber);
     ("label_id", or_else (opt_get labelJson "label_id") (str ""));
     ("postage_total_usd",
      coalesce (opt_get (opt_get labelJson "shipment_cost") "total_amount") VNull);
     ("status", str "Exception");
     ("status_last_checked", str checked);
     ("delivered_at", VNull);
     ("latest_event",
      str ("Lob letter creation failed. HTTP " ++ decimal (resp_status lobResp)))]).

(** The audit record of a mailed packet. *)
Definition successPayload (body : value) (f : Fields)
    (labelJson trackingNumber weightOz lobJson : value) : M value :=
  lobId <- lift (get lobJson "id") ;;
  created <- todayIso w ;;
  customer_email <- textAt body "email" ;;
  device_type <- lift (String_ w (or_else (nullable (deviceType f)) (str ""))) ;;
  device_serial <- textAt body "deviceSerial" ;;
  return_reason <- textAt body "returnReason" ;;
  checked <- todayIso w ;;
  ret (obj
    [("request_id", lobId);
     ("lob_letter_id", lobId);
     ("source", str "physical-mail");
     ("created_at_iso", str created);
     ("customer_name", nullable (name f));
     ("customer_email", str customer_email);
     ("customer_phone", nullable (phone f));
     ("from_address1", nullable (address1 f));
     ("from_address2", str (address2 f));
     ("from_city", nullable (city f));
     ("from_state", nullable (state f));
     ("from_zip", nullable (zip f));
     ("device_type", str device_type);
     ("device_serial", str device_serial);
     ("return_reason", str return_reason);
     ("weight_oz", weightOz);
     ("service_type",
      or_else (opt_get labelJson "service_type") (str "usps_ground_advantage"));
     ("tracking_number", trackingNumber);
     ("label_id", or_else (opt_get labelJson "label_id") (str ""));
     ("postage_total_usd",
      coalesce (opt_get (opt_get labelJson "shipment_cost") "total_amount") VNull);
     ("status", str "Created");
     ("status_last_checked", str checked);
     ("delivered_at", VNull);
     ("latest_event",
      str (if truthy trackingNumber
           then "Return label created; physical packet mailed."
           else "Return label created (no tracking number returned); physical packet mailed."))]).

(** The audit record of the [catch] at the boundary. *)
Definition crashPayload (e : string) : M value :=
  now <- Date_now w ;;
  created <- todayIso w ;;
  checked <- todayIso w ;;
  ret (obj
    [("request_id", str ("mail_" ++ decimal now));
     ("lob_letter_id", str "");
     ("source", str "Lifelinephysical-mail");
     ("created_at_iso", str created);
     ("customer_name", str "");
     ("customer_email", str "");
     ("customer_phone", str "");
     ("from_address1", str "");
     ("from_address2", str "");
     ("from_city", str "");
     ("from_state", str "");
     ("from_zip", str "");
     ("device_type", str "");
     ("device_serial", str "");
     ("return_reason", str "");
     ("weight_oz", VNull);
     ("service_type", str "usps_ground_advantage");
     ("tracking_number", str "");
     ("label_id", str "");
     ("postage_total_usd", VNull);
     ("status", str "Exception");
     ("status_last_checked", str checked);
     ("delivered_at", VNull);
     ("latest_event", str ("Unhandled error: " ++ e))]).

(** From "3) Create Lob letter" to the end of the [try] block. *)
Definition mailLetter (body : value) (f : Fields) (labelJson trackingNumber weightOz : value)
    (combinedPdfBuffer : Pdf.Document) : M Response :=
  lobResp <- do_fetch w (lobRequest f combinedPdfBuffer) ;;
  let lobJson := json_or_null lobResp in
  if negb (resp_ok lobResp) || negb (truthy (opt_get lobJson "id")) then
    failPayload <- lobFailPayload body f labelJson trackingNumber weightOz lobResp ;;
    postToSheets SHEETS_WEBHOOK_URL failPayload ;;;
    ret (sendJson 400
           (obj [("ok", VBool false);
                 ("error", str "Lob letter creation failed");
                 ("httpStatus", VNumber (number_of_N (resp_status lobResp)));
                 ("details", lobJson)]))
  else
    sheetsPayload <- successPayload body f labelJson trackingNumber weightOz lobJson ;;
    sheetsLogged <- postToSheets SHEETS_WEBHOOK_URL sheetsPayload ;;
    lobId <- lift (get lobJson "id") ;;
    lobStatus <- lift (get lobJson "status") ;;
    ret (sendJson 200
           (obj [("ok", VBool true);
                 ("uspsTrackingNumber", or_else trackingNumber VNull);
                 ("lobLetterId", lobId);
                 ("lobStatus", or_else lobStatus VNull);
                 ("sheetsLogged", sheetsLogged)])).

(** From "1) Generate USPS label" to "3) Create Lob letter". *)
Definition createAndMail (req : Request) (body : value) (f : Fields) : M Response :=
  labelResp <- do_fetch w (labelRequest req body) ;;
  let labelJson := json_or_null labelResp in
  if negb (resp_ok labelResp) || negb (truthy (opt_get labelJson "ok"))
     || negb (truthy (opt_get labelJson "labelData")) then
    failPayload <- labelFailPayload body f labelResp ;;
    postToSheets SHEETS_WEBHOOK_URL failPayload ;;;
    ret (sendJson 400
           (obj [("ok", VBool false);
                 ("error", str "Label creation failed");
                 ("httpStatus", VNumber (number_of_N (resp_status labelResp)));
                 ("details", labelJson)]))
  else
    t1 <- lift (get labelJson "trackingNumber") ;;
    t2 <- (if truthy t1 then ret VUndefined else lift (get labelJson "tracking_number")) ;;
    let trackingNumber := or_else (or_else t1 t2) (str "") in
    weightOz <- lift (normalizeWeightOz body) ;;
    labelData <- lift (get labelJson "labelData") ;;
    combinedPdfBuffer <- buildInstructionsPlusLabelPdf labelData ;;
    mailLetter body f labelJson trackingNumber weightOz combinedPdfBuffer.

(** From the test of LOB_API_KEY to the request for a label. *)
Definition validate (req : Request) (body : value) : M Response :=
  if String.eqb (env_or w "LOB_API_KEY" "") "" then
    ret (sendJson 500
           (obj [("ok", VBool false); ("error", str "Missing LOB_API_KEY env var")]))
  else
    f <- lift (readFields body) ;;
    let missing := missingFields f in
    if negb (Nat.eqb (List.length missing) 0) then
      failPayload <- missingPayload body f missing ;;
      postToSheets SHEETS_WEBHOOK_URL failPayload ;;;
      ret (sendJson 400
             (obj [("ok", VBool false); ("error", str (missingMessage missing))]))
    else
      createAndMail req body f.

(** [!creds || creds.user !== expectedUser || creds.pass !== expectedPass] *)
Definition refused (creds : option (string * string)) (expectedUser expectedPass : string)
    : bool :=
  match creds with
  | None => true
  | Some (user, pass) =>
      negb (String.eqb user expectedUser) || negb (String.eqb pass expectedPass)
  end.

(** The [try] block after the method test. *)
Definition guarded (req : Request) : M Response :=
  let creds := parseBasicAuth req in
  let expectedUser := env_or w "MAIL_USER" "" in
  let expectedPass := env_or w "MAIL_PASS" "" in
  if String.eqb expectedUser "" || String.eqb expectedPass "" then
    ret (sendJson 500
           (obj [("ok", VBool false); ("error", str "Missing MAIL_USER/MAIL_PASS env vars")]))
  else if refused creds expectedUser expectedPass then
    ret unauthorized
  else
    body <- parseBody req ;;
    validate req body.

Definition handler (req : Request) : M Response :=
  try_catch
    (if negb (String.eqb (req_method req) "POST") then
       ret (sendJson 405 (obj [("ok", VBool false); ("error", str "Method Not Allowed")]))
     else guarded req)
    (fun e =>
       try_catch
         (crash <- crashPayload e ;;
          postToSheets SHEETS_WEBHOOK_URL crash ;;;
          ret tt)
         (fun _ => ret tt) ;;;
       ret (sendJson 500 (obj [("ok", VBool false); ("error", str e)]))).

End Handler.

End MailLabel.

(** ** The draft of api/mail-label.js that logs as "CAphysical-mail" *)

(** Its [sendJson], [unauthorized], [getBaseUrl], [requireField],
    [normalizeWeightOz] and [buildInstructionsPlusLabelPdf] are those of
    [MailLabel], line for line; what differs is written out. *)
Module MailLabelCA.

Import MailLabel.

Section Handler.

Variable w : World.

Definition SHEETS_WEBHOOK_URL : string := env_or w "SHEETS_WEBHOOK_URL" "".
Definition SOURCE : string := "CAphysical-mail".

(** [header.toString().replace("Basic ", "")] on a header that starts with
    "Basic " drops these six code units. *)
Definition parseBasicAuth (req : Request) : option (string * string) :=
  match authorizationHeader req with
  | None => None
  | Some header =>
      if String.eqb header "" || negb (startsWith header "Basic ") then None
      else
        let decoded := base64_to_utf8 w (slice_from (String.length "Basic ") header) in
        split_at_colon decoded
  end.

Definition postToSheets (webhookUrl : string) (payload : value) : M value :=
  emit (EvAudit payload) ;;;
  if String.eqb webhookUrl "" then
    ret (obj [("ok", VBool false);
              ("status", VNumber 0);
              ("error", str "Missing SHEETS_WEBHOOK_URL env var")])
  else
    try_catch
      (r <- do_fetch w (webhookRequest webhookUrl payload) ;;
       ret (obj [("ok", VBool (resp_ok r));
                 ("status", VNumber (number_of_N (resp_status r)));
                 ("body", str (resp_text r))]))
      (fun e => ret (obj [("ok", VBool false); ("status", VNumber 0); ("error", str e)])).

(** [{ ...body, skipLogging: true }] *)
Fixpoint setProp (k : string) (v : value) (props : list (string * value))
    : list (string * value) :=
  match props with
  | [] => [(k, v)]
  | (k', v') :: rest =>
      if String.eqb k k' then (k', v) :: rest else (k', v') :: setProp k v rest
  end.

Fixpoint indexed (i : nat) (items : list value) : list (string * value) :=
  match items with
  | [] => []
  | item :: rest => (decimal (N.of_nat i), item) :: indexed (S i) rest
  end.

Fixpoint units (s : string) : list value :=
  match s with
  | EmptyString => []
  | String c rest => VString (String c "") :: units rest
  end.

Definition spread (v : value) : list (string * value) :=
  match v with
  | VObject props => props
  | VArray items => indexed 0 items
  | VString s => indexed 0 (units s)
  | _ => []
  end.

Definition labelRequest (req : Request) (body : value) : FetchRequest :=
  {| fr_url := getBaseUrl req ++ "/api/create-label";
     fr_method := "POST";
     fr_headers := [("Content-Type", "application/json")];
     fr_body := JsonBody (obj (setProp "skipLogging" (VBool true) (spread body))) |}.

Definition missingPayload (body : value) (f : Fields) (missing : list string) : M value :=
  now <- Date_now w ;;
  created <- todayIso w ;;
  customer_email <- textAt w body "email" ;;
  device_type <- lift (String_ w (or_else (nullable (deviceType f)) (str ""))) ;;
  device_serial <- textAt w body "deviceSerial" ;;
  return_reason <- textAt w body "returnReason" ;;
  weight_oz <- lift (normalizeWeightOz w body) ;;
  checked <- todayIso w ;;
  ret (obj
    [("request_id", str ("mail_" ++ decimal now));
     ("lob_letter_id", str "");
     ("source", str SOURCE);
     ("created_at_iso", str created);
     ("customer_name", or_else (nullable (name f)) (str ""));
     ("customer_email", str customer_email);
     ("customer_phone", or_else (nullable (phone f)) (str ""));
     ("from_address1", or_else (nullable (address1 f)) (str ""));
     ("from_address2", or_else (str (address2 f)) (str ""));
     ("from_city", or_else (nullable (city f)) (str ""));
     ("from_state", or_else (nullable (state f)) (str ""));
     ("from_zip", or_else (nullable (zip f)) (str ""));
     ("device_type", str device_type);
     ("device_serial", str device_serial);
     ("return_reason", str return_reason);
     ("weight_oz", weight_oz);
     ("service_type", str "usps_ground_advantage");
     ("tracking_number", str "");
     ("label_id", str "");
     ("postage_total_usd", VNull);
     ("status", str "Exception");
     ("status_last_checked", str checked);
     ("delivered_at", VNull);
     ("latest_event", str (missingMessage missing))]).

(** The three records written after validation differ in four fields. *)
Definition record (f : Fields) (request_id lob_letter_id weightOz : value)
    (trackingNumber : value) (status latest_event : string) (created checked : string)
    (customer_email device_type device_serial return_reason : string) : value :=
  obj
    [("request_id", request_id);
     ("lob_letter_id", lob_letter_id);
     ("source", str SOURCE);
     ("created_at_iso", str created);
     ("customer_name", nullable (name f));
     ("customer_email", str customer_email);
     ("customer_phone", nullable (phone f));
     ("from_address1", nullable (address1 f));
     ("from_address2", str (address2 f));
     ("from_city", nullable (city f));
     ("from_state", nullable (state f));
     ("from_zip", nullable (zip f));
     ("device_type", str device_type);
     ("device_serial", str device_serial);
     ("return_reason", str return_reason);
     ("weight_oz", weightOz);
     ("service_type", str "usps_ground_advantage");
     ("tracking_number", trackingNumber);
     ("label_id", str "");
     ("postage_total_usd", VNull);
     ("status", str status);
     ("status_last_checked", str checked);
     ("delivered_at", VNull);
     ("latest_event", str latest_event)].

Definition labelFailPayload (body : value) (f : Fields) (labelResp : FetchResponse)
    : M value :=
  now <- Date_now w ;;
  created <- todayIso w ;;
  customer_email <- textAt w body "email" ;;
  device_type <- lift (String_ w (or_else (nullable (deviceType f)) (str ""))) ;;
  device_serial <- textAt w body "deviceSerial" ;;
  return_reason <- textAt w body "returnReason" ;;
  weight_oz <- lift (normalizeWeightOz w body) ;;
  checked <- todayIso w ;;
  ret (record f (str ("mail_" ++ decimal now)) (str "") weight_oz
         (str "") "Exception"
         ("Label creation failed (Endicia). HTTP " ++ decimal (resp_status labelResp))
         created checked customer_email device_type device_serial return_reason).

Definition lobFailPayload (body : value) (f : Fields) (trackingNumber weightOz : value)
    (lobResp : FetchResponse) : M value :=
  now <- Date_now w ;;
  created <- todayIso w ;;
  customer_email <- textAt w body "email" ;;
  device_type <- lift (String_ w (or_else (nullable (deviceType f)) (str ""))) ;;
  device_serial <- textAt w body "deviceSerial" ;;
  return_reason <- textAt w body "returnReason" ;;
  checked <- todayIso w ;;
  ret (record f (str ("mail_" ++ decimal now)) (str "") weightOz
         trackingNumber "Exception"
         ("Lob letter creation failed. HTTP " ++ decimal (resp_status lobResp))
         created checked customer_email device_type device_serial return_reason).

Definition successPayload (body : value) (f : Fields) (trackingNumber weightOz lobJson : value)
    : M value :=
  lobId <- lift (get lobJson "id") ;;
  created <- todayIso w ;;
  customer_email <- textAt w body "email" ;;
  device_type <- lift (String_ w (or_else (nullable (deviceType f)) (str ""))) ;;
  device_serial <- textAt w body "deviceSerial" ;;
  return_reason <- textAt w body "returnReason" ;;
  checked <- todayIso w ;;
  ret (record f lobId lobId weightOz trackingNumber "Created"
         "Return label created; physical packet mailed."
         created checked customer_email device_type device_serial return_reason).

Definition lobForm (f : Fields) (combinedPdfBuffer : Pdf.Document)
    : list (string * FormEntry) :=
  ([("to[name]", formText (name f));
    ("to[address_line1]", formText (address1 f))] ++
   (if String.eqb (address2 f) "" then [] else [("to[address_line2]", Field (address2 f))]) ++
   [("to[address_city]", formText (city f));
    ("to[address_state]", formText (state f));
    ("to[address_zip]", formText (zip f));
    ("from[name]", Field (env_or w "LOB_FROM_NAME" "Connect America Returns"));
    ("from[address_line1]", Field (env_or w "LOB_FROM_ADDRESS1" "3 Bala Plaza West"));
    ("from[address_city]", Field (env_or w "LOB_FROM_CITY" "Bala Cynwyd"));
    ("from[address_state]", Field (env_or w "LOB_FROM_STATE" "PA"));
    ("from[address_zip]", Field (env_or w "LOB_FROM_ZIP" "19004"));
    ("color", Field "true");
    ("use_type", Field "operational");
    ("file", File combinedPdfBuffer "application/pdf" "return-label.pdf")])%list.

Definition lobRequest (f : Fields) (combinedPdfBuffer : Pdf.Document) : FetchRequest :=
  let key := match env w "LOB_API_KEY" with Some k => k | None => "undefined" end in
  let auth := to_base64 w (key ++ ":") in
  {| fr_url := "https://api.lob.com/v1/letters";
     fr_method := "POST";
     fr_headers := [("Authorization", "Basic " ++ auth)];
     fr_body := FormBody (lobForm f combinedPdfBuffer) |}.

(** From "3) Send to Lob" to the end of the [try] block. *)
Definition mailLetter (body : value) (f : Fields) (trackingNumber weightOz : value)
    (combinedPdfBuffer : Pdf.Document) : M Response :=
  lobResp <- do_fetch w (lobRequest f combinedPdfBuffer) ;;
  let lobJson := json_or_null lobResp in
  if negb (resp_ok lobResp) || negb (truthy (opt_get lobJson "id")) then
    failPayload <- lobFailPayload body f trackingNumber weightOz lobResp ;;
    sheetsLogged <- postToSheets SHEETS_WEBHOOK_URL failPayload ;;
    ret (sendJson 400
           (obj [("ok", VBool false);
                 ("error", str "Lob letter creation failed");
                 ("details", lobJson);
                 ("sheetsLogged", sheetsLogged)]))
  else
    sheetsPayload <- successPayload body f trackingNumber weightOz lobJson ;;
    sheetsLogged <- postToSheets SHEETS_WEBHOOK_URL sheetsPayload ;;
    lobId <- lift (get lobJson "id") ;;
    lobStatus <- lift (get lobJson "status") ;;
    ret (sendJson 200
           (obj [("ok", VBool true);
                 ("uspsTrackingNumber", or_else trackingNumber VNull);
                 ("lobLetterId", lobId);
                 ("lobStatus", or_else lobStatus VNull);
                 ("sheetsLogged", sheetsLogged)])).

(** From "1) Generate USPS label" to "3) Send to Lob". *)
Definition createAndMail (req : Request) (body : value) (f : Fields) : M Response :=
  labelResp <- do_fetch w (labelRequest req body) ;;
  let labelJson := json_or_null labelResp in
  if negb (resp_ok labelResp) || negb (truthy (opt_get labelJson "labelData")) then
    failPayload <- labelFailPayload body f labelResp ;;
    sheetsLogged <- postToSheets SHEETS_WEBHOOK_URL failPayload ;;
    ret (sendJson 400
           (obj [("ok", VBool false);
                 ("error", str "Label creation failed");
                 ("details", labelJson);
                 ("sheetsLogged", sheetsLogged)]))
  else
    t1 <- lift (get labelJson "trackingNumber") ;;
    t2 <- (if truthy t1 then ret VUndefined else lift (get labelJson "tracking_number")) ;;
    let trackingNumber := or_else (or_else t1 t2) (str "") in
    weightOz <- lift (normalizeWeightOz w body) ;;
    labelData <- lift (get labelJson "labelData") ;;
    combinedPdfBuffer <- buildInstructionsPlusLabelPdf w labelData ;;
    mailLetter body f trackingNumber weightOz combinedPdfBuffer.

(** From the test of LOB_API_KEY to the request for a label. *)
Definition validate (req : Request) (body : value) : M Response :=
  if String.eqb (env_or w "LOB_API_KEY" "") "" then
    ret (sendJson 500
           (obj [("ok", VBool false); ("error", str "Missing LOB_API_KEY env var")]))
  else
    f <- lift (readFields w body) ;;
    let missing := missingFields f in
    if negb (Nat.eqb (List.length missing) 0) then
      failPayload <- missingPayload body f missing ;;
      sheetsLogged <- postToSheets SHEETS_WEBHOOK_URL failPayload ;;
      ret (sendJson 400
             (obj [("ok", VBool false);
                   ("error", str (missingMessage missing));
                   ("sheetsLogged", sheetsLogged)]))
    else
      createAndMail req body f.

Definition guarded (req : Request) : M Response :=
  let creds := parseBasicAuth req in
  let expectedUser := env_or w "MAIL_USER" "" in
  let expectedPass := env_or w "MAIL_PASS" "" in
  if String.eqb expectedUser "" || String.eqb expectedPass "" then
    ret (sendJson 500
           (obj [("ok", VBool false); ("error", str "Missing MAIL_USER/MAIL_PASS env vars")]))
  else if refused creds expectedUser expectedPass then
    ret unauthorized
  else
    body <- parseBody w req ;;
    validate req body.

Definition handler (req : Request) : M Response :=
  try_catch
    (if negb (String.eqb (req_method req) "POST") then
       ret (sendJson 405 (obj [("ok", VBool false); ("error", str "Method Not Allowed")]))
     else guarded req)
    (fun e => ret (sendJson 500 (obj [("ok", VBool false); ("error", str e)]))).

End Handler.

End MailLabelCA.

(** ** api/create-label.js *)

Module CreateLabel.

Section Handler.

Variable w : World.

Definition SIGNIN_BASE : string :=
  env_or w "SERA_SIGNIN_BASE" "https://signin.stampsendicia.com".
Definition API_BASE : string :=
  env_or w "SERA_API_BASE" "https://api.stampsendicia.com/sera".

(** [process.env.NAME]: a string or [undefined]. *)
Definition env_value (name : string) : value :=
  match env w name with Some s => VString s | None => VUndefined end.

Definition CLIENT_ID : value := env_value "SERA_CLIENT_ID".
Definition CLIENT_SECRET : value := env_value "SERA_CLIENT_SECRET".
Definition REFRESH_TOKEN : value := env_value "SERA_REFRESH_TOKEN".
Definition SHEETS_WEBHOOK_URL : string := env_or w "SHEETS_WEBHOOK_URL" "".

Definition RETURN_TO : value :=
  obj [("name", str "Return Warehouse");
       ("company_name", str "Connect America");
       ("address_line1", str "816 Parkway Drive");
       ("address_line2", str "");
       ("city", str "Broomall");
       ("state_province", str "PA");
       ("postal_code", str "19008");
       ("country_code", str "US");
       ("phone", str "8002862622");
       ("email", str "")].

Definition json (status : N) (o : value) : Response :=
  {| statusCode := status;
     res_headers := [("Content-Type", "application/json")];
     res_body := JsonOut o |}.

Definition postToSheets (webhookUrl : string) (payload : value) : M value :=
  emit (EvAudit payload) ;;;
  if String.eqb webhookUrl "" then ret VNull
  else
    try_catch
      (r <- do_fetch w (MailLabel.webhookRequest webhookUrl payload) ;;
       ret (obj [("ok", VBool (resp_ok r));
                 ("status", VNumber (number_of_N (resp_status r)))]))
      (fun e => ret (obj [("ok", VBool false); ("error", str e)])).

Definition tokenRequest : FetchRequest :=
  {| fr_url := stripTrailingSlashes SIGNIN_BASE ++ "/oauth/token";
     fr_method := "POST";
     fr_headers := [("Content-Type", "application/json")];
     fr_body :=
       JsonBody (obj [("grant_type", str "refresh_token");
                      ("client_id", CLIENT_ID);
                      ("client_secret", CLIENT_SECRET);
                      ("refresh_token", REFRESH_TOKEN)]) |}.

Definition getAccessToken : M value :=
  resp <- do_fetch w tokenRequest ;;
  let data := json_or_null resp in
  if negb (resp_ok resp) || negb (truthy (opt_get data "access_token")) then
    throw ("Error: Token refresh failed. HTTP " ++ decimal (resp_status resp) ++ " " ++
           JSON_stringify w data)
  else
    lift (get data "access_token").

(** [new Date().toISOString().slice(0, 10)] *)
Definition todayYYYYMMDD : M string :=
  iso <- todayIso w ;; ret (String.substring 0 10 iso).

Definition uuidv4 : M string :=
  k <- next_read ;; ret (randomUUID w k).

(** [(body.k || "").trim()] on the value [v] of [body.k]: a TypeError when
    [v] is truthy and no string, with the text V8 gives it. *)
Definition trimmed (k : string) (v : value) : Result string :=
  match or_else v (str "") with
  | VString s => Ok (trim s)
  | _ => Throw ("TypeError: (body." ++ k ++ " || " ++ dquote ++ dquote ++
                ").trim is not a function")
  end.

Record Address : Type := {
  a_name : string;
  a_address_line1 : string;
  a_address_line2 : string;
  a_city : string;
  a_state_province : string;
  a_postal_code : string;
  a_phone : string;
  a_email : string
}.

Definition customerFromAddress (body : value) : M Address :=
  vname <- lift (get body "name") ;;
  name <- lift (trimmed "name" vname) ;;
  vaddress1 <- lift (get body "address1") ;;
  address1 <- lift (trimmed "address1" vaddress1) ;;
  vaddress2 <- lift (get body "address2") ;;
  address2 <- lift (trimmed "address2" vaddress2) ;;
  vcity <- lift (get body "city") ;;
  city <- lift (trimmed "city" vcity) ;;
  vstate <- lift (get body "state") ;;
  state <- lift (trimmed "state" vstate) ;;
  vzip <- lift (get body "zip") ;;
  zip <- lift (trimmed "zip" vzip) ;;
  vphone <- lift (get body "phone") ;;
  phone <- lift (trimmed "phone" vphone) ;;
  vemail <- lift (get body "email") ;;
  email <- lift (trimmed "email" vemail) ;;
  ret {| a_name := name;
         a_address_line1 := address1;
         a_address_line2 := address2;
         a_city := city;
         a_state_province := state;
         a_postal_code := zip;
         a_phone := phone;
         a_email := email |}.

Definition addressValue (a : Address) : value :=
  obj [("name", str (a_name a));
       ("company_name", str "");
       ("address_line1", str (a_address_line1 a));
       ("address_line2", str (a_address_line2 a));
       ("city", str (a_city a));
       ("state_province", str (a_state_province a));
       ("postal_code", str (a_postal_code a));
       ("country_code", str "US");
       ("phone", str (a_phone a));
       ("email", str (a_email a))].

Definition normalizeWeightOz (body : value) : M float :=
  voz <- lift (get body "weightOz") ;;
  oz <- lift (Number_ w voz) ;;
  if Number_isFinite oz && (PrimFloat.eqb oz 16 || PrimFloat.eqb oz 32) then ret oz
  else
    vlbs <- lift (get body "weightLbs") ;;
    lbs <- lift (Number_ w vlbs) ;;
    if Number_isFinite lbs && (PrimFloat.eqb lbs 1 || PrimFloat.eqb lbs 2)
    then ret (PrimFloat.mul lbs 16)
    else ret 32%float.

Definition required : list string :=
  ["name"; "address1"; "city"; "state"; "zip"; "phone"; "deviceType"].

(** [required.filter((k) => !String(body[k] || "").trim())] *)
Fixpoint filterMissing (body : value) (keys : list string) : M (list string) :=
  match keys with
  | [] => ret []
  | k :: rest =>
      v <- lift (get body k) ;;
      text <- lift (String_ w (or_else v (str ""))) ;;
      let blank := String.eqb (trim text) "" in
      others <- filterMissing body rest ;;
      ret (if blank then k :: others else others)
  end.

Definition bodyOf (req : Request) : Result value :=
  match req_body req with
  | VString s => JSON_parse w (if String.eqb s "" then "{}" else s)
  | b => Ok (or_else b (obj []))
  end.

Definition parseBody (req : Request) : M value := lift (bodyOf req).

Definition labelPayload (body : value) (from_address : Address) (weightOz : float)
    : M value :=
  ship_date <- todayYYYYMMDD ;;
  deviceSerial <- lift (get body "deviceSerial") ;;
  reference1 <- lift (trimmed "deviceSerial" deviceSerial) ;;
  returnReason <- lift (get body "returnReason") ;;
  reference2 <- lift (trimmed "returnReason" returnReason) ;;
  ret (obj
    [("from_address", addressValue from_address);
     ("ship_from_address", addressValue from_address);
     ("sender_address", addressValue from_address);
     ("to_address", RETURN_TO);
     ("return_address", RETURN_TO);
     ("service_type", str "usps_ground_advantage");
     ("ship_date", str ship_date);
     ("is_return_label", VBool true);
     ("package",
      obj [("packaging_type", str "package");
           ("weight", VNumber weightOz);
           ("weight_unit", str "ounce")]);
     ("advanced_options", obj [("is_pay_on_use", VBool true)]);
     ("label_options",
      obj [("label_size", str "4x6");
           ("label_format", str "pdf");
           ("label_output_type", str "base64")]);
     ("references",
      obj [("reference1", str reference1); ("reference2", str reference2)]);
     ("is_test_label", VBool false)]).

(** The request for a label, [accessToken] being the text of the token as
    the template of the Authorization header renders it. *)
Definition labelsRequest (accessToken : string) (idempotencyKey : string) (payload : value)
    : FetchRequest :=
  {| fr_url := stripTrailingSlashes API_BASE ++ "/v1/labels";
     fr_method := "POST";
     fr_headers :=
       [("Content-Type", "application/json");
        ("Authorization", "Bearer " ++ accessToken);
        ("Idempotency-Key", idempotencyKey)];
     fr_body := JsonBody payload |}.

Definition sheetsPayload (body : value) (from_address : Address) (weightOz : float)
    (idempotencyKey : string) (labelData trackingNumber : value) : M value :=
  created <- todayIso w ;;
  device_type <- MailLabel.textAt w body "deviceType" ;;
  device_serial <- MailLabel.textAt w body "deviceSerial" ;;
  return_reason <- MailLabel.textAt w body "returnReason" ;;
  service_type <- lift (get labelData "service_type") ;;
  label_id <- lift (get labelData "label_id") ;;
  ret (obj
    [("request_id", str idempotencyKey);
     ("source", str "Connect Print");
     ("created_at_iso", str created);
     ("customer_name", str (a_name from_address));
     ("customer_email", str (a_email from_address));
     ("customer_phone", str (a_phone from_address));
     ("from_address1", str (a_address_line1 from_address));
     ("from_address2", str (a_address_line2 from_address));
     ("from_city", str (a_city from_address));
     ("from_state", str (a_state_province from_address));
     ("from_zip", str (a_postal_code from_address));
     ("device_type", str device_type);
     ("device_serial", str device_serial);
     ("return_reason", str return_reason);
     ("weight_oz", VNumber weightOz);
     ("service_type", or_else service_type (str "usps_ground_advantage"));
     ("tracking_number", trackingNumber);
     ("label_id", or_else label_id (str ""));
     ("postage_total_usd",
      coalesce (opt_get (opt_get labelData "shipment_cost") "total_amount") VNull);
     ("status", str "Created")]).

Definition labelFound (trackingNumber base64 sheetsLogged : value) : Response :=
  json 200
    (obj [("ok", VBool true);
          ("trackingNumber", trackingNumber);
          ("filename", str "usps-pay-on-use-return-label.pdf");
          ("mimeType", str "application/pdf");
          ("labelData", base64);
          ("sheetsLogged", sheetsLogged)]).

(** After the required fields are found present. *)
Definition issueLabel (body : value) (skipLogging : bool) : M Response :=
  from_address <- customerFromAddress body ;;
  if String.eqb (a_name from_address) "" || String.eqb (a_address_line1 from_address) ""
     || String.eqb (a_city from_address) "" || String.eqb (a_state_province from_address) ""
     || String.eqb (a_postal_code from_address) "" then
    ret (json 400
           (obj [("ok", VBool false);
                 ("error",
                  str "From address incomplete (name, address, city, state, zip required).")]))
  else
    weightOz <- normalizeWeightOz body ;;
    accessToken <- getAccessToken ;;
    payload <- labelPayload body from_address weightOz ;;
    idempotencyKey <- uuidv4 ;;
    bearer <- lift (String_ w accessToken) ;;
    labelResp <- do_fetch w (labelsRequest bearer idempotencyKey payload) ;;
    let labelData := json_or_null labelResp in
    if negb (resp_ok labelResp) then
      ret (json (resp_status labelResp)
             (obj [("ok", VBool false);
                   ("error", str "Label creation failed");
                   ("httpStatus", VNumber (number_of_N (resp_status labelResp)));
                   ("details", labelData)]))
    else
      tracking <- lift (get labelData "tracking_number") ;;
      let trackingNumber := or_else tracking (str "") in
      labels <- lift (get labelData "labels") ;;
      label_data <- lift (get labelData "label_data") ;;
      let maybeBase64 :=
        or_else (or_else (opt_get (opt_first labels) "label_data") label_data) VNull in
      sheetsLogged <-
        (if negb skipLogging then
           record <- sheetsPayload body from_address weightOz idempotencyKey
                       labelData trackingNumber ;;
           postToSheets SHEETS_WEBHOOK_URL record
         else ret VNull) ;;
      if truthy maybeBase64 then
        ret (labelFound trackingNumber maybeBase64 sheetsLogged)
      else
        let labelHref := or_else (opt_get (opt_first labels) "href") (str "") in
        if truthy labelHref then
          bearer <- lift (String_ w accessToken) ;;
          url <- lift (String_ w labelHref) ;;
          fileResp <- do_fetch w
            {| fr_url := url;
               fr_method := "GET";
               fr_headers := [("Authorization", "Bearer " ++ bearer)];
               fr_body := NoBody |} ;;
          ret (labelFound trackingNumber (str (to_base64 w (resp_text fileResp))) sheetsLogged)
        else
          ret (json 500
                 (obj [("ok", VBool false);
                       ("error",
                        str "Label created but no label data returned (unexpected response shape).");
                       ("raw", labelData);
                       ("sheetsLogged", sheetsLogged)])).

(** From the reading of [skipLogging] on. *)
Definition validate (body : value) : M Response :=
  let skipLogging :=
    match opt_get body "skipLogging" with VBool true => true | _ => false end in
  missing <- filterMissing body required ;;
  if negb (Nat.eqb (List.length missing) 0) then
    ret (json 400
           (obj [("ok", VBool false);
                 ("error", str ("Missing required fields: " ++ join ", " missing))]))
  else
    issueLabel body skipLogging.

(** The [try] block after the method test. *)
Definition guarded (req : Request) : M Response :=
  if negb (truthy CLIENT_ID) || negb (truthy CLIENT_SECRET) || negb (truthy REFRESH_TOKEN) then
    ret (json 500
           (obj [("ok", VBool false);
                 ("error",
                  str "Missing env vars: SERA_CLIENT_ID, SERA_CLIENT_SECRET, SERA_REFRESH_TOKEN.")]))
  else
    body <- parseBody req ;;
    validate body.

Definition handler (req : Request) : M Response :=
  try_catch
    (if negb (String.eqb (req_method req) "POST") then
       ret (json 405 (obj [("ok", VBool false); ("error", str "Method Not Allowed")]))
     else guarded req)
    (fun e => ret (json 500 (obj [("ok", VBool false); ("error", str e)]))).

End Handler.

End CreateLabel.

(** ** The two routes deployed together *)

(** api/mail-label.js obtains its label by a [fetch] of /api/create-label on
    the host it was itself called on: in a deployment, that request is
    answered by api/create-label.js, in the same environment. *)
Module Deployment.

(** [JSON.parse(JSON.stringify(v))]: what a value is once sent as JSON. *)
Fixpoint viaJson (v : value) : value :=
  match v with
  | VUndefined => VNull
  | VNumber n =>
      if Number_isFinite n
      then (if PrimFloat.eqb n 0 then VNumber 0 else v)
      else VNull
  | VArray items => VArray (map viaJson items)
  | VObject props =>
      VObject
        ((fix sent (l : list (string * value)) : list (string * value) :=
            match l with
            | [] => []
            | (k, VUndefined) :: rest => sent rest
            | (k, x) :: rest => (k, viaJson x) :: sent rest
            end) props)
  | _ => v
  end.

Definition with_fetch (w : World) (f : FetchRequest -> FetchOutcome) : World :=
  {| env := env w;
     StringToNumber := StringToNumber w;
     NumberToString := NumberToString w;
     JSON_parse := JSON_parse w;
     JSON_stringify := JSON_stringify w;
     base64_to_utf8 := base64_to_utf8 w;
     Buffer_from_base64 := Buffer_from_base64 w;
     to_base64 := to_base64 w;
     clock := clock w;
     toISOString := toISOString w;
     randomUUID := randomUUID w;
     fetch := f;
     instructions_file := instructions_file w;
     PDF_load := PDF_load w;
     PDF_embed_first := PDF_embed_first w |}.

Section Routing.

(** The world outside the deployment, and the origin it is served on. *)
Variable w : World.
Variable origin : string.

Definition isCreateLabel (r : FetchRequest) : bool :=
  String.eqb (fr_url r) (origin ++ "/api/create-label").

Definition incoming (r : FetchRequest) : Request :=
  {| req_method := fr_method r;
     req_headers := fun k => assoc k (fr_headers r);
     req_body := match fr_body r with
                 | JsonBody v => viaJson v
                 | _ => VUndefined
                 end |}.

(** The answer of api/create-label.js and the trace it leaves. *)
Definition served (r : FetchRequest) : Result Response * list Event :=
  run (CreateLabel.handler w (incoming r)).

Definition answer (r : Result Response) : FetchOutcome :=
  match r with
  | Ok res =>
      Responded
        {| resp_status := statusCode res;
           resp_json := match res_body res with
                        | JsonOut v => Some (viaJson v)
                        | TextOut _ => None
                        end;
           resp_text := match res_body res with
                        | JsonOut v => JSON_stringify w v
                        | TextOut s => s
                        end |}
  | Throw e => NetworkError e
  end.

(** The network as api/mail-label.js sees it. *)
Definition routed : World :=
  with_fetch w (fun r => if isCreateLabel r then answer (fst (served r)) else fetch w r).

(** The trace of the whole deployment: the events of a call to
    /api/create-label follow the [fetch] that made it. *)
Definition expand (ev : Event) : list Event :=
  match ev with
  | EvFetch r => if isCreateLabel r then ev :: snd (served r) else [ev]
  | EvAudit _ => [ev]
  end.

Definition mailLabel (req : Request) : Result Response * list Event :=
  let (res, t) := run (MailLabel.handler routed req) in
  (res, flat_map expand t).

Definition mailLabelCA (req : Request) : Result Response * list Event :=
  let (res, t) := run (MailLabelCA.handler routed req) in
  (res, flat_map expand t).

End Routing.

End Deployment.

(** ** The draft of api/mail-label.js without audit records *)

(** The second draft kept in api/mail-label.js. Its [sendJson],
    [unauthorized], [getBaseUrl], [requireField], [normalizeWeightOz] and
    [buildInstructionsPlusLabelPdf] are those of [MailLabel] and its
    [parseBasicAuth] is that of [MailLabelCA], line for line. It declares
    SHEETS_WEBHOOK_URL, [todayIso] and [postToSheets] as [MailLabel] does
    and calls none of them; the weight it resolves is not used, though
    resolving it can throw. What differs is written out. *)
Module MailLabelPlain.

Import MailLabel.

Section Handler.

Variable w : World.

(** What [resp.json()] rejects with when the body is no JSON, as [String(e)]
    renders it: this draft awaits it without a [catch]. *)
Variable jsonError : FetchResponse -> string.

(** [await resp.json()] *)
Definition json_of (r : FetchResponse) : Result value :=
  match resp_json r with
  | Some v => Ok v
  | None => Throw (jsonError r)
  end.

Definition lobForm (f : Fields) (combinedPdfBuffer : Pdf.Document)
    : list (string * FormEntry) :=
  ([("to[name]", formText (name f));
    ("to[address_line1]", formText (address1 f))] ++
   (if String.eqb (address2 f) "" then [] else [("to[address_line2]", Field (address2 f))]) ++
   [("to[address_city]", formText (city f));
    ("to[address_state]", formText (state f));
    ("to[address_zip]", formText (zip f));
    ("from[name]", Field (env_or w "LOB_FROM_NAME" "Lifeline"));
    ("from[address_line1]", Field (env_or w "LOB_FROM_ADDRESS1" "3 Bala Plaza West"));
    ("from[address_city]", Field (env_or w "LOB_FROM_CITY" "Bala Cynwyd"));
    ("from[address_state]", Field (env_or w "LOB_FROM_STATE" "PA"));
    ("from[address_zip]", Field (env_or w "LOB_FROM_ZIP" "19004"));
    ("color", Field "true");
    ("use_type", Field "operational");
    ("file", File combinedPdfBuffer "application/pdf" "return-label.pdf")])%list.

Definition lobRequest (f : Fields) (combinedPdfBuffer : Pdf.Document) : FetchRequest :=
  let key := match env w "LOB_API_KEY" with Some k => k | None => "undefined" end in
  let auth := to_base64 w (key ++ ":") in
  {| fr_url := "https://api.lob.com/v1/letters";
     fr_method := "POST";
     fr_headers := [("Authorization", "Basic " ++ auth)];
     fr_body := FormBody (lobForm f combinedPdfBuffer) |}.

(** From "Send to Lob" to the end of the [try] block. *)
Definition mailLetter (f : Fields) (trackingNumber : value)
    (combinedPdfBuffer : Pdf.Document) : M Response :=
  lobResp <- do_fetch w (lobRequest f combinedPdfBuffer) ;;
  lobJson <- lift (json_of lobResp) ;;
  if negb (resp_ok lobResp) || negb (truthy (opt_get lobJson "id")) then
    ret (sendJson 400
           (obj [("ok", VBool false);
                 ("error", str "Lob letter creation failed");
                 ("details", lobJson)]))
  else
    lobId <- lift (get lobJson "id") ;;
    lobStatus <- lift (get lobJson "status") ;;
    ret (sendJson 200
           (obj [("ok", VBool true);
                 ("uspsTrackingNumber", or_else trackingNumber VNull);
                 ("lobLetterId", lobId);
                 ("lobStatus", or_else lobStatus VNull)])).

(** From "Generate USPS label" to "Send to Lob". *)
Definition createAndMail (req : Request) (body : value) (f : Fields) : M Response :=
  labelResp <- do_fetch w (labelRequest req body) ;;
  labelJson <- lift (json_of labelResp) ;;
  if negb (resp_ok labelResp) || negb (truthy (opt_get labelJson "labelData")) then
    ret (sendJson 400
           (obj [("ok", VBool false);
                 ("error", str "Label creation failed");
                 ("details", labelJson)]))
  else
    t1 <- lift (get labelJson "trackingNumber") ;;
    t2 <- (if truthy t1 then ret VUndefined else lift (get labelJson "tracking_number")) ;;
    let trackingNumber := or_else (or_else t1 t2) (str "") in
    weightOz <- lift (normalizeWeightOz w body) ;;
    labelData <- lift (get labelJson "labelData") ;;
    combinedPdfBuffer <- buildInstructionsPlusLabelPdf w labelData ;;
    mailLetter f trackingNumber combinedPdfBuffer.

(** From the test of LOB_API_KEY to the request for a label. *)
Definition validate (req : Request) (body : value) : M Response :=
  if String.eqb (env_or w "LOB_API_KEY" "") "" then
    ret (sendJson 500
           (obj [("ok", VBool false); ("error", str "Missing LOB_API_KEY env var")]))
  else
    f <- lift (readFields w body) ;;
    let missing := missingFields f in
    if negb (Nat.eqb (List.length missing) 0) then
      ret (sendJson 400
             (obj [("ok", VBool false); ("error", str (missingMessage missing))]))
    else
      createAndMail req body f.

Definition guarded (req : Request) : M Response :=
  let creds := MailLabelCA.parseBasicAuth w req in
  let expectedUser := env_or w "MAIL_USER" "" in
  let expectedPass := env_or w "MAIL_PASS" "" in
  if String.eqb expectedUser "" || String.eqb expectedPass "" then
    ret (sendJson 500
           (obj [("ok", VBool false); ("error", str "Missing MAIL_USER/MAIL_PASS env vars")]))
  else if refused creds expectedUser expectedPass then
    ret unauthorized
  else
    body <- parseBody w req ;;
    validate req body.

Definition handler (req : Request) : M Response :=
  try_catch
    (if negb (String.eqb (req_method req) "POST") then
       ret (sendJson 405 (obj [("ok", VBool false); ("error", str "Method Not Allowed")]))
     else guarded req)
    (fun e => ret (sendJson 500 (obj [("ok", VBool false); ("error", str e)]))).

End Handler.

End MailLabelPlain.

(** ** The first drafts of api/mail-label.js *)

(** The draft behind HTTP Basic authentication that asks for five fields.
    Its [sendJson], [unauthorized], [parseBasicAuth], [getBaseUrl] and
    [requireField] are those of [MailLabel], line for line. Its builder
    copies the first page of the label instead of embedding it and hands
    the copy to [drawPage]; what pdf-lib does with it is left open here:
    the handler is embedded over any builder. *)
Module Early.

Import MailLabel.

Section Handler.

Variable w : World.
Variable buildInstructionsPlusLabelPdf : value -> M Pdf.Document.

(** [typeof req.body === "string" ? JSON.parse(req.body) : req.body] *)
Definition bodyOf (req : Request) : Result value :=
  match req_body req with
  | VString s => JSON_parse w s
  | b => Ok b
  end.

(** [address2] is [String(body.address2)] when [body.address2] is truthy. *)
Definition lobForm (name address1 city state zip address2 : option string)
    (combinedPdfBuffer : Pdf.Document) : list (string * FormEntry) :=
  ([("to[name]", formText name);
    ("to[address_line1]", formText address1)] ++
   (match address2 with Some line => [("to[address_line2]", Field line)] | None => [] end) ++
   [("to[address_city]", formText city);
    ("to[address_state]", formText state);
    ("to[address_zip]", formText zip);
    ("from[name]", Field (env_or w "LOB_FROM_NAME" "Connect America Returns"));
    ("from[address_line1]", Field (env_or w "LOB_FROM_ADDRESS1" "3 Bala Plaza West"));
    ("from[address_city]", Field (env_or w "LOB_FROM_CITY" "Bala Cynwyd"));
    ("from[address_state]", Field (env_or w "LOB_FROM_STATE" "PA"));
    ("from[address_zip]", Field (env_or w "LOB_FROM_ZIP" "19004"));
    ("color", Field "true");
    ("file", File combinedPdfBuffer "application/pdf" "return-label-and-instructions.pdf")])%list.

Definition lobRequest (name address1 city state zip address2 : option string)
    (combinedPdfBuffer : Pdf.Document) : FetchRequest :=
  let key := match env w "LOB_API_KEY" with Some k => k | None => "undefined" end in
  let auth := to_base64 w (key ++ ":") in
  {| fr_url := "https://api.lob.com/v1/letters";
     fr_method := "POST";
     fr_headers := [("Authorization", "Basic " ++ auth)];
     fr_body := FormBody (lobForm name address1 city state zip address2 combinedPdfBuffer) |}.

Definition missingMessage : string :=
  "Missing required fields: name, address1, city, state, zip".

(** From the test of LOB_API_KEY to the end of the [try] block. *)
Definition mailTo (req : Request) (body : value) : M Response :=
  if String.eqb (env_or w "LOB_API_KEY" "") "" then
    ret (sendJson 500
           (obj [("ok", VBool false); ("error", str "Missing LOB_API_KEY env var")]))
  else
    name <- lift (requireField w body "name") ;;
    address1 <- lift (requireField w body "address1") ;;
    city <- lift (requireField w body "city") ;;
    state <- lift (requireField w body "state") ;;
    zip <- lift (requireField w body "zip") ;;
    if absent name || absent address1 || absent city || absent state || absent zip then
      ret (sendJson 400 (obj [("ok", VBool false); ("error", str missingMessage)]))
    else
      labelResp <- do_fetch w (labelRequest req body) ;;
      let labelJson := json_or_null labelResp in
      if negb (resp_ok labelResp) || negb (truthy (opt_get labelJson "ok"))
         || negb (truthy (opt_get labelJson "labelData")) then
        ret (sendJson 400
               (obj [("ok", VBool false);
                     ("error", str "Label creation failed");
                     ("details",
                      or_else labelJson
                        (obj [("httpStatus", VNumber (number_of_N (resp_status labelResp)))]))]))
      else
        labelData <- lift (get labelJson "labelData") ;;
        combinedPdfBuffer <- buildInstructionsPlusLabelPdf labelData ;;
        address2 <- lift (get body "address2") ;;
        line2 <- (if truthy address2
                  then text <- lift (String_ w address2) ;; ret (Some text)
                  else ret None) ;;
        lobResp <- do_fetch w
                     (lobRequest name address1 city state zip line2 combinedPdfBuffer) ;;
        let lobJson := json_or_null lobResp in
        if negb (resp_ok lobResp) || negb (truthy (opt_get lobJson "id")) then
          ret (sendJson 400
                 (obj [("ok", VBool false);
                       ("error", str "Lob letter creation failed");
                       ("httpStatus", VNumber (number_of_N (resp_status lobResp)));
                       ("details", lobJson)]))
        else
          trackingNumber <- lift (get labelJson "trackingNumber") ;;
          lobId <- lift (get lobJson "id") ;;
          lobStatus <- lift (get lobJson "status") ;;
          ret (sendJson 200
                 (obj [("ok", VBool true);
                       ("uspsTrackingNumber", or_else trackingNumber VNull);
                       ("lobLetterId", lobId);
                       ("lobStatus", or_else lobStatus VNull)])).

(** The [try] block after the method test. *)
Definition guarded (req : Request) : M Response :=
  let creds := parseBasicAuth w req in
  let expectedUser := env_or w "MAIL_USER" "" in
  let expectedPass := env_or w "MAIL_PASS" "" in
  if String.eqb expectedUser "" || String.eqb expectedPass "" then
    ret (sendJson 500
           (obj [("ok", VBool false); ("error", str "Missing MAIL_USER/MAIL_PASS env vars")]))
  else if refused creds expectedUser expectedPass then
    ret unauthorized
  else
    body <- lift (bodyOf req) ;;
    mailTo req body.

Definition handler (req : Request) : M Response :=
  try_catch
    (if negb (String.eqb (req_method req) "POST") then
       ret (sendJson 405 (obj [("ok", VBool false); ("error", str "Method Not Allowed")]))
     else guarded req)
    (fun e => ret (sendJson 500 (obj [("ok", VBool false); ("error", str e)]))).

End Handler.

End Early.

(** The draft behind an access code. From the test of LOB_API_KEY on it is
    [Early], line for line; so are its helpers and its builder. *)
Module AccessCode.

Import MailLabel.

Section Handler.

Variable w : World.
Variable buildInstructionsPlusLabelPdf : value -> M Pdf.Document.

(** [accessCode !== "072288"] for a variable that holds a string or [null] *)
Definition wrongCode (accessCode : option string) : bool :=
  match accessCode with
  | Some s => negb (String.eqb s "072288")
  | None => true
  end.

(** The [try] block after the method test. *)
Definition guarded (req : Request) : M Response :=
  body <- lift (Early.bodyOf w req) ;;
  accessCode <- lift (requireField w body "accessCode") ;;
  if wrongCode accessCode then
    ret (sendJson 403 (obj [("ok", VBool false); ("error", str "Invalid access code")]))
  else
    Early.mailTo w buildInstructionsPlusLabelPdf req body.

Definition handler (req : Request) : M Response :=
  try_catch
    (if negb (String.eqb (req_method req) "POST") then
       ret (sendJson 405 (obj [("ok", VBool false); ("error", str "Method Not Allowed")]))
     else guarded req)
    (fun e => ret (sendJson 500 (obj [("ok", VBool false); ("error", str e)]))).

End Handler.

End AccessCode.

(** ** Reading a trace *)

Definition audits (t : list Event) : list value :=
  flat_map (fun ev => match ev with EvAudit p => [p] | EvFetch _ => [] end) t.

Definition fetches (t : list Event) : list FetchRequest :=
  flat_map (fun ev => match ev with EvFetch r => [r] | EvAudit _ => [] end) t.

(** ** A world for the examples *)

(** One deployment with its collaborators, small enough to run: the carrier,
    the letter provider and the webhook answer as configured; base64 is the
    real encoding; the number grammar is cut down to unsigned decimal
    integers, which is all the examples send as text. *)
Module Scenario.

Definition alphabet : string :=
  "ABCDEFGHIJKLMNOPQRSTUVWXYZabcdefghijklmnopqrstuvwxyz0123456789+/".

Fixpoint index_of (c : ascii) (s : string) (i : N) : option N :=
  match s with
  | EmptyString => None
  | String c' rest => if Ascii.eqb c c' then Some i else index_of c rest (i + 1)%N
  end.

Definition unit_at (i : N) : ascii :=
  match String.get (N.to_nat i) alphabet with Some c => c | None => "="%char end.

Fixpoint decode (s : string) (acc bits : N) : string :=
  match s with
  | EmptyString => EmptyString
  | String c rest =>
      match index_of c alphabet 0 with
      | None => if Ascii.eqb c "="%char then EmptyString else decode rest acc bits
      | Some v =>
          let acc := (acc * 64 + v)%N in
          let bits := (bits + 6)%N in
          if (8 <=? bits)%N then
            String (ascii_of_N ((acc / 2 ^ (bits - 8)) mod 256)%N)
                   (decode rest (acc mod 2 ^ (bits - 8))%N (bits - 8)%N)
          else decode rest acc bits
      end
  end.

Fixpoint encode (s : string) : string :=
  match s with
  | EmptyString => EmptyString
  | String a EmptyString =>
      let n := (N_of_ascii a * 16)%N in
      String (unit_at (n / 64)) (String (unit_at (n mod 64)) "==")
  | String a (String b EmptyString) =>
      let n := ((N_of_ascii a * 256 + N_of_ascii b) * 4)%N in
      String (unit_at (n / 4096))
        (String (unit_at ((n / 64) mod 64)) (String (unit_at (n mod 64)) "="))
  | String a (String b (String c rest)) =>
      let n := ((N_of_ascii a * 256 + N_of_ascii b) * 256 + N_of_ascii c)%N in
      String (unit_at (n / 262144))
        (String (unit_at ((n / 4096) mod 64))
           (String (unit_at ((n / 64) mod 64)) (String (unit_at (n mod 64)) (encode rest))))
  end.

Fixpoint digits (s : string) (acc : N) : option N :=
  match s with
  | EmptyString => Some acc
  | String c rest =>
      let d := N_of_ascii c in
      if ((48 <=? d) && (d <=? 57))%N then digits rest (acc * 10 + (d - 48))%N else None
  end.

Definition readNumber (s : string) : float :=
  match trim s with
  | EmptyString => PrimFloat.zero
  | t => match digits t 0 with Some n => number_of_N n | None => PrimFloat.nan end
  end.

(** Integers print in decimal (below 10^21, where JavaScript does the same);
    the examples print no fraction. *)
Definition printNumber (n : float) : string :=
  match Prim2SF n with
  | S754_zero _ => "0"
  | S754_nan => "NaN"
  | S754_infinity negative => if negative then "-Infinity" else "Infinity"
  | S754_finite negative m e =>
      let sign := if negative then "-" else "" in
      if (0 <=? e)%Z then sign ++ decimal (N.pos m * 2 ^ Z.to_N e)
      else if (N.pos m mod 2 ^ Z.to_N (- e) =? 0)%N
           then sign ++ decimal (N.pos m / 2 ^ Z.to_N (- e))
           else "NaN"
  end.

Record Config : Type := {
  variables : list (string * string);
  token : FetchOutcome;
  carrier : FetchOutcome;
  letters : FetchOutcome;
  webhook : FetchOutcome
}.

Definition answered (status : N) (body : value) : FetchOutcome :=
  Responded {| resp_status := status; resp_json := Some body; resp_text := "" |}.

Definition hook : string := "https://hooks.example/returns".

Definition configured : list (string * string) :=
  [("MAIL_USER", "ops"); ("MAIL_PASS", "secret"); ("LOB_API_KEY", "live_key");
   ("SHEETS_WEBHOOK_URL", hook);
   ("SERA_CLIENT_ID", "client"); ("SERA_CLIENT_SECRET", "shh");
   ("SERA_REFRESH_TOKEN", "refresh")].

Definition tracking : string := "9400111899223344556677".

(** Every collaborator up and answering. *)
Definition healthy : Config :=
  {| variables := configured;
     token := answered 200 (obj [("access_token", str "at-1"); ("expires_in", VNumber 3600)]);
     carrier := answered 200 (obj [("tracking_number", str tracking);
                                   ("label_id", str "lbl_1");
                                   ("label_data", str "JVBERi0xLjQ=")]);
     letters := answered 200 (obj [("id", str "ltr_1"); ("status", str "processed")]);
     webhook := answered 202 VNull |}.

Definition world (c : Config) : World :=
  {| env := fun k => assoc k (variables c);
     StringToNumber := readNumber;
     NumberToString := printNumber;
     JSON_parse := fun _ => Throw "SyntaxError: Unexpected token";
     JSON_stringify := fun _ => "{}";
     base64_to_utf8 := fun s => decode s 0 0;
     Buffer_from_base64 := fun v =>
       match v with
       | VString s => Ok (decode s 0 0)
       | _ => Throw "TypeError: The first argument must be of type string"
       end;
     to_base64 := encode;
     clock := fun k => (1767225600000 + N.of_nat k)%N;
     toISOString := fun _ => "2026-01-01T00:00:00.000Z";
     randomUUID := fun k => "0b6a3f0e-5c1d-4e8a-9f00-00000000000" ++ decimal (N.of_nat k);
     fetch := fun r =>
       if String.eqb (fr_url r) "https://signin.stampsendicia.com/oauth/token" then token c
       else if String.eqb (fr_url r) "https://api.stampsendicia.com/sera/v1/labels" then carrier c
       else if String.eqb (fr_url r) "https://api.lob.com/v1/letters" then letters c
       else if String.eqb (fr_url r) hook then webhook c
       else NetworkError "TypeError: fetch failed";
     instructions_file := Some "%PDF-1.4 instructions";
     PDF_load := fun _ => Ok 2;
     PDF_embed_first := fun _ => Ok (288%float, 432%float) |}.

Definition origin : string := "https://causps.vercel.app".

Definition headers (authorization : option string) (k : string) : option string :=
  if String.eqb k "host" then Some "causps.vercel.app"
  else if String.eqb k "authorization" then authorization
  else None.

Definition post (authorization : option string) (body : value) : Request :=
  {| req_method := "POST"; req_headers := headers authorization; req_body := body |}.

Definition basic (user pass : string) : option string :=
  Some ("Basic " ++ encode (user ++ ":" ++ pass)).

(** The request of the end-to-end scenario of the specification. *)
Definition jane : value :=
  obj [("name", str "Jane Doe"); ("address1", str "1 Main St");
       ("city", str "Springfield"); ("state", str "IL"); ("zip", str "62704");
       ("phone", str "2175551234"); ("deviceType", str "base-unit");
       ("weightLbs", VNumber 1)].

(** The same request without a name and without a phone number. *)
Definition anonymous : value :=
  obj [("name", str "   "); ("address1", str "1 Main St");
       ("city", str "Springfield"); ("state", str "IL"); ("zip", str "62704");
       ("deviceType", str "base-unit"); ("weightLbs", VNumber 1)].

Definition janeRequest : Request := post (basic "ops" "secret") jane.
Definition anonymousRequest : Request := post (basic "ops" "secret") anonymous.

Definition rejection : FetchResponse :=
  {| resp_status := 422;
     resp_json := Some (obj [("error", obj [("message", str "address undeliverable")])]);
     resp_text := "" |}.

(** The letter provider turns the letter down. *)
Definition lobDown : Config :=
  {| variables := variables healthy;
     token := token healthy;
     carrier := carrier healthy;
     letters := Responded rejection;
     webhook := webhook healthy |}.

(** The composed document of the examples: two pages of instructions, then
    the 4x6 label on a letter page. *)
Definition packet : Pdf.Document :=
  [Pdf.InstructionPage 0; Pdf.InstructionPage 1;
   Pdf.LetterPage 612 792
     {| Pdf.embedded_width := 288;
        Pdf.embedded_height := 432;
        Pdf.at_x := 106;
        Pdf.at_y := 96;
        Pdf.xScale := 600 / 432;
        Pdf.yScale := 600 / 432 |}].

(** The carrier issues a label without a tracking number. *)
Definition untracked : Config :=
  {| variables := variables healthy;
     token := token healthy;
     carrier := answered 200 (obj [("label_id", str "lbl_2"); ("label_data", str "JVBERi0xLjQ=")]);
     letters := letters healthy;
     webhook := webhook healthy |}.

(** A deployment whose inbound user and password were never set. *)
Definition unprotected : Config :=
  {| variables := [("LOB_API_KEY", "live_key"); ("SHEETS_WEBHOOK_URL", hook)];
     token := token healthy;
     carrier := carrier healthy;
     letters := letters healthy;
     webhook := webhook healthy |}.

(** The deployment as api/mail-label.js sees it. *)
Definition deployed (c : Config) : World := Deployment.routed (world c) origin.

End Scenario.

(** ** The vocabulary of the specification *)

(** The state after more events, and after more readings of the clock. *)
Definition logged (s : St) (evs : list Event) : St :=
  {| trace := (trace s ++ evs)%list; reads := reads s |}.

Definition advanced (s : St) (n : nat) : St :=
  {| trace := trace s; reads := n + reads s |}.

Definition statusOf (r : Result Response) : option N :=
  match r with Ok res => Some (statusCode res) | Throw _ => None end.

Definition jsonOf (res : Response) : value :=
  match res_body res with JsonOut v => v | TextOut _ => VUndefined end.

(** *** The placement of the label (section 4.3) *)

(** The drawn label fits the 420 by 600 box and its rectangle keeps 96
    units from the left and from the bottom of the page, up to one unit in
    the last place of each length; and it reaches the box in one direction. *)
Definition fitsBox (p : Layout.Placement float) : bool :=
  PrimFloat.ltb 0 (Layout.drawW p) && PrimFloat.leb (Layout.drawW p) (420 + 0x1p-44) &&
  PrimFloat.ltb 0 (Layout.drawH p) && PrimFloat.leb (Layout.drawH p) (600 + 0x1p-43) &&
  PrimFloat.leb (96 - 0x1p-45) (Layout.x p) &&
  PrimFloat.leb (Layout.x p + Layout.drawW p) 516 &&
  PrimFloat.leb (96 - 0x1p-44) (Layout.y p) &&
  PrimFloat.leb (Layout.y p + Layout.drawH p) (696 + 0x1p-43) &&
  (PrimFloat.leb (420 - 0x1p-44) (Layout.drawW p) ||
   PrimFloat.leb (600 - 0x1p-43) (Layout.drawH p)).

(** [f] holds of the [n] numbers from [k] on. *)
Fixpoint allFrom (n : nat) (k : N) (f : N -> bool) : bool :=
  match n with
  | O => true
  | S n' => f k && allFrom n' (N.succ k) f
  end.

(** *** Weight resolution (section 4.2) *)

(** "Apply in order, first match wins: (a) an explicit ounce value if present
    and accepted; (b) a pounds value converted to ounces (x16) if present and
    accepted; (c) a fixed fallback weight." [None] stands for the fallback. *)
Definition resolveWeight (acceptedOz acceptedLbs : float -> bool) (oz lbs : float)
    : option float :=
  if acceptedOz oz then Some oz
  else if acceptedLbs lbs then Some (PrimFloat.mul lbs 16)
  else None.

(** The ounce and pound values of a request, as numbers: [Number] of the
    field, which throws on a value that has no primitive. *)
Definition ozOf (w : World) (body : value) : Result float :=
  Number_ w (opt_get body "weightOz").
Definition lbsOf (w : World) (body : value) : Result float :=
  Number_ w (opt_get body "weightLbs").

(** The policy with the fallback filled in. *)
Definition resolved (acceptedOz acceptedLbs : float -> bool) (fallback : float)
    (oz lbs : float) : float :=
  match resolveWeight acceptedOz acceptedLbs oz lbs with
  | Some weight => weight
  | None => fallback
  end.

(** What api/mail-label.js accepts: any finite positive number. *)
Definition positive (n : float) : bool :=
  Number_isFinite n && PrimFloat.ltb 0 n.

(** What api/create-label.js accepts: one of two values of the dropdown. *)
Definition oneOf (a b : float) (n : float) : bool :=
  Number_isFinite n && (PrimFloat.eqb n a || PrimFloat.eqb n b).

(** *** Required fields (section 4.6, Validating) *)

Definition requiredFields : list string :=
  ["name"; "address1"; "city"; "state"; "zip"; "phone"; "deviceType"].

(** The fields the handlers render as text or read as a number. *)
Definition convertedKeys : list string :=
  ["name"; "address1"; "address2"; "city"; "state"; "zip"; "phone"; "deviceType";
   "email"; "deviceSerial"; "returnReason"; "weightOz"; "weightLbs"].

(** Every one of them has a text: none is an object with a property
    [toString] of its own, or an array that holds one. *)
Definition Converts (w : World) (body : value) : Prop :=
  forall k, In k convertedKeys -> exists text, String_ w (opt_get body k) = Ok text.

(** A field is missing when it is absent ([undefined] or [null]) or empty
    after trimming. A field that has no text is not missing: reading it
    throws. *)
Definition blank (w : World) (body : value) (key : string) : bool :=
  let v := opt_get body key in
  nullish v ||
  match String_ w v with
  | Ok text => String.eqb (trim text) ""
  | Throw _ => false
  end.

(** The missing fields, in the order of declaration. *)
Definition missingOf (w : World) (body : value) : list string :=
  filter (blank w body) requiredFields.

(** api/create-label.js also takes a falsy value ([0], [false]) for missing. *)
Definition blankOrFalsy (w : World) (body : value) (key : string) : bool :=
  match String_ w (or_else (opt_get body key) (str "")) with
  | Ok text => String.eqb (trim text) ""
  | Throw _ => false
  end.

(** A value a form sends for a field: a string, or nothing. *)
Definition textual (v : value) : bool :=
  match v with
  | VString _ | VUndefined | VNull => true
  | _ => false
  end.

(** *** The inbound credential (section 4.6, Authenticating) *)

Definition Authorized (w : World) (creds : option (string * string)) : Prop :=
  creds = Some (env_or w "MAIL_USER" "", env_or w "MAIL_PASS" "").

(** The credential of a request is absent, unparsable, or not the configured
    one. *)
Inductive Rejected (w : World) (req : Request) : Prop :=
| Absent :
    MailLabel.authorizationHeader req = None -> Rejected w req
| Empty :
    MailLabel.authorizationHeader req = Some "" -> Rejected w req
| NotBasic (header : string) :
    MailLabel.authorizationHeader req = Some header ->
    startsWith header "Basic " = false -> Rejected w req
| NoColon (header : string) :
    MailLabel.authorizationHeader req = Some header ->
    split_at_colon (base64_to_utf8 w (trim (slice_from 6 header))) = None ->
    Rejected w req
| WrongUser (user pass : string) :
    MailLabel.parseBasicAuth w req = Some (user, pass) ->
    user <> env_or w "MAIL_USER" "" -> Rejected w req
| WrongPass (user pass : string) :
    MailLabel.parseBasicAuth w req = Some (user, pass) ->
    pass <> env_or w "MAIL_PASS" "" -> Rejected w req.

(** The same request with another body. *)
Definition withBody (req : Request) (body : value) : Request :=
  {| req_method := req_method req; req_headers := req_headers req; req_body := body |}.

(** A POST request that passes the configuration and credential gates of
    api/mail-label.js with a body that parses. [parse] is the
    [parseBasicAuth] of the draft at hand. *)
Record PastGate (parse : World -> Request -> option (string * string))
    (w : World) (req : Request) (body : value) : Prop := {
  is_post : req_method req = "POST";
  user_set : env_or w "MAIL_USER" "" <> "";
  pass_set : env_or w "MAIL_PASS" "" <> "";
  authorized : Authorized w (parse w req);
  body_parsed : MailLabel.bodyOf w req = Ok body;
  body_not_null : nullish body = false;
  key_set : env_or w "LOB_API_KEY" "" <> ""
}.
Arguments is_post {parse w req body} _.
Arguments user_set {parse w req body} _.
Arguments pass_set {parse w req body} _.
Arguments authorized {parse w req body} _.
Arguments body_parsed {parse w req body} _.
Arguments body_not_null {parse w req body} _.
Arguments key_set {parse w req body} _.

(** *** The stages (section 4.6) *)

(** The tracking number the label stage hands on. *)
Definition trackingOf (labelJson : value) : value :=
  or_else (or_else (opt_get labelJson "trackingNumber") (opt_get labelJson "tracking_number"))
          (str "").

(** Label creation succeeds: /api/create-label answers 2xx with label data
    ([needsOk]: and with a truthy [ok], which api/mail-label.js asks for), and
    the label composes into the document [doc]. *)
Record Labelled (w : World) (request : FetchRequest) (needsOk : bool)
    (labelJson : value) (doc : Pdf.Document) : Prop := {
  label_answer : exists r,
    fetch w request = Responded r /\ resp_ok r = true /\ resp_json r = Some labelJson;
  label_ok : needsOk = true -> truthy (opt_get labelJson "ok") = true;
  label_data : truthy (opt_get labelJson "labelData") = true;
  composed : forall s,
    MailLabel.buildInstructionsPlusLabelPdf w (opt_get labelJson "labelData") s = (Ok doc, s)
}.
Arguments label_answer {w request needsOk labelJson doc} _.
Arguments label_ok {w request needsOk labelJson doc} _ _.
Arguments label_data {w request needsOk labelJson doc} _.
Arguments composed {w request needsOk labelJson doc} _ _.

(** What a request is answered, as JSON ([null] when it is not). *)
Definition answerOf (w : World) (request : FetchRequest) : value :=
  match fetch w request with
  | Responded r => json_or_null r
  | NetworkError _ => VNull
  end.

(** The letter provider answers, and rejects: a status outside 2xx, or no
    letter id. *)
Definition MailRejected (w : World) (request : FetchRequest) (lobResp : FetchResponse)
    : Prop :=
  fetch w request = Responded lobResp /\
  (resp_ok lobResp = false \/ truthy (opt_get (json_or_null lobResp) "id") = false).

(** The letter provider accepts: 2xx with a letter id. *)
Definition MailAccepted (w : World) (request : FetchRequest) (lobJson : value) : Prop :=
  exists lobResp,
    fetch w request = Responded lobResp /\ resp_ok lobResp = true /\
    resp_json lobResp = Some lobJson /\ truthy (opt_get lobJson "id") = true.

(** *** The audit record (section 3) *)

Definition keys (v : value) : list string :=
  match v with
  | VObject props => map fst props
  | _ => []
  end.

(** The fields of the record the sink receives from api/mail-label.js. *)
Definition auditSchema : list string :=
  ["request_id"; "lob_letter_id"; "source"; "created_at_iso";
   "customer_name"; "customer_email"; "customer_phone";
   "from_address1"; "from_address2"; "from_city"; "from_state"; "from_zip";
   "device_type"; "device_serial"; "return_reason"; "weight_oz";
   "service_type"; "tracking_number"; "label_id"; "postage_total_usd";
   "status"; "status_last_checked"; "delivered_at"; "latest_event"].

(** *** The token broker (section 4.1) *)

Definition lacksAccessToken (r : FetchResponse) : Prop :=
  match resp_json r with
  | None => True
  | Some data => truthy (opt_get data "access_token") = false
  end.

Inductive TokenFailure (w : World) : Prop :=
| TokenEndpointUnreachable (e : string) :
    fetch w (CreateLabel.tokenRequest w) = NetworkError e -> TokenFailure w
| InvalidCredentials (r : FetchResponse) :
    fetch w (CreateLabel.tokenRequest w) = Responded r -> resp_ok r = false ->
    TokenFailure w
| MalformedResponse (r : FetchResponse) :
    fetch w (CreateLabel.tokenRequest w) = Responded r -> lacksAccessToken r ->
    TokenFailure w.

(** *** The audit sink (section 4.5) *)

(** The world in which the webhook answers by [sink] instead. *)
Definition withSink (w : World) (sink : FetchRequest -> FetchOutcome) : World :=
  Deployment.with_fetch w
    (fun r => if String.eqb (fr_url r) (env_or w "SHEETS_WEBHOOK_URL" "")
              then sink r else fetch w r).

(** Two computations end in the same state, both returning (related values)
    or both throwing (the same exception). *)
Definition agree {A : Type} (R : A -> A -> Prop) (m1 m2 : M A) : Prop :=
  forall s,
    match m1 s, m2 s with
    | (Ok a1, s1), (Ok a2, s2) => s1 = s2 /\ R a1 a2
    | (Throw e1, s1), (Throw e2, s2) => s1 = s2 /\ e1 = e2
    | _, _ => False
    end.

Definition sameStatus (r1 r2 : Response) : Prop := statusCode r1 = statusCode r2.

Definition anything {A : Type} (_ _ : A) : Prop := True.

(** *** Strings *)

(** No code unit of [s] is a colon. *)
Fixpoint colonFree (s : string) : bool :=
  match s with
  | EmptyString => true
  | String c rest => negb (Ascii.eqb c ":"%char) && colonFree rest
  end.

(** [s] does not begin with white space. *)
Definition startsClean (s : string) : bool :=
  match s with
  | EmptyString => true
  | String c _ => negb (is_space c)
  end.

Fixpoint slashes (n : nat) : string :=
  match n with
  | O => ""
  | S k => String "/" (slashes k)
  end.

Definition endsWithSlash (s : string) : bool :=
  match reverse s with
  | String c _ => Ascii.eqb c "/"%char
  | EmptyString => false
  end.

(** *** What a computation adds to the trace *)

(** Every event [m] adds to the trace satisfies [P]. *)
Definition only {A : Type} (P : Event -> Prop) (m : M A) : Prop :=
  forall s, exists evs, trace (snd (m s)) = (trace s ++ evs)%list /\ Forall P evs.

Definition isFetch (ev : Event) : Prop :=
  match ev with
  | EvFetch _ => True
  | EvAudit _ => False
  end.

(** The number of audit records handed to a sink so far. *)
Definition records (s : St) : nat := List.length (audits (trace s)).

(** [m] hands [f a] records to the sink when it returns [a], and none when
    it throws. *)
Definition tally {A : Type} (f : A -> nat) (m : M A) : Prop :=
  forall s,
    match m s with
    | (Ok a, s') => records s' = records s + f a
    | (Throw _, s') => records s' = records s
    end.

(** The body of a request to api/create-label.js carries
    [skipLogging: true]. *)
Definition skipsLogging (w : World) (req : Request) : Prop :=
  forall body, CreateLabel.bodyOf w req = Ok body -> opt_get body "skipLogging" = VBool true.

(** api/mail-label.js turns a request away at one of its gates: the method,
    the configured user and password, the credential, and, once the body is
    parsed, the key of the letter provider. *)
Definition turnedAway (w : World) (req : Request) : bool :=
  negb (String.eqb (req_method req) "POST")
  || String.eqb (env_or w "MAIL_USER" "") "" || String.eqb (env_or w "MAIL_PASS" "") ""
  || MailLabel.refused (MailLabel.parseBasicAuth w req)
       (env_or w "MAIL_USER" "") (env_or w "MAIL_PASS" "")
  || match MailLabel.bodyOf w req with
     | Ok _ => String.eqb (env_or w "LOB_API_KEY" "") ""
     | Throw _ => false
     end.

(** The records that go with an answer of the draft that logs as
    "CAphysical-mail": one with 200 and with 400, none otherwise. *)
Definition written (res : Response) : nat :=
  if ((statusCode res =? 200) || (statusCode res =? 400))%N then 1 else 0.

(** In a deployment, the event brings no audit record of api/create-label.js
    with it. *)
Definition flat (w : World) (origin : string) (ev : Event) : Prop :=
  audits (Deployment.expand w origin ev) = audits [ev].

(** *** The paths of api/create-label.js *)

(** A POST request to a configured api/create-label.js whose body parses
    and has every required field. *)
Record Validated (w : World) (req : Request) (body : value) : Prop := {
  validated_post : req_method req = "POST";
  validated_id : truthy (CreateLabel.CLIENT_ID w) = true;
  validated_secret : truthy (CreateLabel.CLIENT_SECRET w) = true;
  validated_refresh : truthy (CreateLabel.REFRESH_TOKEN w) = true;
  validated_body : CreateLabel.bodyOf w req = Ok body;
  validated_fields : filter (blankOrFalsy w body) requiredFields = []
}.
Arguments validated_post {w req body} _.
Arguments validated_id {w req body} _.
Arguments validated_secret {w req body} _.
Arguments validated_refresh {w req body} _.
Arguments validated_body {w req body} _.
Arguments validated_fields {w req body} _.

(** The fields [customerFromAddress] trims, and with them the two references
    of the label. *)
Definition customerKeys : list string :=
  ["name"; "address1"; "address2"; "city"; "state"; "zip"; "phone"; "email"].

Definition trimmedKeys : list string :=
  (customerKeys ++ ["deviceSerial"; "returnReason"])%list.

(** Every field that is trimmed is a string, or absent. *)
Definition Textual (body : value) : Prop :=
  forall k, In k trimmedKeys -> textual (opt_get body k) = true.

(** A value [(v || "").trim()] throws on: truthy, and no string. *)
Definition unfit (v : value) : bool :=
  truthy v && match v with VString _ => false | _ => true end.

Definition textOf (v : value) : string :=
  match v with
  | VString s => s
  | _ => ""
  end.

(** The address read off a body whose fields are textual. *)
Definition customerOf (body : value) : CreateLabel.Address :=
  {| CreateLabel.a_name := trim (textOf (opt_get body "name"));
     CreateLabel.a_address_line1 := trim (textOf (opt_get body "address1"));
     CreateLabel.a_address_line2 := trim (textOf (opt_get body "address2"));
     CreateLabel.a_city := trim (textOf (opt_get body "city"));
     CreateLabel.a_state_province := trim (textOf (opt_get body "state"));
     CreateLabel.a_postal_code := trim (textOf (opt_get body "zip"));
     CreateLabel.a_phone := trim (textOf (opt_get body "phone"));
     CreateLabel.a_email := trim (textOf (opt_get body "email")) |}.

(** The weight api/create-label.js resolves from the ounces and pounds of a
    request (see [create_label_weight]). *)
Definition weightOf (oz lbs : float) : float :=
  resolved (oneOf 16 32) (oneOf 1 2) 32 oz lbs.

Definition skipLoggingOf (body : value) : bool :=
  match opt_get body "skipLogging" with
  | VBool true => true
  | _ => false
  end.

(** The token endpoint grants [accessToken], whose text is [bearer]. *)
Definition Granted (w : World) (accessToken : value) (bearer : string) : Prop :=
  exists r data,
    fetch w (CreateLabel.tokenRequest w) = Responded r /\ resp_ok r = true /\
    resp_json r = Some data /\ truthy (opt_get data "access_token") = true /\
    accessToken = opt_get data "access_token" /\ String_ w accessToken = Ok bearer.

(** Whatever is requested of [url] is answered [resp]. *)
Definition Serves (w : World) (url : string) (resp : FetchResponse) : Prop :=
  forall r, fr_url r = url -> fetch w r = Responded resp.

Definition labelsUrl (w : World) : string :=
  stripTrailingSlashes (CreateLabel.API_BASE w) ++ "/v1/labels".

Definition trackingNumberOf (labelData : value) : value :=
  or_else (opt_get labelData "tracking_number") (str "").

(** [labelData.labels?.[0]?.label_data || labelData.label_data || null] *)
Definition inlineLabel (labelData : value) : value :=
  or_else (or_else (opt_get (opt_first (opt_get labelData "labels")) "label_data")
                   (opt_get labelData "label_data"))
          VNull.

(** [labelData.labels?.[0]?.href || ""] *)
Definition labelHref (labelData : value) : value :=
  or_else (opt_get (opt_first (opt_get labelData "labels")) "href") (str "").

(** The carrier issues a label: it answers the label request 2xx with a JSON
    value other than [null]. *)
Record Issued (w : World) (labelResp : FetchResponse) (labelData : value) : Prop := {
  issued_answer : Serves w (labelsUrl w) labelResp;
  issued_ok : resp_ok labelResp = true;
  issued_json : resp_json labelResp = Some labelData;
  issued_object : nullish labelData = false
}.
Arguments issued_answer {w labelResp labelData} _ _ _.
Arguments issued_ok {w labelResp labelData} _.
Arguments issued_json {w labelResp labelData} _.
Arguments issued_object {w labelResp labelData} _.

(** What the logging of api/create-label.js adds to the trace. *)
Definition logging (w : World) (skip : bool) (record : value) : list Event :=
  if skip then []
  else EvAudit record ::
       (if String.eqb (CreateLabel.SHEETS_WEBHOOK_URL w) "" then []
        else [EvFetch (MailLabel.webhookRequest (CreateLabel.SHEETS_WEBHOOK_URL w) record)]).

(** The second check of the address in api/create-label.js. *)
Definition addressIncomplete : Response :=
  CreateLabel.json 400
    (obj [("ok", VBool false);
          ("error", str "From address incomplete (name, address, city, state, zip required).")]).

(** *** What a computation answers *)

(** Whatever [m] returns satisfies [Q]. *)
Definition answers {A : Type} (Q : A -> Prop) (m : M A) : Prop :=
  forall s a s', m s = (Ok a, s') -> Q a.

(** *** More worlds for the examples *)

Module Examples.

Import Scenario.

(** A request for a label, as the form of the print page sends it. *)
Definition labelRequest : Request := post None jane.

(** The same, as api/mail-label.js of the later draft forwards it. *)
Definition quietRequest : Request :=
  post None
    (obj [("name", str "Jane Doe"); ("address1", str "1 Main St");
          ("city", str "Springfield"); ("state", str "IL"); ("zip", str "62704");
          ("phone", str "2175551234"); ("deviceType", str "base-unit");
          ("skipLogging", VBool true)]).

(** The carrier turns the label down. *)
Definition refusal : FetchResponse :=
  {| resp_status := 422;
     resp_json := Some (obj [("message", str "address not found")]);
     resp_text := "" |}.

Definition carrierDown : Config :=
  {| variables := variables healthy;
     token := token healthy;
     carrier := Responded refusal;
     letters := letters healthy;
     webhook := webhook healthy |}.

(** The carrier issues a label and sends neither its data nor a link. *)
Definition bare : value :=
  obj [("tracking_number", str tracking); ("label_id", str "lbl_3")].

Definition noLabelData : Config :=
  {| variables := variables healthy;
     token := token healthy;
     carrier := answered 200 bare;
     letters := letters healthy;
     webhook := webhook healthy |}.

(** The carrier issues a label and sends a link to its file. *)
Definition fileUrl : string := "https://files.example/labels/lbl_4.pdf".

Definition linked : value :=
  obj [("tracking_number", str tracking);
       ("labels", VArray [obj [("href", str fileUrl)]])].

Definition fileResponse : FetchResponse :=
  {| resp_status := 200; resp_json := None; resp_text := "%PDF-1.4 label" |}.

Definition byLink : World :=
  Deployment.with_fetch
    (world {| variables := variables healthy;
              token := token healthy;
              carrier := answered 200 linked;
              letters := letters healthy;
              webhook := webhook healthy |})
    (fun r =>
       if String.eqb (fr_url r) fileUrl then Responded fileResponse
       else if String.eqb (fr_url r) "https://signin.stampsendicia.com/oauth/token"
            then token healthy
       else if String.eqb (fr_url r) "https://api.stampsendicia.com/sera/v1/labels"
            then answered 200 linked
       else NetworkError "TypeError: fetch failed").

(** A request whose ZIP code is a number. *)
Definition numericZip : value :=
  obj [("name", str "Jane Doe"); ("address1", str "1 Main St");
       ("city", str "Springfield"); ("state", str "IL"); ("zip", VNumber 62704);
       ("phone", str "2175551234"); ("deviceType", str "base-unit")].

(** The letter provider cannot be reached. *)
Definition lobUnreachable : Config :=
  {| variables := variables healthy;
     token := token healthy;
     carrier := carrier healthy;
     letters := NetworkError "TypeError: fetch failed";
     webhook := webhook healthy |}.

(** A runtime whose [JSON.parse] reads the text "null". *)
Definition parsing : World :=
  {| env := env (world healthy);
     StringToNumber := readNumber;
     NumberToString := printNumber;
     JSON_parse := fun s =>
       if String.eqb s "null" then Ok VNull else Throw "SyntaxError: Unexpected token";
     JSON_stringify := JSON_stringify (world healthy);
     base64_to_utf8 := base64_to_utf8 (world healthy);
     Buffer_from_base64 := Buffer_from_base64 (world healthy);
     to_base64 := encode;
     clock := clock (world healthy);
     toISOString := toISOString (world healthy);
     randomUUID := randomUUID (world healthy);
     fetch := fetch (world healthy);
     instructions_file := instructions_file (world healthy);
     PDF_load := PDF_load (world healthy);
     PDF_embed_first := PDF_embed_first (world healthy) |}.

(** An authorised request whose body is the JSON text "null". *)
Definition nullRequest : Request := post (basic "ops" "secret") (VString "null").

(** What the handlers read off the request of the scenario. *)
Definition janeFields : MailLabel.Fields :=
  {| MailLabel.name := Some "Jane Doe";
     MailLabel.address1 := Some "1 Main St";
     MailLabel.address2 := EmptyString;
     MailLabel.city := Some "Springfield";
     MailLabel.state := Some "IL";
     MailLabel.zip := Some "62704";
     MailLabel.phone := Some "2175551234";
     MailLabel.deviceType := Some "base-unit" |}.

End Examples.

(** *** The answers and the records *)

(** The statuses api/mail-label.js answers with. *)
Definition mailStatuses : list N := [200; 400; 401; 405; 500]%N.

Definition mailStatus (res : Response) : Prop := In (statusCode res) mailStatuses.

(** The fields of the record api/create-label.js writes. *)
Definition labelSchema : list string :=
  ["request_id"; "source"; "created_at_iso";
   "customer_name"; "customer_email"; "customer_phone";
   "from_address1"; "from_address2"; "from_city"; "from_state"; "from_zip";
   "device_type"; "device_serial"; "return_reason"; "weight_oz";
   "service_type"; "tracking_number"; "label_id"; "postage_total_usd";
   "status"].

(** The record a computation builds, when it builds one, has the fields of
    [schema], in this order. *)
Definition hasKeys {A : Type} (schema : list string) (r : Result value * A) : Prop :=
  match fst r with
  | Ok record => keys record = schema
  | Throw _ => True
  end.

(** *** The drafts that write no record *)

(** A request to the label route of the deployment of [req] or to the
    letters of Lob. *)
Definition toRouteOrLob (req : Request) (ev : Event) : Prop :=
  match ev with
  | EvFetch r =>
      fr_url r = MailLabel.getBaseUrl req ++ "/api/create-label" \/
      fr_url r = "https://api.lob.com/v1/letters"
  | EvAudit _ => False
  end.

(** The statuses the draft behind the access code answers with. *)
Definition accessStatuses : list N := [200; 400; 403; 405; 500]%N.

Definition refusedCode : Response :=
  MailLabel.sendJson 403 (obj [("ok", VBool false); ("error", str "Invalid access code")]).

Module Drafts.

Import Scenario.

(** The label route answers with the error page of a gateway. *)
Definition errorPage : FetchResponse :=
  {| resp_status := 502; resp_json := None; resp_text := "<html>Bad Gateway</html>" |}.

Definition behindGateway : World :=
  Deployment.with_fetch (world healthy) (fun _ => Responded errorPage).

(** A text for what [resp.json()] rejects with on this page; the text
    differs from one version of Node to the next. *)
Definition jsonError (r : FetchResponse) : string :=
  "SyntaxError: Unexpected token < in JSON at position 0".

(** A request that carries the access code, with spaces around it. *)
Definition withCode : Request :=
  post None
    (obj [("accessCode", str " 072288 "); ("name", str "Jane Doe");
          ("address1", str "1 Main St"); ("city", str "Springfield");
          ("state", str "IL"); ("zip", str "62704")]).

(** A builder of the combined document, for the examples. *)
Definition builder (labelBase64 : value) : M Pdf.Document := ret packet.

End Drafts.

(** * Properties *)

Set Warnings "-inexact-float".

(** ** Document composition (section 4.3) *)

Section Geometry.

Import Layout.

(** The builder draws the label where [placeLabel] puts it, on a letter
    page appended after the instruction pages. *)
Lemma build_places_label (w : World) (labelBase64 : value) (bytes : string)
    (width height : float) (s : St) :
  Buffer_from_base64 w labelBase64 = Ok bytes ->
  PDF_embed_first w bytes = Ok (width, height) ->
  (forall instr, instructions_file w = Some instr -> exists n, PDF_load w instr = Ok n) ->
  exists pages,
    MailLabel.buildInstructionsPlusLabelPdf w labelBase64 s =
      (Ok (pages ++
           [Pdf.LetterPage 612 792
              {| Pdf.embedded_width := width;
                 Pdf.embedded_height := height;
                 Pdf.at_x := x (placeLabel width height);
                 Pdf.at_y := y (placeLabel width height);
                 Pdf.xScale := scale (placeLabel width height);
                 Pdf.yScale := scale (placeLabel width height) |}])%list, s) /\
    forall page, In page pages -> exists i, page = Pdf.InstructionPage i.
Proof.
  intros B E I.
  unfold MailLabel.buildInstructionsPlusLabelPdf, bind, lift, ret.
  rewrite B.
  destruct (instructions_file w) as [instr|].
  - destruct (I instr eq_refl) as [n L]. rewrite L, E.
    eexists. split; [reflexivity|].
    intros page H. apply in_map_iff in H. destruct H as (i & <- & _). eauto.
  - rewrite E. exists []. split; [reflexivity|]. intros page [].
Qed.

(** In doubles, the placement is these formulas, each operation rounded. *)
Lemma placeLabel_formulas (width height : float) :
  let p := placeLabel width height in
  scale p = Math_min (420 / width) (600 / height) /\
  drawW p = (width * scale p)%float /\
  drawH p = (height * scale p)%float /\
  x p = ((612 - drawW p) / 2)%float /\
  y p = ((792 - drawH p) / 2)%float.
Proof. cbv zeta. repeat split. Qed.

(** C3. The 4x6 label (288 by 432 units) against the 420 by 600 box: the
    scale is min(420/288, 600/432) = 600/432, about 1.3888; the label is
    drawn 400 by 600 at (106, 96). In doubles the four lengths come out
    exact, and in exact arithmetic the scale is 25/18. *)
Theorem label_4x6_placement :
  let p := placeLabel 288 432 in
  scale p = Math_min (420 / 288) (600 / 432) /\
  scale p = (600 / 432)%float /\
  PrimFloat.ltb 1.3888 (scale p) = true /\
  PrimFloat.ltb (scale p) 1.3889 = true /\
  drawW p = 400%float /\
  drawH p = 600%float /\
  x p = 106%float /\
  y p = 96%float /\
  let q := placeExact 288 432 in
  (scale q == 25 # 18)%Q /\ (drawW q == 400)%Q /\ (drawH q == 600)%Q /\
  (x q == 106)%Q /\ (y q == 96)%Q.
Proof.
  cbv zeta. repeat split; vm_compute; reflexivity.
Qed.

Lemma Qpos_nonzero (q : Q) : (0 < q)%Q -> ~ (q == 0)%Q.
Proof. intros H E. rewrite E in H. exact (Qlt_irrefl 0 H). Qed.

Lemma Qdiv_pos (a b : Q) : (0 < a)%Q -> (0 < b)%Q -> (0 < a / b)%Q.
Proof.
  intros Ha Hb. apply Qlt_shift_div_l; [exact Hb|]. rewrite Qmult_0_l. exact Ha.
Qed.

(** In exact arithmetic the drawn label never exceeds the target box. *)
Lemma exact_within_target (w h : Q) :
  (0 < w)%Q -> (0 < h)%Q ->
  (drawW (placeExact w h) <= 420)%Q /\ (drawH (placeExact w h) <= 600)%Q.
Proof.
  intros Hw Hh. cbn. unfold targetW, targetH.
  pose proof (Qmult_div_r (inject_Z 420) w (Qpos_nonzero w Hw)) as Ew.
  pose proof (Qmult_div_r (inject_Z 600) h (Qpos_nonzero h Hh)) as Eh.
  destruct (Q.min_spec (inject_Z 420 / w) (inject_Z 600 / h)) as [[Hlt He]|[Hle He]];
    rewrite He; split.
  - rewrite Ew. apply Qle_refl.
  - rewrite <- Eh. apply Qmult_le_l; [exact Hh | apply Qlt_le_weak; exact Hlt].
  - rewrite <- Ew. apply Qmult_le_l; [exact Hw | exact Hle].
  - rewrite Eh. apply Qle_refl.
Qed.

Lemma exact_scale_pos (w h : Q) :
  (0 < w)%Q -> (0 < h)%Q -> (0 < scale (placeExact w h))%Q.
Proof.
  intros Hw Hh. cbn. unfold targetW, targetH.
  destruct (Q.min_spec (inject_Z 420 / w) (inject_Z 600 / h)) as [[_ He]|[_ He]];
    rewrite He; apply Qdiv_pos; try assumption; reflexivity.
Qed.

(** A length [d] of at most [page - 192] centred on [page] units starts
    and ends at least 96 units from the edges. *)
Lemma centred_from (d page : Q) :
  (d <= page - 192)%Q -> (96 <= (page - d) / 2)%Q.
Proof. intro H. unfold Qdiv. change (/ 2)%Q with (1 # 2)%Q. lra. Qed.

Lemma centred_upto (d page : Q) :
  (d <= page - 192)%Q -> ((page - d) / 2 + d <= page - 96)%Q.
Proof. intro H. unfold Qdiv. change (/ 2)%Q with (1 # 2)%Q. lra. Qed.

(** In exact arithmetic, for every page of positive width and height: the
    scale is min(420/w, 600/h), the drawn size is the page size times the
    scale, the position centres it on the 612 by 792 page; the aspect ratio
    is kept, the drawn label fits the 420 by 600 box, and its rectangle
    lies within the page, at least 96 units from the left and from the
    bottom. *)
Lemma exact_placement_fits (w h : Q) :
  (0 < w)%Q -> (0 < h)%Q ->
  let p := placeExact w h in
  (scale p == Qmin (420 / w) (600 / h))%Q /\
  (drawW p == w * scale p)%Q /\
  (drawH p == h * scale p)%Q /\
  (x p == (612 - drawW p) / 2)%Q /\
  (y p == (792 - drawH p) / 2)%Q /\
  (drawW p * h == drawH p * w)%Q /\
  (0 < drawW p)%Q /\ (drawW p <= 420)%Q /\
  (0 < drawH p)%Q /\ (drawH p <= 600)%Q /\
  (96 <= x p)%Q /\ (x p + drawW p <= 612 - 96)%Q /\
  (96 <= y p)%Q /\ (y p + drawH p <= 792 - 96)%Q.
Proof.
  intros Hw Hh p.
  destruct (exact_within_target w h Hw Hh) as [HW HH].
  pose proof (exact_scale_pos w h Hw Hh) as Hs.
  assert (PW : (0 < drawW p)%Q).
  { change (0 < w * scale (placeExact w h))%Q.
    rewrite <- (Qmult_0_l (scale (placeExact w h))).
    apply Qmult_lt_compat_r; assumption. }
  assert (PH : (0 < drawH p)%Q).
  { change (0 < h * scale (placeExact w h))%Q.
    rewrite <- (Qmult_0_l (scale (placeExact w h))).
    apply Qmult_lt_compat_r; assumption. }
  assert (EX : (x p == (612 - drawW p) / 2)%Q) by reflexivity.
  assert (EY : (y p == (792 - drawH p) / 2)%Q) by reflexivity.
  fold p in HW, HH.
  repeat split; try reflexivity; try assumption.
  - change (w * scale p * h == h * scale p * w)%Q. ring.
  - rewrite EX. apply centred_from; assumption.
  - rewrite EX. apply centred_upto; assumption.
  - rewrite EY. apply centred_from; assumption.
  - rewrite EY. apply centred_upto; assumption.
Qed.

Lemma allFrom_spec (n : nat) (k : N) (f : N -> bool) :
  allFrom n k f = true -> forall i, (k <= i < k + N.of_nat n)%N -> f i = true.
Proof.
  revert k. induction n as [|n IH]; intros k H i Hi; [lia|].
  cbn [allFrom] in H. apply andb_prop in H as [H0 H1].
  destruct (N.eq_dec i k) as [->|Ne]; [exact H0|].
  apply (IH (N.succ k) H1). lia.
Qed.

Lemma allFrom_grid (n m : nat) (k l : N) (f : N -> N -> bool) :
  allFrom n k (fun i => allFrom m l (f i)) = true ->
  forall i j, (k <= i < k + N.of_nat n)%N -> (l <= j < l + N.of_nat m)%N -> f i j = true.
Proof.
  intros H i j Hi Hj.
  exact (allFrom_spec m l (f i) (allFrom_spec n k _ H i Hi) j Hj).
Qed.

(** The pages of whole width and height, in points, up to 2000 by 2000,
    one after the other. *)
Lemma whole_pages_fit (wd ht : N) :
  (1 <= wd <= 2000)%N -> (1 <= ht <= 2000)%N ->
  fitsBox (placeLabel (number_of_N wd) (number_of_N ht)) = true.
Proof.
  intros Hw Hh.
  apply (allFrom_grid 2000 2000 1 1
           (fun wd ht => fitsBox (placeLabel (number_of_N wd) (number_of_N ht))));
    [vm_compute; reflexivity|lia|lia].
Qed.




(** No bound holds for every positive size: on a page of 1e-310 units the
    quotients overflow, the scale is infinite and so is the drawn label. *)
Lemma tiny_page_overflows :
  let p := placeLabel 1e-310 1e-310 in
  PrimFloat.ltb 0 1e-310 = true /\
  scale p = PrimFloat.infinity /\ drawW p = PrimFloat.infinity /\
  x p = PrimFloat.neg_infinity.
Proof.
  cbv zeta. repeat split; vm_compute; reflexivity.
Qed.

End Geometry.

(** ** Weight resolution (section 4.2) *)

Section Weights.

Variable w : World.

(** api/mail-label.js follows the policy with "accepted" read as finite and
    positive, and [null] for the fallback. *)
Lemma mail_label_weight (body : value) (oz lbs : float) :
  ozOf w body = Ok oz -> lbsOf w body = Ok lbs ->
  MailLabel.normalizeWeightOz w body =
    Ok match resolveWeight positive positive oz lbs with
       | Some weight => VNumber weight
       | None => VNull
       end.
Proof.
  unfold MailLabel.normalizeWeightOz, resolveWeight, positive, ozOf, lbsOf.
  intros -> ->. cbn [and_then].
  destruct (Number_isFinite oz && PrimFloat.ltb 0 oz); [reflexivity|].
  destruct (Number_isFinite lbs && PrimFloat.ltb 0 lbs); reflexivity.
Qed.

(** api/create-label.js follows it with the two values of the dropdown
    for "accepted", and 32 ounces for the fallback. *)
Lemma create_label_weight (body : value) (oz lbs : float) (s : St) :
  nullish body = false ->
  ozOf w body = Ok oz -> lbsOf w body = Ok lbs ->
  CreateLabel.normalizeWeightOz w body s = (Ok (weightOf oz lbs), s).
Proof.
  intros N Hoz Hlbs.
  unfold CreateLabel.normalizeWeightOz, weightOf, resolved, resolveWeight, oneOf,
    bind, lift, ret, get.
  unfold ozOf in Hoz. unfold lbsOf in Hlbs. rewrite N, Hoz.
  destruct (Number_isFinite oz && (PrimFloat.eqb oz 16 || PrimFloat.eqb oz 32)); [reflexivity|].
  rewrite Hlbs.
  destruct (Number_isFinite lbs && (PrimFloat.eqb lbs 1 || PrimFloat.eqb lbs 2)); reflexivity.
Qed.

(** An accepted ounce value wins: the pounds are not read. *)
Lemma ounces_first (body : value) (oz : float) :
  ozOf w body = Ok oz ->
  (positive oz = true -> MailLabel.normalizeWeightOz w body = Ok (VNumber oz)) /\
  (oneOf 16 32 oz = true -> nullish body = false ->
   forall s, CreateLabel.normalizeWeightOz w body s = (Ok oz, s)).
Proof.
  intro Hoz. unfold ozOf in Hoz. split.
  - intro P. unfold MailLabel.normalizeWeightOz. rewrite Hoz. cbn [and_then].
    unfold positive in P. rewrite P. reflexivity.
  - intros P N s. unfold CreateLabel.normalizeWeightOz, bind, lift, ret, get.
    rewrite N, Hoz. unfold oneOf in P. rewrite P. reflexivity.
Qed.

(** A weight that has no number makes the resolution throw: the ounces
    always, the pounds when the ounces are not accepted. *)
Lemma weight_throws (body : value) (e : string) :
  (ozOf w body = Throw e ->
   MailLabel.normalizeWeightOz w body = Throw e /\
   (nullish body = false ->
    forall s, CreateLabel.normalizeWeightOz w body s = (Throw e, s))) /\
  (forall oz,
     ozOf w body = Ok oz -> lbsOf w body = Throw e ->
     (positive oz = false -> MailLabel.normalizeWeightOz w body = Throw e) /\
     (oneOf 16 32 oz = false -> nullish body = false ->
      forall s, CreateLabel.normalizeWeightOz w body s = (Throw e, s))).
Proof.
  unfold ozOf, lbsOf. split.
  - intro Hoz. split.
    + unfold MailLabel.normalizeWeightOz. rewrite Hoz. reflexivity.
    + intros N s. unfold CreateLabel.normalizeWeightOz, bind, lift, get.
      rewrite N, Hoz. reflexivity.
  - intros oz Hoz Hlbs. split.
    + intro P. unfold MailLabel.normalizeWeightOz. rewrite Hoz. cbn [and_then].
      unfold positive in P. rewrite P, Hlbs. reflexivity.
    + intros P N s. unfold CreateLabel.normalizeWeightOz, bind, lift, get.
      rewrite N, Hoz. unfold oneOf in P. rewrite P, Hlbs. reflexivity.
Qed.


End Weights.



(** ** The token broker (section 4.1) *)

Lemma get_of_object (data : value) (k : string) :
  nullish data = false -> get data k = Ok (opt_get data k).
Proof. intro N. unfold get. rewrite N. reflexivity. Qed.

Lemma truthy_property_not_null (data : value) (k : string) :
  truthy (opt_get data k) = true -> nullish data = false.
Proof. destruct data; cbn; congruence. Qed.

(** C9. [getAccessToken] throws exactly when the token endpoint is
    unreachable, answers outside 2xx, or answers without an access token; in
    every other case it returns the access token of the answer. *)
Theorem token_broker (w : World) (s : St) :
  ((exists e s', CreateLabel.getAccessToken w s = (Throw e, s')) <-> TokenFailure w) /\
  (~ TokenFailure w ->
   exists r data,
     fetch w (CreateLabel.tokenRequest w) = Responded r /\
     resp_json r = Some data /\
     CreateLabel.getAccessToken w s =
       (Ok (opt_get data "access_token"), logged s [EvFetch (CreateLabel.tokenRequest w)])).
Proof.
  unfold CreateLabel.getAccessToken, bind, do_fetch, emit, throw, ret, lift, json_or_null.
  split; [split|].
  - intros (e & s' & H).
    destruct (fetch w (CreateLabel.tokenRequest w)) as [e0|r] eqn:F.
    + eapply TokenEndpointUnreachable; eauto.
    + cbn in H. destruct (resp_ok r) eqn:Hok; [|eapply InvalidCredentials; eauto].
      eapply MalformedResponse; eauto. unfold lacksAccessToken.
      destruct (resp_json r) as [data|]; [|exact I].
      cbn in H. destruct (truthy (opt_get data "access_token")) eqn:T; [|reflexivity].
      cbn in H. rewrite (get_of_object _ _ (truthy_property_not_null _ _ T)) in H.
      discriminate.
  - intros [e F|r F Hok|r F L]; rewrite F; cbn.
    + eauto.
    + rewrite Hok. cbn. eauto.
    + unfold lacksAccessToken in L. destruct (resp_json r) as [data|].
      * rewrite L, orb_true_r. eauto.
      * cbn. rewrite orb_true_r. eauto.
  - intros NF.
    destruct (fetch w (CreateLabel.tokenRequest w)) as [e0|r] eqn:F.
    + destruct NF. eapply TokenEndpointUnreachable; eauto.
    + destruct (resp_ok r) eqn:Hok; [|destruct NF; eapply InvalidCredentials; eauto].
      destruct (resp_json r) as [data|] eqn:J.
      * destruct (truthy (opt_get data "access_token")) eqn:T.
        -- exists r, data. split; [reflexivity|]. split; [exact J|].
           unfold bind. cbn. rewrite Hok, J, T. cbn. unfold get.
           rewrite (truthy_property_not_null _ _ T). reflexivity.
        -- destruct NF. eapply MalformedResponse; eauto.
           unfold lacksAccessToken. rewrite J. exact T.
      * destruct NF. eapply MalformedResponse; eauto.
        unfold lacksAccessToken. rewrite J. exact I.
Qed.

Lemma token_broker_healthy :
  fst (CreateLabel.getAccessToken (Scenario.world Scenario.healthy) initial) = Ok (str "at-1").
Proof.
  destruct (token_broker (Scenario.world Scenario.healthy) initial) as [_ H].
  destruct H as (r & data & F & J & ->).
  - intros [e F|r F Hok|r F L]; vm_compute in F.
    + discriminate.
    + injection F as <-. vm_compute in Hok. discriminate.
    + injection F as <-. vm_compute in L. discriminate.
  - vm_compute in F. injection F as <-. vm_compute in J. injection J as <-. reflexivity.
Defined.

(** ** The audit sink (section 4.5) *)

(** [postToSheets] returns, whatever the webhook does: it logs the attempt,
    and sends the record when a URL is configured. *)
Lemma mail_post_runs (w : World) (url : string) (p : value) (s : St) :
  exists outcome,
    MailLabel.postToSheets w url p s =
      (Ok outcome,
       logged s (EvAudit p ::
                 if String.eqb url "" then [] else [EvFetch (MailLabel.webhookRequest url p)])).
Proof.
  unfold MailLabel.postToSheets, bind, emit, try_catch, do_fetch, ret, throw, logged.
  cbn [trace reads].
  destruct (String.eqb url "").
  - eexists. reflexivity.
  - destruct (fetch w (MailLabel.webhookRequest url p)); eexists; cbn;
      rewrite <- app_assoc; reflexivity.
Qed.

Lemma ca_post_runs (w : World) (url : string) (p : value) (s : St) :
  exists outcome,
    MailLabelCA.postToSheets w url p s =
      (Ok outcome,
       logged s (EvAudit p ::
                 if String.eqb url "" then [] else [EvFetch (MailLabel.webhookRequest url p)])).
Proof.
  unfold MailLabelCA.postToSheets, bind, emit, try_catch, do_fetch, ret, throw, logged.
  cbn [trace reads].
  destruct (String.eqb url "").
  - eexists. reflexivity.
  - destruct (fetch w (MailLabel.webhookRequest url p)); eexists; cbn;
      rewrite <- app_assoc; reflexivity.
Qed.

Lemma create_post_runs (w : World) (url : string) (p : value) (s : St) :
  exists outcome,
    CreateLabel.postToSheets w url p s =
      (Ok outcome,
       logged s (EvAudit p ::
                 if String.eqb url "" then [] else [EvFetch (MailLabel.webhookRequest url p)])).
Proof. exact (mail_post_runs w url p s). Qed.

(** ** Computations *)

(** The builder reads no state and leaves none. *)
Lemma build_pure (w : World) (labelBase64 : value) :
  exists r, forall s, MailLabel.buildInstructionsPlusLabelPdf w labelBase64 s = (r, s).
Proof.
  unfold MailLabel.buildInstructionsPlusLabelPdf, bind, lift, ret.
  destruct (Buffer_from_base64 w labelBase64) as [bytes|e]; [|eauto].
  destruct (instructions_file w) as [instr|].
  - destruct (PDF_load w instr) as [n|e]; [|eauto].
    destruct (PDF_embed_first w bytes) as [[width height]|e]; eauto.
  - destruct (PDF_embed_first w bytes) as [[width height]|e]; eauto.
Qed.

(** ** What a handler adds to the trace *)

Section Only.

Context {A B : Type} (P : Event -> Prop).

Lemma only_ret (a : A) : only P (ret a).
Proof. intro s. exists []. cbn. rewrite app_nil_r. auto. Qed.

Lemma only_lift (r : Result A) : only P (lift r).
Proof. intro s. exists []. cbn. rewrite app_nil_r. auto. Qed.

Lemma only_throw (e : string) : only P (throw (A := A) e).
Proof. intro s. exists []. cbn. rewrite app_nil_r. auto. Qed.

Lemma only_bind (m : M A) (k : A -> M B) :
  only P m -> (forall a, only P (k a)) -> only P (bind m k).
Proof.
  intros Hm Hk s. unfold bind. destruct (Hm s) as (e1 & T1 & F1).
  destruct (m s) as [[a|e] s1]; cbn [snd] in *.
  - destruct (Hk a s1) as (e2 & T2 & F2). exists (e1 ++ e2)%list.
    rewrite T2, T1, app_assoc. split; [reflexivity|]. apply Forall_app. auto.
  - exists e1. auto.
Qed.

Lemma only_bind_lift (r : Result A) (k : A -> M B) :
  (forall a, r = Ok a -> only P (k a)) -> only P (bind (lift r) k).
Proof.
  intros Hk. destruct r as [a|e].
  - intro s. exact (Hk a eq_refl s).
  - intro s. exists []. cbn. rewrite app_nil_r. auto.
Qed.

Lemma only_try_catch (m : M A) (h : string -> M A) :
  only P m -> (forall e, only P (h e)) -> only P (try_catch m h).
Proof.
  intros Hm Hh s. unfold try_catch. destruct (Hm s) as (e1 & T1 & F1).
  destruct (m s) as [[a|e] s1]; cbn [snd] in *.
  - exists e1. auto.
  - destruct (Hh e s1) as (e2 & T2 & F2). exists (e1 ++ e2)%list.
    rewrite T2, T1, app_assoc. split; [reflexivity|]. apply Forall_app. auto.
Qed.

End Only.

Lemma only_next (P : Event -> Prop) : only P next_read.
Proof. intro s. exists []. cbn. rewrite app_nil_r. auto. Qed.

Lemma only_emit (P : Event -> Prop) (ev : Event) : P ev -> only P (emit ev).
Proof. intros H s. exists [ev]. cbn. auto. Qed.

Lemma only_fetch (P : Event -> Prop) (w : World) (r : FetchRequest) :
  P (EvFetch r) -> only P (do_fetch w r).
Proof.
  intro H. unfold do_fetch. apply only_bind; [apply only_emit; exact H|].
  intros _. destruct (fetch w r); [apply only_throw|apply only_ret].
Qed.

Lemma only_now (P : Event -> Prop) (w : World) : only P (Date_now w).
Proof. unfold Date_now. apply only_bind; [apply only_next|intro; apply only_ret]. Qed.

Lemma only_today (P : Event -> Prop) (w : World) : only P (todayIso w).
Proof. unfold todayIso. apply only_bind; [apply only_next|intro; apply only_ret]. Qed.

Lemma only_build (P : Event -> Prop) (w : World) (v : value) :
  only P (MailLabel.buildInstructionsPlusLabelPdf w v).
Proof.
  destruct (build_pure w v) as (r & H). intro s. rewrite H. exists [].
  cbn. rewrite app_nil_r. auto.
Qed.

Lemma only_run {A : Type} (P : Event -> Prop) (m : M A) :
  only P m -> Forall P (snd (run m)).
Proof.
  intro H. unfold run. destruct (H initial) as (evs & T & F).
  destruct (m initial) as [r s]. cbn [snd trace initial app] in *. rewrite T. exact F.
Qed.

Ltac branch :=
  cbv beta;
  match goal with
  | |- only _ (if ?c then _ else _) => destruct c
  | |- tally _ (if ?c then _ else _) => destruct c
  end.

Ltac only_step :=
  first
    [ apply only_ret | apply only_lift | apply only_throw | apply only_next
    | apply only_now | apply only_today
    | apply only_fetch
    | apply only_bind; [|intro; cbv beta]
    | apply only_try_catch; [|intro; cbv beta]
    | match goal with
      | |- only _ (if ?c then _ else _) => destruct c
      | |- only _ (match ?x with _ => _ end) => destruct x
      end ].

Lemma audits_app (a b : list Event) : audits (a ++ b) = (audits a ++ audits b)%list.
Proof. unfold audits. apply flat_map_app. Qed.

Lemma audits_fetches (evs : list Event) : Forall isFetch evs -> audits evs = [].
Proof.
  induction 1 as [|ev t H _ IH]; [reflexivity|].
  destruct ev; [exact IH|destruct H].
Qed.

Lemma records_logged (s : St) (evs : list Event) :
  records (logged s evs) = records s + List.length (audits evs).
Proof. unfold records, logged. cbn [trace]. rewrite audits_app, length_app. reflexivity. Qed.

Section Tally.

Context {A B : Type}.

Lemma tally_ret (f : A -> nat) (a : A) : f a = 0 -> tally f (ret a).
Proof. intros H s. cbn. rewrite H. lia. Qed.

Lemma tally_throw (f : A -> nat) (e : string) : tally f (throw e).
Proof. intros s. reflexivity. Qed.

Lemma tally_lift (f : A -> nat) (r : Result A) :
  (forall a, r = Ok a -> f a = 0) -> tally f (lift r).
Proof. intros H s. destruct r as [a|e]; cbn; [rewrite (H a eq_refl); lia|reflexivity]. Qed.

Lemma tally_bind (f : B -> nat) (m : M A) (k : A -> M B) :
  tally (fun _ => 0) m -> (forall a, tally f (k a)) -> tally f (bind m k).
Proof.
  intros Hm Hk s. unfold bind. specialize (Hm s).
  destruct (m s) as [[a|e] s1]; [|exact Hm].
  specialize (Hk a s1). destruct (k a s1) as [[b|e] s2]; lia.
Qed.

Lemma tally_bind_lift (f : B -> nat) (r : Result A) (k : A -> M B) :
  (forall a, r = Ok a -> tally f (k a)) -> tally f (bind (lift r) k).
Proof.
  intros Hk. destruct r as [a|e]; [exact (Hk a eq_refl)|]. intro s. reflexivity.
Qed.

(** Once the record is handed over, what follows returns, whatever the
    state. *)
Lemma tally_then (f : B -> nat) (n : nat) (m : M A) (k : A -> M B) :
  tally (fun _ => n) m ->
  (forall a, exists b, (forall s, k a s = (Ok b, s)) /\ f b = n) ->
  tally f (bind m k).
Proof.
  intros Hm Hk s. unfold bind. specialize (Hm s).
  destruct (m s) as [[a|e] s1]; [|exact Hm].
  destruct (Hk a) as (b & Hb & Hf). rewrite Hb, Hf. exact Hm.
Qed.

Lemma tally_try_catch (f : A -> nat) (m : M A) (h : string -> M A) :
  tally f m -> (forall e, tally f (h e)) -> tally f (try_catch m h).
Proof.
  intros Hm Hh s. unfold try_catch. specialize (Hm s).
  destruct (m s) as [[a|e] s1]; [exact Hm|].
  specialize (Hh e s1). destruct (h e s1) as [[b|e'] s2]; lia.
Qed.

End Tally.

Lemma tally_next : tally (fun _ => 0) next_read.
Proof. intro s. unfold next_read, records. cbn [trace]. lia. Qed.

Lemma tally_now (w : World) : tally (fun _ => 0) (Date_now w).
Proof. unfold Date_now. apply tally_bind; [apply tally_next|intro; apply tally_ret; reflexivity]. Qed.

Lemma tally_today (w : World) : tally (fun _ => 0) (todayIso w).
Proof. unfold todayIso. apply tally_bind; [apply tally_next|intro; apply tally_ret; reflexivity]. Qed.

Lemma tally_fetch (w : World) (r : FetchRequest) : tally (fun _ => 0) (do_fetch w r).
Proof.
  intro s. unfold do_fetch, bind, emit, throw, ret.
  destruct (fetch w r); unfold records; cbn [trace]; rewrite audits_app, length_app; cbn; lia.
Qed.

Lemma tally_build (w : World) (v : value) :
  tally (fun _ => 0) (MailLabel.buildInstructionsPlusLabelPdf w v).
Proof.
  destruct (build_pure w v) as (r & H). intro s. rewrite H. destruct r; lia.
Qed.

Lemma tally_mail_post (w : World) (url : string) (p : value) :
  tally (fun _ => 1) (MailLabel.postToSheets w url p).
Proof.
  intro s. destruct (mail_post_runs w url p s) as (o & ->).
  rewrite records_logged. destruct (String.eqb url ""); reflexivity.
Qed.

Lemma tally_ca_post (w : World) (url : string) (p : value) :
  tally (fun _ => 1) (MailLabelCA.postToSheets w url p).
Proof.
  intro s. destruct (ca_post_runs w url p s) as (o & ->).
  rewrite records_logged. destruct (String.eqb url ""); reflexivity.
Qed.

Ltac tally_step :=
  first
    [ apply tally_ret; reflexivity | apply tally_throw
    | apply tally_next | apply tally_now | apply tally_today | apply tally_fetch
    | apply tally_build
    | apply tally_lift; intros; reflexivity
    | apply tally_bind; [|intro; cbv beta]
    | branch ].

(** After the record, the answer: nothing is left that could throw. *)
Ltac answered :=
  let o := fresh "o" in
  intros o; eexists; split; reflexivity.

(** ** What a handler answers *)

Section Answers.

Context {A B : Type}.

Lemma answers_ret (Q : A -> Prop) (a : A) : Q a -> answers Q (ret a).
Proof. intros H s a' s' E. injection E as <- _. exact H. Qed.

Lemma answers_bind (R : A -> Prop) (Q : B -> Prop) (m : M A) (k : A -> M B) :
  answers R m -> (forall a, R a -> answers Q (k a)) -> answers Q (bind m k).
Proof.
  intros Hm Hk s b s' E. unfold bind in E.
  destruct (m s) as [[a|e] s1] eqn:Em; [|discriminate E].
  exact (Hk a (Hm s a s1 Em) s1 b s' E).
Qed.

Lemma answers_try_catch (Q : A -> Prop) (m : M A) (h : string -> M A) :
  answers Q m -> (forall e, answers Q (h e)) -> answers Q (try_catch m h).
Proof.
  intros Hm Hh s a s' E. unfold try_catch in E.
  destruct (m s) as [[a'|e] s1] eqn:Em.
  - injection E as <- _. exact (Hm s a' s1 Em).
  - exact (Hh e s1 a s' E).
Qed.

Lemma answers_any (m : M A) : answers (fun _ => True) m.
Proof. intros s a s' _. exact I. Qed.

End Answers.

Lemma answers_run {A : Type} (Q : A -> Prop) (m : M A) (a : A) (t : list Event) :
  answers Q m -> run m = (Ok a, t) -> Q a.
Proof.
  intros H E. unfold run in E. destruct (m initial) as [r s] eqn:Em.
  injection E as -> _. exact (H initial a s Em).
Qed.

Ltac answers_step :=
  first
    [ apply answers_ret; cbn; tauto
    | apply (answers_bind (fun _ => True)); [apply answers_any|intros ? _; cbv beta]
    | match goal with |- answers _ (if ?c then _ else _) => destruct c end ].

(** ** The gates and the validation of api/mail-label.js (section 4.6) *)

Lemma eqb_empty_false (x : string) : x <> "" -> String.eqb x "" = false.
Proof. intro H. apply String.eqb_neq. exact H. Qed.

Lemma nonempty_length {A : Type} (l : list A) :
  l <> [] -> negb (Nat.eqb (List.length l) 0) = true.
Proof. destruct l; [congruence | reflexivity]. Qed.

Lemma refused_matching (u p : string) : MailLabel.refused (Some (u, p)) u p = false.
Proof. unfold MailLabel.refused. rewrite !String.eqb_refl. reflexivity. Qed.

(** *** Conversions *)

(** A value that has a text has a number. *)
Lemma converts_number (w : World) (v : value) (text : string) :
  String_ w v = Ok text -> exists n, Number_ w v = Ok n.
Proof.
  unfold String_, Number_, ToNumber. intro H.
  destruct v as [| |[|]| | | |]; eauto; rewrite H; eauto.
Qed.

(** And so has [v || ""]. *)
Lemma converts_or_else (w : World) (v : value) (text : string) :
  String_ w v = Ok text -> exists t, String_ w (or_else v (str "")) = Ok t.
Proof.
  intro H. unfold or_else. destruct (truthy v); [eauto|]. exists "". reflexivity.
Qed.

(** [String(deviceType || "")] on a variable that holds a string or [null]. *)
Lemma String_nullable (w : World) (o : option string) :
  String_ w (or_else (nullable o) (str "")) = Ok (match o with Some s => s | None => "" end).
Proof.
  destruct o as [s|]; [|reflexivity].
  unfold or_else. cbn. destruct (String.eqb s "") eqn:E; [|reflexivity].
  apply String.eqb_eq in E. subst s. reflexivity.
Qed.

Lemma converts_key (w : World) (body : value) (k : string) :
  Converts w body -> In k convertedKeys -> exists text, String_ w (opt_get body k) = Ok text.
Proof. intros C H. exact (C k H). Qed.

Ltac listed := cbn; tauto.

Lemma textAt_runs (w : World) (body : value) (k : string) :
  nullish body = false -> Converts w body -> In k convertedKeys ->
  exists text, forall s, MailLabel.textAt w body k s = (Ok text, s).
Proof.
  intros N C H. destruct (C k H) as (t0 & H0).
  destruct (converts_or_else w _ _ H0) as (t & Ht). exists t. intro s.
  unfold MailLabel.textAt, bind, lift, get. rewrite N, Ht. reflexivity.
Qed.

(** The weight of a request whose fields convert resolves. *)
Lemma weight_runs (w : World) (body : value) :
  Converts w body -> exists weightOz, MailLabel.normalizeWeightOz w body = Ok weightOz.
Proof.
  intro C.
  destruct (C "weightOz" ltac:(listed)) as (t1 & H1).
  destruct (C "weightLbs" ltac:(listed)) as (t2 & H2).
  destruct (converts_number w _ _ H1) as (oz & Hoz).
  destruct (converts_number w _ _ H2) as (lbs & Hlbs).
  eexists. apply (mail_label_weight w body oz lbs Hoz Hlbs).
Qed.

(** [requireField] answers [null] exactly on a blank field, and the trimmed
    text otherwise. *)
Lemma requireField_text (w : World) (body : value) (key text : string) :
  String_ w (opt_get body key) = Ok text ->
  MailLabel.requireField w body key =
    Ok (if blank w body key then None else Some (trim text)).
Proof.
  intro H. unfold MailLabel.requireField, blank. rewrite H.
  destruct (nullish (opt_get body key)); [reflexivity|].
  cbn. destruct (String.eqb _ ""); reflexivity.
Qed.

(** The fields of a request whose fields convert are read, and the seven
    pushes collect the blank ones in the order of declaration. *)
Lemma readFields_runs (w : World) (body : value) :
  Converts w body ->
  exists f, MailLabel.readFields w body = Ok f /\ MailLabel.missingFields f = missingOf w body.
Proof.
  intro C.
  destruct (C "name" ltac:(listed)) as (t1 & H1).
  destruct (C "address1" ltac:(listed)) as (t2 & H2).
  destruct (C "address2" ltac:(listed)) as (t3 & H3).
  destruct (C "city" ltac:(listed)) as (t4 & H4).
  destruct (C "state" ltac:(listed)) as (t5 & H5).
  destruct (C "zip" ltac:(listed)) as (t6 & H6).
  destruct (C "phone" ltac:(listed)) as (t7 & H7).
  destruct (C "deviceType" ltac:(listed)) as (t8 & H8).
  unfold MailLabel.readFields.
  rewrite (requireField_text w body _ _ H1), (requireField_text w body _ _ H2),
    (requireField_text w body _ _ H3), (requireField_text w body _ _ H4),
    (requireField_text w body _ _ H5), (requireField_text w body _ _ H6),
    (requireField_text w body _ _ H7), (requireField_text w body _ _ H8).
  cbn [and_then]. eexists. split; [reflexivity|].
  unfold MailLabel.missingFields, MailLabel.pushIfAbsent, missingOf, requiredFields.
  cbn [MailLabel.name MailLabel.address1 MailLabel.city MailLabel.state MailLabel.zip
       MailLabel.phone MailLabel.deviceType filter].
  destruct (blank w body "name"), (blank w body "address1"), (blank w body "city"),
    (blank w body "state"), (blank w body "zip"), (blank w body "phone"),
    (blank w body "deviceType"); reflexivity.
Qed.

(** What is read determines what is missing. *)
Lemma missingFields_spec (w : World) (body : value) (f : MailLabel.Fields) :
  MailLabel.readFields w body = Ok f -> MailLabel.missingFields f = missingOf w body.
Proof.
  unfold MailLabel.readFields. intro H.
  assert (R : forall k o, MailLabel.requireField w body k = Ok o ->
                          MailLabel.absent o = blank w body k).
  { intros k o. unfold MailLabel.requireField, blank.
    destruct (nullish (opt_get body k)); [intros [= <-]; reflexivity|].
    destruct (String_ w (opt_get body k)) as [text|e]; [|discriminate]. cbn.
    destruct (String.eqb (trim text) ""); intros [= <-]; reflexivity. }
  destruct (MailLabel.requireField w body "name") as [o1|] eqn:E1; [|discriminate H].
  destruct (MailLabel.requireField w body "address1") as [o2|] eqn:E2; [|discriminate H].
  destruct (MailLabel.requireField w body "address2") as [o3|] eqn:E3; [|discriminate H].
  destruct (MailLabel.requireField w body "city") as [o4|] eqn:E4; [|discriminate H].
  destruct (MailLabel.requireField w body "state") as [o5|] eqn:E5; [|discriminate H].
  destruct (MailLabel.requireField w body "zip") as [o6|] eqn:E6; [|discriminate H].
  destruct (MailLabel.requireField w body "phone") as [o7|] eqn:E7; [|discriminate H].
  destruct (MailLabel.requireField w body "deviceType") as [o8|] eqn:E8; [|discriminate H].
  cbn [and_then] in H. injection H as <-.
  unfold MailLabel.missingFields, MailLabel.pushIfAbsent, missingOf, requiredFields.
  cbn [MailLabel.name MailLabel.address1 MailLabel.city MailLabel.state MailLabel.zip
       MailLabel.phone MailLabel.deviceType filter].
  rewrite (R _ _ E1), (R _ _ E2), (R _ _ E4), (R _ _ E5), (R _ _ E6), (R _ _ E7), (R _ _ E8).
  destruct (blank w body "name"), (blank w body "address1"), (blank w body "city"),
    (blank w body "state"), (blank w body "zip"), (blank w body "phone"),
    (blank w body "deviceType"); reflexivity.
Qed.

Lemma mail_method_post (w : World) (req : Request) (s : St) :
  req_method req = "POST" ->
  MailLabel.handler w req s =
    try_catch (MailLabel.guarded w req)
      (fun e =>
         try_catch
           (crash <- MailLabel.crashPayload w e ;;
            MailLabel.postToSheets w (MailLabel.SHEETS_WEBHOOK_URL w) crash ;;;
            ret tt)
           (fun _ => ret tt) ;;;
         ret (MailLabel.sendJson 500 (obj [("ok", VBool false); ("error", str e)]))) s.
Proof. intro P. unfold MailLabel.handler. rewrite P. reflexivity. Qed.

Lemma mail_gate_passes (w : World) (req : Request) (body : value) (s : St) :
  PastGate MailLabel.parseBasicAuth w req body ->
  MailLabel.guarded w req s = MailLabel.validate w req body s.
Proof.
  intros [_ U P A B _ _]. unfold MailLabel.guarded.
  rewrite (eqb_empty_false _ U), (eqb_empty_false _ P). cbn [orb].
  red in A. rewrite A, refused_matching.
  unfold MailLabel.parseBody, bind, lift. rewrite B. reflexivity.
Qed.

(** A complete request goes on to the label stage. *)
Lemma mail_validate_complete (w : World) (req : Request) (body : value)
    (f : MailLabel.Fields) (s : St) :
  env_or w "LOB_API_KEY" "" <> "" ->
  MailLabel.readFields w body = Ok f ->
  missingOf w body = [] ->
  MailLabel.validate w req body s = MailLabel.createAndMail w req body f s.
Proof.
  intros K Hf Hm. unfold MailLabel.validate.
  rewrite (eqb_empty_false _ K), Hf. unfold bind, lift.
  rewrite (missingFields_spec w body f Hf), Hm. reflexivity.
Qed.

Lemma missingPayload_runs (w : World) (body : value) (f : MailLabel.Fields)
    (missing : list string) (s : St) :
  nullish body = false ->
  Converts w body ->
  exists record,
    MailLabel.missingPayload w body f missing s = (Ok record, advanced s 3) /\
    opt_get record "status" = str "Exception" /\
    opt_get record "latest_event" = str (MailLabel.missingMessage missing).
Proof.
  intros N C.
  destruct (textAt_runs w body "email" N C ltac:(listed)) as (t1 & E1).
  destruct (textAt_runs w body "deviceSerial" N C ltac:(listed)) as (t2 & E2).
  destruct (textAt_runs w body "returnReason" N C ltac:(listed)) as (t3 & E3).
  destruct (weight_runs w body C) as (oz & Eoz).
  unfold MailLabel.missingPayload, Date_now, todayIso, bind, next_read, lift, ret.
  rewrite E1, String_nullable, E2, E3, Eoz. cbn [reads trace].
  eexists. split; [reflexivity|]. split; reflexivity.
Qed.

(** The failure of validation in api/mail-label.js. *)
Lemma mail_validation_failure (w : World) (req : Request) (body : value) :
  PastGate MailLabel.parseBasicAuth w req body ->
  Converts w body ->
  missingOf w body <> [] ->
  exists record,
    run (MailLabel.handler w req) =
      (Ok (MailLabel.sendJson 400
             (obj [("ok", VBool false);
                   ("error", str ("Missing required fields: " ++ join ", " (missingOf w body)))])),
       EvAudit record ::
       (if String.eqb (MailLabel.SHEETS_WEBHOOK_URL w) "" then []
        else [EvFetch (MailLabel.webhookRequest (MailLabel.SHEETS_WEBHOOK_URL w) record)])) /\
    opt_get record "status" = str "Exception" /\
    opt_get record "latest_event" =
      str ("Missing required fields: " ++ join ", " (missingOf w body)).
Proof.
  intros G C Hm.
  destruct (readFields_runs w body C) as (f & Hf & Hmf).
  destruct (missingPayload_runs w body f (missingOf w body) initial (body_not_null G) C)
    as (record & Hrec & Hst & Hev).
  exists record. split; [|split; assumption].
  unfold run. rewrite (mail_method_post w req initial (is_post G)).
  unfold try_catch. rewrite (mail_gate_passes w req body initial G).
  unfold MailLabel.validate.
  rewrite (eqb_empty_false _ (key_set G)), Hf. unfold bind at 1, lift at 1.
  rewrite Hmf, (nonempty_length _ Hm).
  unfold bind at 1. rewrite Hrec.
  unfold bind at 1.
  destruct (mail_post_runs w (MailLabel.SHEETS_WEBHOOK_URL w) record (advanced initial 3))
    as (o & ->).
  reflexivity.
Qed.

(** *** The validation of api/create-label.js *)

Lemma filterMissing_runs (w : World) (body : value) (keys : list string) (s : St) :
  nullish body = false ->
  (forall k, In k keys -> exists text, String_ w (opt_get body k) = Ok text) ->
  CreateLabel.filterMissing w body keys s = (Ok (filter (blankOrFalsy w body) keys), s).
Proof.
  intros N C. induction keys as [|k rest IH]; [reflexivity|].
  cbn [CreateLabel.filterMissing filter].
  destruct (C k ltac:(left; reflexivity)) as (t0 & H0).
  destruct (converts_or_else w _ _ H0) as (t & Ht).
  rewrite (get_of_object _ _ N). unfold bind at 1, lift at 1.
  rewrite Ht. unfold bind at 1, lift at 1.
  unfold bind at 1. rewrite IH by (intros k' H'; apply C; right; exact H').
  unfold ret, blankOrFalsy. rewrite Ht.
  destruct (String.eqb _ ""); reflexivity.
Qed.

(** Every field that is absent or empty after trimming is missing for
    api/create-label.js too, and for textual values nothing else is. *)
Lemma blank_blankOrFalsy (w : World) (body : value) (key : string) :
  blank w body key = true -> blankOrFalsy w body key = true.
Proof.
  unfold blank, blankOrFalsy, or_else.
  destruct (truthy (opt_get body key)) eqn:T.
  - destruct (opt_get body key); try discriminate; cbn; auto.
  - intros _. reflexivity.
Qed.

Lemma blankOrFalsy_textual (w : World) (body : value) (key : string) :
  textual (opt_get body key) = true -> blankOrFalsy w body key = blank w body key.
Proof.
  unfold blank, blankOrFalsy, or_else.
  destruct (opt_get body key) as [| | | |s| |]; try discriminate; intros _; try reflexivity.
  cbn. destruct (String.eqb s "") eqn:E; [|reflexivity].
  apply String.eqb_eq in E. subst s. reflexivity.
Qed.

Lemma missing_both (w : World) (body : value) :
  missingOf w body <> [] -> filter (blankOrFalsy w body) requiredFields <> [].
Proof.
  intros Hm E. apply Hm. unfold missingOf.
  destruct (filter (blank w body) requiredFields) as [|k ks] eqn:F; [reflexivity|].
  assert (In k (filter (blank w body) requiredFields)) as H by (rewrite F; left; reflexivity).
  apply filter_In in H as [Hin Hb].
  assert (In k (filter (blankOrFalsy w body) requiredFields)) as H'.
  { apply filter_In. split; [exact Hin|apply blank_blankOrFalsy; exact Hb]. }
  rewrite E in H'. destruct H'.
Qed.

Lemma required_converted (k : string) : In k requiredFields -> In k convertedKeys.
Proof. cbn. tauto. Qed.

(** A POST request to a configured api/create-label.js with a missing
    required field is answered 400 with the list of the missing fields, in
    the order of declaration, and nothing is fetched or logged. *)
Lemma create_label_validation_failure (w : World) (req : Request) (body : value) :
  req_method req = "POST" ->
  truthy (CreateLabel.CLIENT_ID w) = true ->
  truthy (CreateLabel.CLIENT_SECRET w) = true ->
  truthy (CreateLabel.REFRESH_TOKEN w) = true ->
  CreateLabel.bodyOf w req = Ok body ->
  nullish body = false ->
  Converts w body ->
  filter (blankOrFalsy w body) requiredFields <> [] ->
  run (CreateLabel.handler w req) =
    (Ok (CreateLabel.json 400
           (obj [("ok", VBool false);
                 ("error",
                  str ("Missing required fields: " ++
                       join ", " (filter (blankOrFalsy w body) requiredFields)))])),
     []).
Proof.
  intros P C1 C2 C3 B N C Hm.
  unfold run, CreateLabel.handler, try_catch. rewrite P. cbn [String.eqb Ascii.eqb Bool.eqb negb].
  unfold CreateLabel.guarded. rewrite C1, C2, C3. cbn [negb orb].
  unfold CreateLabel.parseBody. rewrite B. unfold bind at 1, lift at 1.
  unfold CreateLabel.validate, bind at 1.
  change CreateLabel.required with requiredFields.
  rewrite (filterMissing_runs w body requiredFields initial N)
    by (intros k Hk; apply C, required_converted, Hk).
  rewrite (nonempty_length _ Hm). reflexivity.
Qed.

(** A field that has no text is not validated: reading it throws, and the
    request is answered 500 with the text of the exception. *)
Lemma requireField_throws (w : World) (body : value) (k e : string) :
  String_ w (opt_get body k) = Throw e -> MailLabel.requireField w body k = Throw e.
Proof.
  intro H. unfold MailLabel.requireField.
  destruct (nullish (opt_get body k)) eqn:N; [|rewrite H; reflexivity].
  destruct (opt_get body k); discriminate.
Qed.

(** C2, as amended. A POST request with a body that parses, whose fields
    all have a text, and with at least one required field absent or empty
    after trimming fails validation with 400, and no label and no letter is
    requested. In api/mail-label.js, past the configuration and credential
    gates, the message lists exactly the missing fields in the order of
    declaration, and the one audit record, with status "Exception" and the
    same message, is handed to the sink: its post to the webhook, when a
    URL is configured, is the only network call. In api/create-label.js,
    once configured, there is no network call at all, and the message lists
    the missing fields in the same order, a falsy value counting as missing
    too (for textual values the list is the same). *)
Theorem validation_failure (w : World) (req : Request) (body : value) :
  req_method req = "POST" ->
  nullish body = false ->
  Converts w body ->
  missingOf w body <> [] ->
  (PastGate MailLabel.parseBasicAuth w req body ->
   exists record,
     run (MailLabel.handler w req) =
       (Ok (MailLabel.sendJson 400
              (obj [("ok", VBool false);
                    ("error", str ("Missing required fields: " ++ join ", " (missingOf w body)))])),
        EvAudit record ::
        (if String.eqb (MailLabel.SHEETS_WEBHOOK_URL w) "" then []
         else [EvFetch (MailLabel.webhookRequest (MailLabel.SHEETS_WEBHOOK_URL w) record)])) /\
     opt_get record "status" = str "Exception" /\
     opt_get record "latest_event" =
       str ("Missing required fields: " ++ join ", " (missingOf w body))) /\
  (truthy (CreateLabel.CLIENT_ID w) = true ->
   truthy (CreateLabel.CLIENT_SECRET w) = true ->
   truthy (CreateLabel.REFRESH_TOKEN w) = true ->
   CreateLabel.bodyOf w req = Ok body ->
   run (CreateLabel.handler w req) =
     (Ok (CreateLabel.json 400
            (obj [("ok", VBool false);
                  ("error",
                   str ("Missing required fields: " ++
                        join ", " (filter (blankOrFalsy w body) requiredFields)))])),
      []) /\
   ((forall key, In key requiredFields -> textual (opt_get body key) = true) ->
    filter (blankOrFalsy w body) requiredFields = missingOf w body)).
Proof.
  intros P N C Hm. split.
  - intro G. apply mail_validation_failure; assumption.
  - intros C1 C2 C3 B. split.
    + apply create_label_validation_failure; try assumption.
      apply missing_both. exact Hm.
    + intro T. apply filter_ext_in. intros k Hk.
      apply blankOrFalsy_textual. apply T. exact Hk.
Qed.

Lemma anonymous_past_gate :
  PastGate MailLabel.parseBasicAuth (Scenario.world Scenario.healthy)
    Scenario.anonymousRequest Scenario.anonymous.
Proof.
  split; try reflexivity; intro H; vm_compute in H; discriminate.
Qed.

Ltac converts :=
  let k := fresh "k" in
  let H := fresh "H" in
  intros k H; cbn in H;
  repeat (destruct H as [<-|H]; [eexists; vm_compute; reflexivity|]);
  destruct H.

Lemma anonymous_converts :
  Converts (Scenario.world Scenario.healthy) Scenario.anonymous.
Proof. converts. Qed.

Lemma validation_failure_anonymous :
  missingOf (Scenario.world Scenario.healthy) Scenario.anonymous = ["name"; "phone"] /\
  (exists record,
     run (MailLabel.handler (Scenario.world Scenario.healthy) Scenario.anonymousRequest) =
       (Ok (MailLabel.sendJson 400
              (obj [("ok", VBool false);
                    ("error", str "Missing required fields: name, phone")])),
        [EvAudit record;
         EvFetch (MailLabel.webhookRequest Scenario.hook record)])) /\
  run (CreateLabel.handler (Scenario.world Scenario.healthy) Scenario.anonymousRequest) =
    (Ok (CreateLabel.json 400
           (obj [("ok", VBool false);
                 ("error", str "Missing required fields: name, phone")])),
     []).
Proof.
  split; [reflexivity|].
  destruct (validation_failure (Scenario.world Scenario.healthy) Scenario.anonymousRequest
              Scenario.anonymous eq_refl eq_refl anonymous_converts)
    as [Mail Create].
  - intro E. vm_compute in E. discriminate.
  - split.
    + destruct (Mail anonymous_past_gate) as (record & H & _).
      exists record. exact H.
    + destruct (Create eq_refl eq_refl eq_refl eq_refl) as [H _]. exact H.
Defined.

(** C2, as stated, fails on api/mail-label.js: with the webhook configured,
    a request without a name is answered 400 after one network call, the post
    of its audit record. *)
Lemma validation_failure_posts_audit :
  blank (Scenario.world Scenario.healthy) Scenario.anonymous "name" = true /\
  statusOf (fst (run (MailLabel.handler (Scenario.world Scenario.healthy)
                        Scenario.anonymousRequest))) = Some 400%N /\
  map fr_url (fetches (snd (run (MailLabel.handler (Scenario.world Scenario.healthy)
                                   Scenario.anonymousRequest)))) = [Scenario.hook].
Proof. repeat split; vm_compute; reflexivity. Qed.

(** A rejected credential is one that [parseBasicAuth] does not read as the
    configured pair, and conversely. *)
Lemma rejected_refused (w : World) (req : Request) :
  Rejected w req ->
  MailLabel.refused (MailLabel.parseBasicAuth w req)
    (env_or w "MAIL_USER" "") (env_or w "MAIL_PASS" "") = true.
Proof.
  intros [H|H|h H S|h H C|u p H U|u p H P]; unfold MailLabel.parseBasicAuth in *.
  - rewrite H. reflexivity.
  - rewrite H. reflexivity.
  - rewrite H, S. rewrite orb_true_r. reflexivity.
  - rewrite H. destruct (String.eqb h "" || negb (startsWith h "Basic ")); [reflexivity|].
    cbn [String.length]. rewrite C. reflexivity.
  - rewrite H. cbn. apply String.eqb_neq in U. rewrite U. reflexivity.
  - rewrite H. cbn. apply String.eqb_neq in P. rewrite P. apply orb_true_r.
Qed.

Lemma rejected_iff (w : World) (req : Request) :
  Rejected w req <-> ~ Authorized w (MailLabel.parseBasicAuth w req).
Proof.
  split.
  - intros R A. apply rejected_refused in R. red in A. rewrite A in R.
    rewrite refused_matching in R. discriminate.
  - intro NA. unfold Authorized in NA.
    destruct (MailLabel.parseBasicAuth w req) as [[u p]|] eqn:E.
    + destruct (string_dec u (env_or w "MAIL_USER" "")) as [->|U].
      * eapply WrongPass; [exact E|]. intros ->. apply NA. reflexivity.
      * eapply WrongUser; [exact E|exact U].
    + unfold MailLabel.parseBasicAuth in E.
      destruct (MailLabel.authorizationHeader req) as [h|] eqn:H; [|apply Absent; exact H].
      destruct (String.eqb h "") eqn:E0.
      * apply String.eqb_eq in E0. subst h. apply Empty. exact H.
      * destruct (startsWith h "Basic ") eqn:S.
        -- cbn in E. eapply NoColon; [exact H|exact E].
        -- eapply NotBasic; [exact H|exact S].
Qed.

(** C7, as amended. For a POST request, whatever its body: when the
    inbound user and password are configured, a Basic credential that is
    absent, unparsable or not the configured one is answered 401
    "Unauthorized" with an empty trace (the body is not parsed, no field is
    validated, nothing is fetched, no audit record is written); when either
    is not configured, the answer is 500, before the credential is looked
    at. *)
Theorem unauthorized_first (w : World) (req : Request) (body : value) :
  req_method req = "POST" ->
  (env_or w "MAIL_USER" "" <> "" ->
   env_or w "MAIL_PASS" "" <> "" ->
   Rejected w req ->
   run (MailLabel.handler w (withBody req body)) = (Ok MailLabel.unauthorized, []) /\
   statusCode MailLabel.unauthorized = 401%N) /\
  (env_or w "MAIL_USER" "" = "" \/ env_or w "MAIL_PASS" "" = "" ->
   run (MailLabel.handler w (withBody req body)) =
     (Ok (MailLabel.sendJson 500
            (obj [("ok", VBool false); ("error", str "Missing MAIL_USER/MAIL_PASS env vars")])),
      [])).
Proof.
  intros P. split.
  - intros U PW R. split; [|reflexivity].
    unfold run. rewrite (mail_method_post w (withBody req body) initial P).
    unfold try_catch, MailLabel.guarded.
    rewrite (eqb_empty_false _ U), (eqb_empty_false _ PW). cbn [orb].
    change (MailLabel.parseBasicAuth w (withBody req body))
      with (MailLabel.parseBasicAuth w req).
    rewrite (rejected_refused w req R). reflexivity.
  - intros E.
    unfold run. rewrite (mail_method_post w (withBody req body) initial P).
    unfold try_catch, MailLabel.guarded.
    destruct E as [-> | ->]; cbn [String.eqb orb]; [|rewrite orb_true_r]; reflexivity.
Qed.

Lemma unauthorized_first_wrong_password :
  MailLabel.parseBasicAuth (Scenario.world Scenario.healthy)
    (Scenario.post (Scenario.basic "ops" "guess") VNull) = Some ("ops", "guess") /\
  run (MailLabel.handler (Scenario.world Scenario.healthy)
         (Scenario.post (Scenario.basic "ops" "guess") Scenario.jane))
    = (Ok MailLabel.unauthorized, []) /\
  run (MailLabel.handler (Scenario.world Scenario.healthy)
         (Scenario.post (Scenario.basic "ops" "guess") (str "not json")))
    = (Ok MailLabel.unauthorized, []).
Proof.
  split; [reflexivity|].
  assert (R : Rejected (Scenario.world Scenario.healthy)
                (Scenario.post (Scenario.basic "ops" "guess") VNull)).
  { eapply WrongPass; [reflexivity|]. intro E. vm_compute in E. discriminate. }
  assert (U : env_or (Scenario.world Scenario.healthy) "MAIL_USER" "" <> "").
  { intro E. vm_compute in E. discriminate. }
  assert (P : env_or (Scenario.world Scenario.healthy) "MAIL_PASS" "" <> "").
  { intro E. vm_compute in E. discriminate. }
  split.
  - exact (proj1 (proj1 (unauthorized_first (Scenario.world Scenario.healthy)
                           (Scenario.post (Scenario.basic "ops" "guess") VNull)
                           Scenario.jane eq_refl) U P R)).
  - exact (proj1 (proj1 (unauthorized_first (Scenario.world Scenario.healthy)
                           (Scenario.post (Scenario.basic "ops" "guess") VNull)
                           (str "not json") eq_refl) U P R)).
Defined.

(** C7, as stated, fails where the inbound user and password are not
    configured: a POST request without any credential is answered 500, not
    401. *)
Lemma unprotected_answers_500 :
  MailLabel.authorizationHeader (Scenario.post None Scenario.jane) = None /\
  req_method (Scenario.post None Scenario.jane) = "POST" /\
  statusOf (fst (run (MailLabel.handler (Scenario.world Scenario.unprotected)
                        (Scenario.post None Scenario.jane)))) = Some 500%N.
Proof. repeat split. Qed.

(** ** From the label to the letter (section 4.6) *)

Lemma bind_ret {A B : Type} (a : A) (k : A -> M B) (s : St) :
  bind (ret a) k s = k a s.
Proof. reflexivity. Qed.

Lemma bind_lift {A B : Type} (a : A) (k : A -> M B) (s : St) :
  bind (lift (Ok a)) k s = k a s.
Proof. reflexivity. Qed.

Lemma bind_ok {A B : Type} (m : M A) (k : A -> M B) (s s' : St) (b : B) :
  bind m k s = (Ok b, s') ->
  exists a s1, m s = (Ok a, s1) /\ k a s1 = (Ok b, s').
Proof.
  unfold bind. destruct (m s) as [[a|e] s1]; [eauto|discriminate].
Qed.

Lemma lift_ok {A : Type} (r : Result A) (s s' : St) (a : A) :
  lift r s = (Ok a, s') -> r = Ok a /\ s' = s.
Proof. unfold lift. intro H. injection H as -> ->. auto. Qed.

Lemma ret_ok {A : Type} (a b : A) (s s' : St) :
  ret a s = (Ok b, s') -> b = a /\ s' = s.
Proof. unfold ret. intro H. injection H as -> ->. auto. Qed.

Lemma fetch_ok (w : World) (r : FetchRequest) (s s' : St) (resp : FetchResponse) :
  do_fetch w r s = (Ok resp, s') ->
  fetch w r = Responded resp /\ s' = logged s [EvFetch r].
Proof.
  unfold do_fetch, bind, emit, throw, ret.
  destruct (fetch w r) as [e|resp']; [discriminate|].
  intro H. injection H as -> <-. auto.
Qed.

Lemma now_ok (w : World) (s s' : St) (n : N) :
  Date_now w s = (Ok n, s') -> s' = advanced s 1.
Proof. unfold Date_now, bind, next_read, ret. intro H. injection H as _ <-. reflexivity. Qed.

Lemma today_ok (w : World) (s s' : St) (iso : string) :
  todayIso w s = (Ok iso, s') -> s' = advanced s 1.
Proof. unfold todayIso, bind, next_read, ret. intro H. injection H as _ <-. reflexivity. Qed.

Lemma textAt_ok (w : World) (body : value) (k : string) (s s' : St) (text : string) :
  MailLabel.textAt w body k s = (Ok text, s') -> s' = s.
Proof.
  unfold MailLabel.textAt. intro H.
  apply bind_ok in H as (v & s1 & H1 & H). apply lift_ok in H1 as [_ ->].
  apply lift_ok in H as [_ ->]. reflexivity.
Qed.

(** One step of a computation that returned. *)
Ltac step_ok H :=
  let a := fresh "a" in
  let s1 := fresh "s" in
  let E := fresh "E" in
  apply bind_ok in H as (a & s1 & E & H);
  first
    [ apply lift_ok in E as [E ->]
    | apply textAt_ok in E as ->
    | apply now_ok in E as ->
    | apply today_ok in E as -> ].

Lemma or_else_truthy (a b : value) : truthy a = true -> or_else a b = a.
Proof. intro T. unfold or_else. rewrite T. reflexivity. Qed.

(** The short-circuit of [labelJson.trackingNumber || labelJson.tracking_number || ""]. *)
Lemma tracking_short_circuit (t1 t2 : value) :
  or_else (or_else t1 (if truthy t1 then VUndefined else t2)) (str "") =
  or_else (or_else t1 t2) (str "").
Proof. unfold or_else. destruct (truthy t1); reflexivity. Qed.

Lemma labelled_not_null (w : World) (request : FetchRequest) (needsOk : bool)
    (labelJson : value) (doc : Pdf.Document) :
  Labelled w request needsOk labelJson doc -> nullish labelJson = false.
Proof. intro L. exact (truthy_property_not_null _ _ (label_data L)). Qed.

(** A label that is created and composed is handed to the letter stage,
    with its tracking number and the weight of the request. *)
Lemma mail_label_created (w : World) (req : Request) (body : value) (f : MailLabel.Fields)
    (labelJson weightOz : value) (doc : Pdf.Document) (s : St) :
  Labelled w (MailLabel.labelRequest req body) true labelJson doc ->
  MailLabel.normalizeWeightOz w body = Ok weightOz ->
  MailLabel.createAndMail w req body f s =
    MailLabel.mailLetter w body f labelJson (trackingOf labelJson) weightOz doc
      (logged s [EvFetch (MailLabel.labelRequest req body)]).
Proof.
  intros L W. pose proof (labelled_not_null _ _ _ _ _ L) as N.
  destruct (label_answer L) as (r & F & Hok & J).
  unfold MailLabel.createAndMail, do_fetch.
  unfold bind at 1. unfold bind at 1. unfold emit, ret at 1.
  rewrite F. cbn beta iota. unfold json_or_null. rewrite J, Hok.
  rewrite (label_ok L eq_refl), (label_data L). cbn [negb orb].
  rewrite !(get_of_object _ _ N), bind_lift.
  replace (if truthy (opt_get labelJson "trackingNumber")
           then ret VUndefined
           else lift (Ok (opt_get labelJson "tracking_number")))
    with (ret (A := value)
            (if truthy (opt_get labelJson "trackingNumber") then VUndefined
             else opt_get labelJson "tracking_number"))
    by (destruct (truthy (opt_get labelJson "trackingNumber")); reflexivity).
  rewrite bind_ret, W, bind_lift, bind_lift. unfold bind at 1. rewrite (composed L).
  rewrite tracking_short_circuit. reflexivity.
Qed.

(** The record of a letter that was turned down, when it is built. *)
Lemma lobFailPayload_ok (w : World) (body : value) (f : MailLabel.Fields)
    (labelJson trackingNumber weightOz : value) (lobResp : FetchResponse) (s s' : St)
    (record : value) :
  MailLabel.lobFailPayload w body f labelJson trackingNumber weightOz lobResp s
    = (Ok record, s') ->
  s' = advanced s 3 /\
  opt_get record "status" = str "Exception" /\
  opt_get record "tracking_number" = trackingNumber /\
  opt_get record "latest_event" =
    str ("Lob letter creation failed. HTTP " ++ decimal (resp_status lobResp)).
Proof.
  unfold MailLabel.lobFailPayload. intro H.
  do 7 step_ok H. apply ret_ok in H as [-> ->].
  split; [reflexivity|]. repeat split.
Qed.

Lemma lobFailPayload_runs (w : World) (body : value) (f : MailLabel.Fields)
    (labelJson trackingNumber weightOz : value) (lobResp : FetchResponse) (s : St) :
  nullish body = false ->
  Converts w body ->
  exists record,
    MailLabel.lobFailPayload w body f labelJson trackingNumber weightOz lobResp s
      = (Ok record, advanced s 3).
Proof.
  intros N C.
  destruct (textAt_runs w body "email" N C ltac:(listed)) as (t1 & E1).
  destruct (textAt_runs w body "deviceSerial" N C ltac:(listed)) as (t2 & E2).
  destruct (textAt_runs w body "returnReason" N C ltac:(listed)) as (t3 & E3).
  unfold MailLabel.lobFailPayload, Date_now, todayIso, bind, next_read, lift, ret.
  rewrite E1, String_nullable, E2, E3. cbn [reads trace].
  eexists. reflexivity.
Qed.

(** A letter that is turned down is answered 400, after one audit record
    with the tracking number of the label. *)
Lemma mail_letter_rejected (w : World) (body : value) (f : MailLabel.Fields)
    (labelJson trackingNumber weightOz : value) (doc : Pdf.Document)
    (lobResp : FetchResponse) (s : St) :
  nullish body = false ->
  Converts w body ->
  MailRejected w (MailLabel.lobRequest w f doc) lobResp ->
  exists record res,
    MailLabel.mailLetter w body f labelJson trackingNumber weightOz doc s =
      (Ok res,
       logged (advanced (logged s [EvFetch (MailLabel.lobRequest w f doc)]) 3)
         (EvAudit record ::
          if String.eqb (MailLabel.SHEETS_WEBHOOK_URL w) "" then []
          else [EvFetch (MailLabel.webhookRequest (MailLabel.SHEETS_WEBHOOK_URL w) record)])) /\
    statusCode res = 400%N /\
    opt_get record "status" = str "Exception" /\
    opt_get record "tracking_number" = trackingNumber /\
    opt_get record "latest_event" =
      str ("Lob letter creation failed. HTTP " ++ decimal (resp_status lobResp)).
Proof.
  intros N C [F Bad].
  destruct (lobFailPayload_runs w body f labelJson trackingNumber weightOz lobResp
              (logged s [EvFetch (MailLabel.lobRequest w f doc)]) N C)
    as (record & Hrec).
  destruct (lobFailPayload_ok _ _ _ _ _ _ _ _ _ _ Hrec) as (_ & Hst & Htr & Hev).
  destruct (mail_post_runs w (MailLabel.SHEETS_WEBHOOK_URL w) record
              (advanced (logged s [EvFetch (MailLabel.lobRequest w f doc)]) 3))
    as (o & Hpost).
  assert (B : negb (resp_ok lobResp) || negb (truthy (opt_get (json_or_null lobResp) "id")) = true).
  { destruct Bad as [B|B]; rewrite B; [reflexivity|apply orb_true_r]. }
  exists record. eexists. split.
  - unfold MailLabel.mailLetter, do_fetch.
    unfold bind at 1. unfold bind at 1. unfold emit, ret at 1.
    rewrite F. cbn beta iota. rewrite B.
    unfold bind at 1. unfold logged in Hrec at 1. rewrite Hrec.
    unfold bind at 1. rewrite Hpost. reflexivity.
  - repeat split; assumption.
Qed.

(** The record of a mailed packet, when it is built. *)
Lemma successPayload_ok (w : World) (body : value) (f : MailLabel.Fields)
    (labelJson trackingNumber weightOz lobJson : value) (s s' : St) (record : value) :
  MailLabel.successPayload w body f labelJson trackingNumber weightOz lobJson s
    = (Ok record, s') ->
  s' = advanced s 2 /\
  opt_get record "status" = str "Created" /\
  opt_get record "tracking_number" = trackingNumber /\
  opt_get record "latest_event" =
    str (if truthy trackingNumber
         then "Return label created; physical packet mailed."
         else "Return label created (no tracking number returned); physical packet mailed.").
Proof.
  unfold MailLabel.successPayload. intro H.
  do 7 step_ok H. apply ret_ok in H as [-> ->].
  split; [reflexivity|]. repeat split.
Qed.

(** A letter that is accepted is answered 200, after one audit record. *)
Lemma mail_letter_accepted (w : World) (body : value) (f : MailLabel.Fields)
    (labelJson trackingNumber weightOz : value) (doc : Pdf.Document)
    (lobJson : value) (s s' : St) (record : value) :
  MailAccepted w (MailLabel.lobRequest w f doc) lobJson ->
  MailLabel.successPayload w body f labelJson trackingNumber weightOz lobJson
    (logged s [EvFetch (MailLabel.lobRequest w f doc)]) = (Ok record, s') ->
  exists sheetsLogged,
    MailLabel.mailLetter w body f labelJson trackingNumber weightOz doc s =
      (Ok (MailLabel.sendJson 200
             (obj [("ok", VBool true);
                   ("uspsTrackingNumber", or_else trackingNumber VNull);
                   ("lobLetterId", opt_get lobJson "id");
                   ("lobStatus", or_else (opt_get lobJson "status") VNull);
                   ("sheetsLogged", sheetsLogged)])),
       logged (advanced (logged s [EvFetch (MailLabel.lobRequest w f doc)]) 2)
         (EvAudit record ::
          if String.eqb (MailLabel.SHEETS_WEBHOOK_URL w) "" then []
          else [EvFetch (MailLabel.webhookRequest (MailLabel.SHEETS_WEBHOOK_URL w) record)])).
Proof.
  intros (lobResp & F & Hok & J & Hid) Hrec.
  pose proof (truthy_property_not_null _ _ Hid) as NL.
  destruct (successPayload_ok _ _ _ _ _ _ _ _ _ _ Hrec) as (-> & _).
  destruct (mail_post_runs w (MailLabel.SHEETS_WEBHOOK_URL w) record
              (advanced (logged s [EvFetch (MailLabel.lobRequest w f doc)]) 2))
    as (o & Hpost).
  exists o.
  unfold MailLabel.mailLetter, do_fetch.
  unfold bind at 1. unfold bind at 1. unfold emit, ret at 1.
  rewrite F. cbn beta iota. unfold json_or_null. rewrite J, Hok, Hid. cbn [negb orb].
  unfold bind at 1. unfold logged in Hrec at 1. rewrite Hrec.
  unfold bind at 1. rewrite Hpost.
  rewrite !(get_of_object _ _ NL). reflexivity.
Qed.

(** The path of a complete, authorised request up to the label stage. *)
Lemma mail_reaches_label (w : World) (req : Request) (body : value) (f : MailLabel.Fields) :
  PastGate MailLabel.parseBasicAuth w req body ->
  MailLabel.readFields w body = Ok f ->
  missingOf w body = [] ->
  MailLabel.guarded w req initial = MailLabel.createAndMail w req body f initial.
Proof.
  intros G Hf Hm. rewrite (mail_gate_passes w req body initial G).
  apply mail_validate_complete; [exact (key_set G)|exact Hf|exact Hm].
Qed.

(** *** The draft that logs as "CAphysical-mail" *)

Lemma ca_method_post (w : World) (req : Request) (s : St) :
  req_method req = "POST" ->
  MailLabelCA.handler w req s =
    try_catch (MailLabelCA.guarded w req)
      (fun e => ret (MailLabel.sendJson 500 (obj [("ok", VBool false); ("error", str e)]))) s.
Proof. intro P. unfold MailLabelCA.handler. rewrite P. reflexivity. Qed.

Lemma ca_reaches_label (w : World) (req : Request) (body : value) (f : MailLabel.Fields) :
  PastGate MailLabelCA.parseBasicAuth w req body ->
  MailLabel.readFields w body = Ok f ->
  missingOf w body = [] ->
  MailLabelCA.guarded w req initial = MailLabelCA.createAndMail w req body f initial.
Proof.
  intros [_ U P A B _ K] Hf Hm. unfold MailLabelCA.guarded.
  rewrite (eqb_empty_false _ U), (eqb_empty_false _ P). cbn [orb].
  red in A. rewrite A, refused_matching.
  unfold MailLabel.parseBody. rewrite B, bind_lift.
  unfold MailLabelCA.validate.
  rewrite (eqb_empty_false _ K), Hf, bind_lift, (missingFields_spec w body f Hf), Hm.
  reflexivity.
Qed.

Lemma ca_label_created (w : World) (req : Request) (body : value) (f : MailLabel.Fields)
    (labelJson weightOz : value) (doc : Pdf.Document) (s : St) :
  Labelled w (MailLabelCA.labelRequest req body) false labelJson doc ->
  MailLabel.normalizeWeightOz w body = Ok weightOz ->
  MailLabelCA.createAndMail w req body f s =
    MailLabelCA.mailLetter w body f (trackingOf labelJson) weightOz doc
      (logged s [EvFetch (MailLabelCA.labelRequest req body)]).
Proof.
  intros L W. pose proof (labelled_not_null _ _ _ _ _ L) as N.
  destruct (label_answer L) as (r & F & Hok & J).
  unfold MailLabelCA.createAndMail, do_fetch.
  unfold bind at 1. unfold bind at 1. unfold emit, ret at 1.
  rewrite F. cbn beta iota. unfold json_or_null. rewrite J, Hok.
  rewrite (label_data L). cbn [negb orb].
  rewrite !(get_of_object _ _ N), bind_lift.
  replace (if truthy (opt_get labelJson "trackingNumber")
           then ret VUndefined
           else lift (Ok (opt_get labelJson "tracking_number")))
    with (ret (A := value)
            (if truthy (opt_get labelJson "trackingNumber") then VUndefined
             else opt_get labelJson "tracking_number"))
    by (destruct (truthy (opt_get labelJson "trackingNumber")); reflexivity).
  rewrite bind_ret, W, bind_lift, bind_lift. unfold bind at 1. rewrite (composed L).
  rewrite tracking_short_circuit. reflexivity.
Qed.

Lemma ca_lobFailPayload_runs (w : World) (body : value) (f : MailLabel.Fields)
    (trackingNumber weightOz : value) (lobResp : FetchResponse) (s : St) :
  nullish body = false ->
  Converts w body ->
  exists record,
    MailLabelCA.lobFailPayload w body f trackingNumber weightOz lobResp s
      = (Ok record, advanced s 3) /\
    opt_get record "status" = str "Exception" /\
    opt_get record "tracking_number" = trackingNumber /\
    opt_get record "latest_event" =
      str ("Lob letter creation failed. HTTP " ++ decimal (resp_status lobResp)).
Proof.
  intros N C.
  destruct (textAt_runs w body "email" N C ltac:(listed)) as (t1 & E1).
  destruct (textAt_runs w body "deviceSerial" N C ltac:(listed)) as (t2 & E2).
  destruct (textAt_runs w body "returnReason" N C ltac:(listed)) as (t3 & E3).
  unfold MailLabelCA.lobFailPayload, Date_now, todayIso, bind, next_read, lift, ret.
  rewrite E1, String_nullable, E2, E3. cbn [reads trace].
  eexists. split; [reflexivity|]. repeat split.
Qed.

Lemma ca_letter_rejected (w : World) (body : value) (f : MailLabel.Fields)
    (trackingNumber weightOz : value) (doc : Pdf.Document)
    (lobResp : FetchResponse) (s : St) :
  nullish body = false ->
  Converts w body ->
  MailRejected w (MailLabelCA.lobRequest w f doc) lobResp ->
  exists record res,
    MailLabelCA.mailLetter w body f trackingNumber weightOz doc s =
      (Ok res,
       logged (advanced (logged s [EvFetch (MailLabelCA.lobRequest w f doc)]) 3)
         (EvAudit record ::
          if String.eqb (MailLabelCA.SHEETS_WEBHOOK_URL w) "" then []
          else [EvFetch (MailLabel.webhookRequest (MailLabelCA.SHEETS_WEBHOOK_URL w) record)])) /\
    statusCode res = 400%N /\
    opt_get record "status" = str "Exception" /\
    opt_get record "tracking_number" = trackingNumber /\
    opt_get record "latest_event" =
      str ("Lob letter creation failed. HTTP " ++ decimal (resp_status lobResp)).
Proof.
  intros N C [F Bad].
  destruct (ca_lobFailPayload_runs w body f trackingNumber weightOz lobResp
              (logged s [EvFetch (MailLabelCA.lobRequest w f doc)]) N C)
    as (record & Hrec & Hst & Htr & Hev).
  destruct (ca_post_runs w (MailLabelCA.SHEETS_WEBHOOK_URL w) record
              (advanced (logged s [EvFetch (MailLabelCA.lobRequest w f doc)]) 3))
    as (o & Hpost).
  assert (B : negb (resp_ok lobResp) || negb (truthy (opt_get (json_or_null lobResp) "id")) = true).
  { destruct Bad as [B|B]; rewrite B; [reflexivity|apply orb_true_r]. }
  exists record. eexists. split.
  - unfold MailLabelCA.mailLetter, do_fetch.
    unfold bind at 1. unfold bind at 1. unfold emit, ret at 1.
    rewrite F. cbn beta iota. rewrite B.
    unfold bind at 1. unfold logged in Hrec at 1. rewrite Hrec.
    unfold bind at 1. rewrite Hpost. reflexivity.
  - repeat split; assumption.
Qed.


(** The success path: a complete, authorised request whose label is created
    and whose letter is accepted is answered 200 after the one audit record
    that was built. *)
Lemma mail_success (w : World) (req : Request) (body : value) (f : MailLabel.Fields)
    (labelJson weightOz : value) (doc : Pdf.Document) (lobJson : value)
    (s' : St) (record : value) :
  PastGate MailLabel.parseBasicAuth w req body ->
  MailLabel.readFields w body = Ok f ->
  missingOf w body = [] ->
  Labelled w (MailLabel.labelRequest req body) true labelJson doc ->
  MailLabel.normalizeWeightOz w body = Ok weightOz ->
  MailAccepted w (MailLabel.lobRequest w f doc) lobJson ->
  MailLabel.successPayload w body f labelJson (trackingOf labelJson) weightOz lobJson
    (logged (logged initial [EvFetch (MailLabel.labelRequest req body)])
       [EvFetch (MailLabel.lobRequest w f doc)]) = (Ok record, s') ->
  exists res t,
    run (MailLabel.handler w req) = (Ok res, t) /\
    statusCode res = 200%N /\
    opt_get (jsonOf res) "uspsTrackingNumber" = or_else (trackingOf labelJson) VNull /\
    audits t = [record] /\
    opt_get record "status" = str "Created" /\
    opt_get record "tracking_number" = trackingOf labelJson /\
    opt_get record "latest_event" =
      str (if truthy (trackingOf labelJson)
           then "Return label created; physical packet mailed."
           else "Return label created (no tracking number returned); physical packet mailed.").
Proof.
  intros G Hf Hm L W A Hrec.
  destruct (successPayload_ok _ _ _ _ _ _ _ _ _ _ Hrec) as (_ & Hst & Htr & Hev).
  destruct (mail_letter_accepted w body f labelJson (trackingOf labelJson) weightOz doc lobJson
              (logged initial [EvFetch (MailLabel.labelRequest req body)]) s' record A Hrec)
    as (o & Hrun).
  eexists. eexists. split.
  - unfold run. rewrite (mail_method_post w req initial (is_post G)).
    unfold try_catch. rewrite (mail_reaches_label w req body f G Hf Hm).
    rewrite (mail_label_created w req body f labelJson weightOz doc initial L W), Hrun.
    reflexivity.
  - cbn [statusCode MailLabel.sendJson jsonOf res_body].
    repeat split; try assumption.
    cbn. destruct (String.eqb (MailLabel.SHEETS_WEBHOOK_URL w) ""); reflexivity.
Qed.

(** *** Every answer 200 comes from the success path *)

(** The [catch] of the boundary always answers 500. *)
Lemma crash_answers_500 (w : World) (e : string) (s : St) :
  exists s',
    (try_catch
       (crash <- MailLabel.crashPayload w e ;;
        MailLabel.postToSheets w (MailLabel.SHEETS_WEBHOOK_URL w) crash ;;;
        ret tt)
       (fun _ => ret tt) ;;;
     ret (MailLabel.sendJson 500 (obj [("ok", VBool false); ("error", str e)]))) s
    = (Ok (MailLabel.sendJson 500 (obj [("ok", VBool false); ("error", str e)])), s').
Proof.
  unfold try_catch, bind at 1. unfold bind at 1.
  unfold MailLabel.crashPayload at 1, bind at 1, Date_now, bind at 1, next_read, ret at 1.
  cbn beta iota. unfold bind at 1, todayIso at 1, bind at 1, next_read, ret at 1.
  cbn beta iota. unfold bind at 1, todayIso at 1, bind at 1, next_read, ret at 1.
  cbn beta iota. unfold ret at 1. cbn beta iota.
  unfold bind at 1.
  match goal with |- context [MailLabel.postToSheets w ?u ?p ?s0] =>
    destruct (mail_post_runs w u p s0) as (o & ->) end.
  eexists. reflexivity.
Qed.

Lemma missing_nil_not_null (w : World) (body : value) :
  missingOf w body = [] -> nullish body = false.
Proof.
  intro H. destruct body; try reflexivity; vm_compute in H; discriminate.
Qed.

Lemma refused_false (creds : option (string * string)) (u p : string) :
  MailLabel.refused creds u p = false -> creds = Some (u, p).
Proof.
  destruct creds as [[u' p']|]; [|discriminate]. cbn.
  destruct (String.eqb u' u) eqn:U, (String.eqb p' p) eqn:P; try discriminate.
  apply String.eqb_eq in U, P. subst. reflexivity.
Qed.

Lemma json_of_truthy (r : FetchResponse) (k : string) :
  truthy (opt_get (json_or_null r) k) = true -> resp_json r = Some (json_or_null r).
Proof. unfold json_or_null. destruct (resp_json r); [reflexivity|discriminate]. Qed.

Ltac not_200 H H200 :=
  apply ret_ok in H as [-> _]; discriminate H200.

(** An answer 200 of api/mail-label.js was reached through every stage:
    the gates, the validation, the label, the letter and the record. *)
Lemma reaches_200 (w : World) (req : Request) (res : Response) (t : list Event) :
  run (MailLabel.handler w req) = (Ok res, t) ->
  statusCode res = 200%N ->
  exists body f labelJson weightOz doc lobJson record s',
    PastGate MailLabel.parseBasicAuth w req body /\
    MailLabel.readFields w body = Ok f /\
    missingOf w body = [] /\
    Labelled w (MailLabel.labelRequest req body) true labelJson doc /\
    MailLabel.normalizeWeightOz w body = Ok weightOz /\
    MailAccepted w (MailLabel.lobRequest w f doc) lobJson /\
    MailLabel.successPayload w body f labelJson (trackingOf labelJson) weightOz lobJson
      (logged (logged initial [EvFetch (MailLabel.labelRequest req body)])
         [EvFetch (MailLabel.lobRequest w f doc)]) = (Ok record, s').
Proof.
  unfold run. intros Hrun H200.
  destruct (MailLabel.handler w req initial) as [r s] eqn:Hh. injection Hrun as -> <-.
  destruct (String.eqb (req_method req) "POST") eqn:Hm.
  2: { unfold MailLabel.handler, try_catch at 1 in Hh. rewrite Hm in Hh.
       cbn [negb] in Hh. not_200 Hh H200. }
  apply String.eqb_eq in Hm.
  rewrite (mail_method_post w req initial Hm) in Hh. unfold try_catch at 1 in Hh.
  destruct (MailLabel.guarded w req initial) as [[res'|e] s1] eqn:Hg.
  2: { destruct (crash_answers_500 w e s1) as (s' & Hc). rewrite Hc in Hh.
       injection Hh as <- _. discriminate H200. }
  injection Hh as -> ->.
  unfold MailLabel.guarded in Hg.
  destruct (String.eqb (env_or w "MAIL_USER" "") "") eqn:HU; [not_200 Hg H200|].
  destruct (String.eqb (env_or w "MAIL_PASS" "") "") eqn:HP; [not_200 Hg H200|].
  cbn [orb] in Hg.
  destruct (MailLabel.refused _ _ _) eqn:HR; [not_200 Hg H200|].
  apply bind_ok in Hg as (body & s2 & Hb & Hv). apply lift_ok in Hb as [Hb ->].
  unfold MailLabel.validate in Hv.
  destruct (String.eqb (env_or w "LOB_API_KEY" "") "") eqn:HK; [not_200 Hv H200|].
  apply bind_ok in Hv as (f & s2 & Hf & Hv). apply lift_ok in Hf as [Hf ->].
  rewrite (missingFields_spec w body f Hf) in Hv.
  destruct (missingOf w body) as [|k ks] eqn:HM.
  2: { cbn [List.length Nat.eqb negb] in Hv.
       apply bind_ok in Hv as (p & s3 & _ & Hv). apply bind_ok in Hv as (o & s4 & _ & Hv).
       not_200 Hv H200. }
  cbn [List.length Nat.eqb negb] in Hv.
  unfold MailLabel.createAndMail in Hv.
  apply bind_ok in Hv as (labelResp & s3 & Hl & Hv). apply fetch_ok in Hl as [Hl ->].
  destruct (negb (resp_ok labelResp) || negb (truthy (opt_get (json_or_null labelResp) "ok"))
            || negb (truthy (opt_get (json_or_null labelResp) "labelData"))) eqn:HC.
  { apply bind_ok in Hv as (p & s4 & _ & Hv). apply bind_ok in Hv as (o & s5 & _ & Hv).
    not_200 Hv H200. }
  apply orb_false_elim in HC as [HC HD]. apply orb_false_elim in HC as [HO HOk].
  apply negb_false_iff in HO, HOk, HD.
  pose proof (truthy_property_not_null _ _ HD) as NL.
  rewrite !(get_of_object _ _ NL) in Hv.
  apply bind_ok in Hv as (t1 & s4 & Ht1 & Hv). apply lift_ok in Ht1 as [Ht1 ->].
  injection Ht1 as <-.
  apply bind_ok in Hv as (t2 & s4 & Ht2 & Hv).
  assert (T2 : t2 = (if truthy (opt_get (json_or_null labelResp) "trackingNumber")
                     then VUndefined
                     else opt_get (json_or_null labelResp) "tracking_number") /\
               s4 = logged initial [EvFetch (MailLabel.labelRequest req body)]).
  { destruct (truthy (opt_get (json_or_null labelResp) "trackingNumber")).
    - apply ret_ok in Ht2. exact Ht2.
    - apply lift_ok in Ht2 as [E ->]. injection E as <-. auto. }
  destruct T2 as [-> ->]. rewrite tracking_short_circuit in Hv.
  apply bind_ok in Hv as (weightOz & s5 & Hw & Hv). apply lift_ok in Hw as [Hw ->].
  apply bind_ok in Hv as (labelData & s5 & Hld & Hv). apply lift_ok in Hld as [Hld ->].
  injection Hld as <-.
  apply bind_ok in Hv as (doc & s6 & Hdoc & Hv).
  destruct (build_pure w (opt_get (json_or_null labelResp) "labelData")) as (rb & Hpure).
  rewrite Hpure in Hdoc. injection Hdoc as -> <-.
  unfold MailLabel.mailLetter in Hv.
  apply bind_ok in Hv as (lobResp & s7 & Hlob & Hv). apply fetch_ok in Hlob as [Hlob ->].
  destruct (negb (resp_ok lobResp) || negb (truthy (opt_get (json_or_null lobResp) "id"))) eqn:HL.
  { apply bind_ok in Hv as (p & s8 & _ & Hv). apply bind_ok in Hv as (o & s9 & _ & Hv).
    not_200 Hv H200. }
  apply orb_false_elim in HL as [HLo HLi]. apply negb_false_iff in HLo, HLi.
  apply bind_ok in Hv as (record & s8 & Hrec & _).
  exists body, f, (json_or_null labelResp), weightOz, doc, (json_or_null lobResp), record, s8.
  split; [|split; [exact Hf|split; [exact HM|split; [|split; [exact Hw|split]]]]].
  - split.
    + exact Hm.
    + apply String.eqb_neq. exact HU.
    + apply String.eqb_neq. exact HP.
    + apply refused_false. exact HR.
    + exact Hb.
    + apply (missing_nil_not_null w). exact HM.
    + apply String.eqb_neq. exact HK.
  - split.
    + exists labelResp. repeat split; [exact Hl|exact HO|]. apply (json_of_truthy _ _ HD).
    + intros _. exact HOk.
    + exact HD.
    + exact Hpure.
  - exists lobResp. repeat split; [exact Hlob|exact HLo| |exact HLi].
    apply (json_of_truthy _ _ HLi).
  - exact Hrec.
Qed.

Lemma or_null_not_empty (v : value) : or_else v VNull <> str "".
Proof.
  unfold or_else. destruct (truthy v) eqn:T; [|discriminate].
  intros ->. discriminate T.
Qed.

Lemma labelled_answer (w : World) (request : FetchRequest) (needsOk : bool)
    (labelJson : value) (doc : Pdf.Document) :
  Labelled w request needsOk labelJson doc -> answerOf w request = labelJson.
Proof.
  intro L. destruct (label_answer L) as (r & F & _ & J).
  unfold answerOf, json_or_null. rewrite F, J. reflexivity.
Qed.

(** C10. For every request that api/mail-label.js answers 200: one audit
    record is written, with status "Created"; [uspsTrackingNumber] is the
    tracking number of the label answer or [null], never the empty string;
    and when the label came without a tracking number (absent or empty,
    under either spelling) it is [null], and the last event of the record
    says that no tracking number was returned. *)
Theorem success_without_tracking (w : World) (req : Request) (res : Response)
    (t : list Event) :
  run (MailLabel.handler w req) = (Ok res, t) ->
  statusCode res = 200%N ->
  exists body record,
    MailLabel.bodyOf w req = Ok body /\
    audits t = [record] /\
    opt_get record "status" = str "Created" /\
    opt_get (jsonOf res) "uspsTrackingNumber" =
      or_else (trackingOf (answerOf w (MailLabel.labelRequest req body))) VNull /\
    opt_get (jsonOf res) "uspsTrackingNumber" <> str "" /\
    (truthy (opt_get (answerOf w (MailLabel.labelRequest req body)) "trackingNumber") = false ->
     truthy (opt_get (answerOf w (MailLabel.labelRequest req body)) "tracking_number") = false ->
     opt_get (jsonOf res) "uspsTrackingNumber" = VNull /\
     opt_get record "latest_event" =
       str "Return label created (no tracking number returned); physical packet mailed.").
Proof.
  intros Hrun H200.
  destruct (reaches_200 w req res t Hrun H200)
    as (body & f & labelJson & weightOz & doc & lobJson & record & s' &
        G & Hf & Hm & L & W & A & Hrec).
  destruct (mail_success w req body f labelJson weightOz doc lobJson s' record
              G Hf Hm L W A Hrec)
    as (res' & t' & Hrun' & _ & Hus & Hau & Hst & _ & Hev).
  rewrite Hrun in Hrun'. injection Hrun' as <- <-.
  exists body, record.
  rewrite (labelled_answer _ _ _ _ _ L).
  split; [exact (body_parsed G)|]. split; [exact Hau|]. split; [exact Hst|].
  split; [exact Hus|]. split; [rewrite Hus; apply or_null_not_empty|].
  intros T1 T2.
  assert (T : trackingOf labelJson = str "").
  { unfold trackingOf, or_else. rewrite T1, T2. reflexivity. }
  rewrite T in Hus, Hev. split; [exact Hus|exact Hev].
Qed.

(** *** The examples *)

Ltac concrete_gate :=
  split; try reflexivity;
  let H := fresh "H" in intro H; vm_compute in H; discriminate.

Ltac concrete_label :=
  split;
  [ eexists; split; [vm_compute; reflexivity|]; split; vm_compute; reflexivity
  | intros _; vm_compute; reflexivity
  | vm_compute; reflexivity
  | intro s; vm_compute; reflexivity ].

Lemma jane_past_gate_lobDown :
  PastGate MailLabel.parseBasicAuth (Scenario.deployed Scenario.lobDown)
    Scenario.janeRequest Scenario.jane /\
  PastGate MailLabelCA.parseBasicAuth (Scenario.deployed Scenario.lobDown)
    Scenario.janeRequest Scenario.jane.
Proof. split; concrete_gate. Qed.

Lemma jane_converts (w : World) :
  NumberToString w = Scenario.printNumber -> Converts w Scenario.jane.
Proof.
  intros E k H. unfold String_. rewrite E. cbn in H.
  repeat (destruct H as [<-|H]; [eexists; vm_compute; reflexivity|]).
  destruct H.
Qed.

Lemma jane_labelled_lobDown :
  Labelled (Scenario.deployed Scenario.lobDown)
    (MailLabel.labelRequest Scenario.janeRequest Scenario.jane) true
    (answerOf (Scenario.deployed Scenario.lobDown)
       (MailLabel.labelRequest Scenario.janeRequest Scenario.jane))
    Scenario.packet /\
  Labelled (Scenario.deployed Scenario.lobDown)
    (MailLabelCA.labelRequest Scenario.janeRequest Scenario.jane) false
    (answerOf (Scenario.deployed Scenario.lobDown)
       (MailLabelCA.labelRequest Scenario.janeRequest Scenario.jane))
    Scenario.packet.
Proof. split; concrete_label. Qed.



Lemma success_without_tracking_untracked :
  exists record,
    audits (snd (run (MailLabel.handler (Scenario.deployed Scenario.untracked)
                        Scenario.janeRequest))) = [record] /\
    opt_get record "status" = str "Created" /\
    opt_get record "latest_event" =
      str "Return label created (no tracking number returned); physical packet mailed.".
Proof.
  destruct (success_without_tracking (Scenario.deployed Scenario.untracked)
              Scenario.janeRequest
              (MailLabel.sendJson 200
                 (obj [("ok", VBool true);
                       ("uspsTrackingNumber", VNull);
                       ("lobLetterId", str "ltr_1");
                       ("lobStatus", str "processed");
                       ("sheetsLogged",
                        obj [("ok", VBool true); ("status", VNumber 202)])]))
              (snd (run (MailLabel.handler (Scenario.deployed Scenario.untracked)
                           Scenario.janeRequest))))
    as (body & record & Hb & Hau & Hst & _ & _ & Hno).
  - vm_compute. reflexivity.
  - reflexivity.
  - vm_compute in Hb. injection Hb as <-.
    exists record. split; [exact Hau|]. split; [exact Hst|].
    apply Hno; vm_compute; reflexivity.
Defined.

(** ** One audit record per request (section 3) *)

(** The draft that logs as "CAphysical-mail" asks /api/create-label not to
    write a record of its own, whatever the body says. *)
Lemma setProp_found (k : string) (v : value) (props : list (string * value)) :
  assoc k (MailLabelCA.setProp k v props) = Some v.
Proof.
  induction props as [|[k' v'] rest IH]; cbn.
  - rewrite String.eqb_refl. reflexivity.
  - destruct (String.eqb k k') eqn:E; cbn; rewrite E; [reflexivity|exact IH].
Qed.

Lemma ca_label_request_skips_logging (req : Request) (body : value) :
  exists sent,
    fr_body (MailLabelCA.labelRequest req body) = JsonBody sent /\
    opt_get sent "skipLogging" = VBool true.
Proof.
  eexists. split; [reflexivity|]. cbn. rewrite setProp_found. reflexivity.
Qed.

(** api/mail-label.js sends the body as it came. *)
Lemma mail_label_request_as_is (req : Request) (body : value) :
  fr_body (MailLabel.labelRequest req body) = JsonBody body.
Proof. reflexivity. Qed.

(** Every record api/mail-label.js builds has the same fields, whatever the
    exit: what is not known is empty or [null], not left out. *)
Lemma mail_records_share_schema (w : World) (body : value) (f : MailLabel.Fields)
    (missing : list string) (labelResp lobResp : FetchResponse)
    (labelJson trackingNumber weightOz lobJson : value) (e : string)
    (s s' : St) (record : value) :
  (MailLabel.missingPayload w body f missing s = (Ok record, s') \/
   MailLabel.labelFailPayload w body f labelResp s = (Ok record, s') \/
   MailLabel.lobFailPayload w body f labelJson trackingNumber weightOz lobResp s
     = (Ok record, s') \/
   MailLabel.successPayload w body f labelJson trackingNumber weightOz lobJson s
     = (Ok record, s') \/
   MailLabel.crashPayload w e s = (Ok record, s')) ->
  keys record = auditSchema.
Proof.
  unfold MailLabel.missingPayload, MailLabel.labelFailPayload, MailLabel.lobFailPayload,
    MailLabel.successPayload, MailLabel.crashPayload.
  intros [H|[H|[H|[H|H]]]]; repeat step_ok H; apply ret_ok in H as [-> _]; reflexivity.
Qed.

(** C6 fails on api/mail-label.js as deployed with api/create-label.js. For
    the request of the end-to-end scenario, with every collaborator
    answering, two audit records are attempted: /api/create-label writes its
    "Connect Print" record (which has no [lob_letter_id] and no
    [latest_event]), then the handler writes its own. When the letter is
    turned down a "Created" record is followed by an "Exception" record. The
    draft that passes [skipLogging: true] writes one record on both paths. *)
Theorem audit_written_twice :
  let ok := Deployment.mailLabel (Scenario.world Scenario.healthy) Scenario.origin
              Scenario.janeRequest in
  let down := Deployment.mailLabel (Scenario.world Scenario.lobDown) Scenario.origin
                Scenario.janeRequest in
  let ok' := Deployment.mailLabelCA (Scenario.world Scenario.healthy) Scenario.origin
               Scenario.janeRequest in
  let down' := Deployment.mailLabelCA (Scenario.world Scenario.lobDown) Scenario.origin
                 Scenario.janeRequest in
  statusOf (fst ok) = Some 200%N /\
  map (fun p => opt_get p "source") (audits (snd ok))
    = [str "Connect Print"; str "physical-mail"] /\
  map (fun p => opt_get p "lob_letter_id") (audits (snd ok))
    = [VUndefined; str "ltr_1"] /\
  map (fun p => opt_get p "latest_event") (audits (snd ok))
    = [VUndefined; str "Return label created; physical packet mailed."] /\
  map (fun p => List.length (keys p)) (audits (snd ok)) = [20; 24] /\
  statusOf (fst down) = Some 400%N /\
  map (fun p => opt_get p "status") (audits (snd down))
    = [str "Created"; str "Exception"] /\
  statusOf (fst ok') = Some 200%N /\
  map (fun p => opt_get p "source") (audits (snd ok')) = [str "CAphysical-mail"] /\
  statusOf (fst down') = Some 400%N /\
  map (fun p => opt_get p "status") (audits (snd down')) = [str "Exception"].
Proof.
  cbv zeta. repeat split; vm_compute; reflexivity.
Qed.

(** ** The audit sink never fails its caller (section 4.5) *)

(** *** Computations that agree *)

Lemma agree_ret {A : Type} (R : A -> A -> Prop) (a1 a2 : A) :
  R a1 a2 -> agree R (ret a1) (ret a2).
Proof. intros H s. cbn. auto. Qed.

Lemma agree_refl {A : Type} (m : M A) : agree eq m m.
Proof. intro s. destruct (m s) as [[a|e] s']; auto. Qed.

Lemma agree_bind {A B : Type} (RA : A -> A -> Prop) (RB : B -> B -> Prop)
    (m1 m2 : M A) (k1 k2 : A -> M B) :
  agree RA m1 m2 ->
  (forall a1 a2, RA a1 a2 -> agree RB (k1 a1) (k2 a2)) ->
  agree RB (bind m1 k1) (bind m2 k2).
Proof.
  intros Hm Hk s. unfold bind. specialize (Hm s).
  destruct (m1 s) as [[a1|e1] s1], (m2 s) as [[a2|e2] s2]; try contradiction.
  - destruct Hm as [<- Ha]. apply Hk. exact Ha.
  - exact Hm.
Qed.

Lemma agree_try_catch {A : Type} (R : A -> A -> Prop) (m1 m2 : M A)
    (h1 h2 : string -> M A) :
  agree R m1 m2 ->
  (forall e, agree R (h1 e) (h2 e)) ->
  agree R (try_catch m1 h1) (try_catch m2 h2).
Proof.
  intros Hm Hh s. unfold try_catch. specialize (Hm s).
  destruct (m1 s) as [[a1|e1] s1], (m2 s) as [[a2|e2] s2]; try contradiction.
  - exact Hm.
  - destruct Hm as [<- <-]. apply Hh.
Qed.

Section Sink.
Variable w : World.
Variable sink : FetchRequest -> FetchOutcome.

Lemma agree_post (url : string) (p : value) :
  agree anything (MailLabel.postToSheets (withSink w sink) url p) (MailLabel.postToSheets w url p).
Proof.
  intro s.
  destruct (mail_post_runs (withSink w sink) url p s) as (o1 & ->).
  destruct (mail_post_runs w url p s) as (o2 & ->).
  split; [reflexivity|exact I].
Qed.

Lemma agree_fetch (r : FetchRequest) :
  fr_url r <> env_or w "SHEETS_WEBHOOK_URL" "" ->
  agree eq (do_fetch (withSink w sink) r) (do_fetch w r).
Proof.
  intro H. unfold do_fetch.
  replace (fetch (withSink w sink) r) with (fetch w r).
  - apply agree_refl.
  - unfold withSink, Deployment.with_fetch. cbn [fetch].
    apply String.eqb_neq in H. rewrite H. reflexivity.
Qed.

Lemma agree_crash (e : string) :
  agree sameStatus
    (try_catch
       (crash <- MailLabel.crashPayload (withSink w sink) e ;;
        MailLabel.postToSheets (withSink w sink) (MailLabel.SHEETS_WEBHOOK_URL (withSink w sink)) crash ;;;
        ret tt)
       (fun _ => ret tt) ;;;
     ret (MailLabel.sendJson 500 (obj [("ok", VBool false); ("error", str e)])))
    (try_catch
       (crash <- MailLabel.crashPayload w e ;;
        MailLabel.postToSheets w (MailLabel.SHEETS_WEBHOOK_URL w) crash ;;;
        ret tt)
       (fun _ => ret tt) ;;;
     ret (MailLabel.sendJson 500 (obj [("ok", VBool false); ("error", str e)]))).
Proof.
  apply agree_bind with (RA := anything).
  - apply agree_try_catch.
    + apply agree_bind with (RA := eq).
      * apply (agree_refl (MailLabel.crashPayload w e)).
      * intros p ? <-. apply agree_bind with (RA := anything).
        -- apply (agree_post (MailLabel.SHEETS_WEBHOOK_URL w) p).
        -- intros. apply agree_ret. exact I.
    + intros. apply agree_ret. exact I.
  - intros. apply agree_ret. reflexivity.
Qed.

Lemma agree_mailLetter (body : value) (f : MailLabel.Fields)
    (labelJson tracking weight : value) (doc : Pdf.Document) :
  "https://api.lob.com/v1/letters" <> env_or w "SHEETS_WEBHOOK_URL" "" ->
  agree sameStatus
    (MailLabel.mailLetter (withSink w sink) body f labelJson tracking weight doc)
    (MailLabel.mailLetter w body f labelJson tracking weight doc).
Proof.
  intro H. unfold MailLabel.mailLetter.
  apply agree_bind with (RA := eq).
  - apply (agree_fetch (MailLabel.lobRequest w f doc) H).
  - intros lobResp ? <-.
    destruct (negb (resp_ok lobResp) || negb (truthy (opt_get (json_or_null lobResp) "id"))).
    + apply agree_bind with (RA := eq).
      * apply (agree_refl (MailLabel.lobFailPayload w body f labelJson tracking weight lobResp)).
      * intros p ? <-. apply agree_bind with (RA := anything).
        -- apply (agree_post (MailLabel.SHEETS_WEBHOOK_URL w) p).
        -- intros. apply agree_ret. reflexivity.
    + apply agree_bind with (RA := eq).
      * apply (agree_refl (MailLabel.successPayload w body f labelJson tracking weight (json_or_null lobResp))).
      * intros p ? <-. apply agree_bind with (RA := anything).
        -- apply (agree_post (MailLabel.SHEETS_WEBHOOK_URL w) p).
        -- intros o1 o2 _. apply agree_bind with (RA := eq); [apply agree_refl|].
           intros ? ? <-. apply agree_bind with (RA := eq); [apply agree_refl|].
           intros ? ? <-. apply agree_ret. reflexivity.
Qed.

Lemma agree_createAndMail (req : Request) (body : value) (f : MailLabel.Fields) :
  "https://api.lob.com/v1/letters" <> env_or w "SHEETS_WEBHOOK_URL" "" ->
  fr_url (MailLabel.labelRequest req body) <> env_or w "SHEETS_WEBHOOK_URL" "" ->
  agree sameStatus (MailLabel.createAndMail (withSink w sink) req body f) (MailLabel.createAndMail w req body f).
Proof.
  intros HL HR. unfold MailLabel.createAndMail.
  apply agree_bind with (RA := eq).
  - apply (agree_fetch _ HR).
  - intros labelResp ? <-.
    destruct (negb (resp_ok labelResp) || negb (truthy (opt_get (json_or_null labelResp) "ok"))
              || negb (truthy (opt_get (json_or_null labelResp) "labelData"))).
    + apply agree_bind with (RA := eq).
      * apply (agree_refl (MailLabel.labelFailPayload w body f labelResp)).
      * intros p ? <-. apply agree_bind with (RA := anything).
        -- apply (agree_post (MailLabel.SHEETS_WEBHOOK_URL w) p).
        -- intros. apply agree_ret. reflexivity.
    + apply agree_bind with (RA := eq); [apply agree_refl|]. intros t1 ? <-.
      apply agree_bind with (RA := eq); [apply agree_refl|]. intros t2 ? <-.
      apply agree_bind with (RA := eq).
      { apply (agree_refl (lift (MailLabel.normalizeWeightOz w body))). }
      intros weightOz ? <-.
      apply agree_bind with (RA := eq); [apply agree_refl|]. intros labelData ? <-.
      apply agree_bind with (RA := eq).
      * apply (agree_refl (MailLabel.buildInstructionsPlusLabelPdf w labelData)).
      * intros doc ? <-. apply (agree_mailLetter _ _ _ _ _ _ HL).
Qed.

Lemma agree_handler (req : Request) :
  "https://api.lob.com/v1/letters" <> env_or w "SHEETS_WEBHOOK_URL" "" ->
  (forall body, fr_url (MailLabel.labelRequest req body) <> env_or w "SHEETS_WEBHOOK_URL" "") ->
  agree sameStatus (MailLabel.handler (withSink w sink) req) (MailLabel.handler w req).
Proof.
  intros HL HR. unfold MailLabel.handler.
  apply agree_try_catch; [|apply agree_crash].
  destruct (negb (String.eqb (req_method req) "POST")); [apply agree_ret; reflexivity|].
  unfold MailLabel.guarded.
  change (env_or (withSink w sink) "MAIL_USER" "") with (env_or w "MAIL_USER" "").
  change (env_or (withSink w sink) "MAIL_PASS" "") with (env_or w "MAIL_PASS" "").
  change (MailLabel.parseBasicAuth (withSink w sink) req) with (MailLabel.parseBasicAuth w req).
  destruct (String.eqb (env_or w "MAIL_USER" "") "" || String.eqb (env_or w "MAIL_PASS" "") "");
    [apply agree_ret; reflexivity|].
  destruct (MailLabel.refused _ _ _); [apply agree_ret; reflexivity|].
  apply agree_bind with (RA := eq).
  - apply (agree_refl (MailLabel.parseBody w req)).
  - intros body ? <-. unfold MailLabel.validate.
    change (env_or (withSink w sink) "LOB_API_KEY" "") with (env_or w "LOB_API_KEY" "").
    destruct (String.eqb (env_or w "LOB_API_KEY" "") ""); [apply agree_ret; reflexivity|].
    apply agree_bind with (RA := eq).
    { apply (agree_refl (lift (MailLabel.readFields w body))). }
    intros f ? <-.
    destruct (negb (Nat.eqb (List.length (MailLabel.missingFields f)) 0)).
    + apply agree_bind with (RA := eq).
      * apply (agree_refl (MailLabel.missingPayload w body _ _)).
      * intros p ? <-. apply agree_bind with (RA := anything).
        -- apply (agree_post (MailLabel.SHEETS_WEBHOOK_URL w) p).
        -- intros. apply agree_ret. reflexivity.
    + apply agree_createAndMail; auto.
Qed.

(** The same for the draft that logs as "CAphysical-mail". *)
Lemma agree_ca_post (url : string) (p : value) :
  agree anything (MailLabelCA.postToSheets (withSink w sink) url p)
    (MailLabelCA.postToSheets w url p).
Proof.
  intro s.
  destruct (ca_post_runs (withSink w sink) url p s) as (o1 & ->).
  destruct (ca_post_runs w url p s) as (o2 & ->).
  split; [reflexivity|exact I].
Qed.

Lemma agree_ca_mailLetter (body : value) (f : MailLabel.Fields)
    (tracking weight : value) (doc : Pdf.Document) :
  "https://api.lob.com/v1/letters" <> env_or w "SHEETS_WEBHOOK_URL" "" ->
  agree sameStatus
    (MailLabelCA.mailLetter (withSink w sink) body f tracking weight doc)
    (MailLabelCA.mailLetter w body f tracking weight doc).
Proof.
  intro H. unfold MailLabelCA.mailLetter.
  apply agree_bind with (RA := eq).
  - apply (agree_fetch (MailLabelCA.lobRequest w f doc) H).
  - intros lobResp ? <-.
    destruct (negb (resp_ok lobResp) || negb (truthy (opt_get (json_or_null lobResp) "id"))).
    + apply agree_bind with (RA := eq).
      * apply (agree_refl (MailLabelCA.lobFailPayload w body f tracking weight lobResp)).
      * intros p ? <-. apply agree_bind with (RA := anything).
        -- apply (agree_ca_post (MailLabelCA.SHEETS_WEBHOOK_URL w) p).
        -- intros. apply agree_ret. reflexivity.
    + apply agree_bind with (RA := eq).
      * apply (agree_refl
                 (MailLabelCA.successPayload w body f tracking weight (json_or_null lobResp))).
      * intros p ? <-. apply agree_bind with (RA := anything).
        -- apply (agree_ca_post (MailLabelCA.SHEETS_WEBHOOK_URL w) p).
        -- intros o1 o2 _. apply agree_bind with (RA := eq); [apply agree_refl|].
           intros ? ? <-. apply agree_bind with (RA := eq); [apply agree_refl|].
           intros ? ? <-. apply agree_ret. reflexivity.
Qed.

Lemma agree_ca_createAndMail (req : Request) (body : value) (f : MailLabel.Fields) :
  "https://api.lob.com/v1/letters" <> env_or w "SHEETS_WEBHOOK_URL" "" ->
  fr_url (MailLabelCA.labelRequest req body) <> env_or w "SHEETS_WEBHOOK_URL" "" ->
  agree sameStatus (MailLabelCA.createAndMail (withSink w sink) req body f)
    (MailLabelCA.createAndMail w req body f).
Proof.
  intros HL HR. unfold MailLabelCA.createAndMail.
  apply agree_bind with (RA := eq).
  - apply (agree_fetch _ HR).
  - intros labelResp ? <-.
    destruct (negb (resp_ok labelResp)
              || negb (truthy (opt_get (json_or_null labelResp) "labelData"))).
    + apply agree_bind with (RA := eq).
      * apply (agree_refl (MailLabelCA.labelFailPayload w body f labelResp)).
      * intros p ? <-. apply agree_bind with (RA := anything).
        -- apply (agree_ca_post (MailLabelCA.SHEETS_WEBHOOK_URL w) p).
        -- intros. apply agree_ret. reflexivity.
    + apply agree_bind with (RA := eq); [apply agree_refl|]. intros t1 ? <-.
      apply agree_bind with (RA := eq); [apply agree_refl|]. intros t2 ? <-.
      apply agree_bind with (RA := eq).
      { apply (agree_refl (lift (MailLabel.normalizeWeightOz w body))). }
      intros weightOz ? <-.
      apply agree_bind with (RA := eq); [apply agree_refl|]. intros labelData ? <-.
      apply agree_bind with (RA := eq).
      * apply (agree_refl (MailLabel.buildInstructionsPlusLabelPdf w labelData)).
      * intros doc ? <-. apply (agree_ca_mailLetter _ _ _ _ _ HL).
Qed.

Lemma agree_ca_handler (req : Request) :
  "https://api.lob.com/v1/letters" <> env_or w "SHEETS_WEBHOOK_URL" "" ->
  (forall body, fr_url (MailLabelCA.labelRequest req body) <> env_or w "SHEETS_WEBHOOK_URL" "") ->
  agree sameStatus (MailLabelCA.handler (withSink w sink) req) (MailLabelCA.handler w req).
Proof.
  intros HL HR. unfold MailLabelCA.handler.
  apply agree_try_catch; [|intro e; apply agree_ret; reflexivity].
  destruct (negb (String.eqb (req_method req) "POST")); [apply agree_ret; reflexivity|].
  unfold MailLabelCA.guarded.
  change (env_or (withSink w sink) "MAIL_USER" "") with (env_or w "MAIL_USER" "").
  change (env_or (withSink w sink) "MAIL_PASS" "") with (env_or w "MAIL_PASS" "").
  change (MailLabelCA.parseBasicAuth (withSink w sink) req)
    with (MailLabelCA.parseBasicAuth w req).
  destruct (String.eqb (env_or w "MAIL_USER" "") "" || String.eqb (env_or w "MAIL_PASS" "") "");
    [apply agree_ret; reflexivity|].
  destruct (MailLabel.refused _ _ _); [apply agree_ret; reflexivity|].
  apply agree_bind with (RA := eq).
  - apply (agree_refl (MailLabel.parseBody w req)).
  - intros body ? <-. unfold MailLabelCA.validate.
    change (env_or (withSink w sink) "LOB_API_KEY" "") with (env_or w "LOB_API_KEY" "").
    destruct (String.eqb (env_or w "LOB_API_KEY" "") ""); [apply agree_ret; reflexivity|].
    apply agree_bind with (RA := eq).
    { apply (agree_refl (lift (MailLabel.readFields w body))). }
    intros f ? <-.
    destruct (negb (Nat.eqb (List.length (MailLabel.missingFields f)) 0)).
    + apply agree_bind with (RA := eq).
      * apply (agree_refl (MailLabelCA.missingPayload w body _ _)).
      * intros p ? <-. apply agree_bind with (RA := anything).
        -- apply (agree_ca_post (MailLabelCA.SHEETS_WEBHOOK_URL w) p).
        -- intros. apply agree_ret. reflexivity.
    + apply agree_ca_createAndMail; auto.
Qed.

End Sink.

(** What agreement says of two runs from the start of a request. *)
Lemma agree_runs (m1 m2 : M Response) :
  agree sameStatus m1 m2 ->
  statusOf (fst (run m1)) = statusOf (fst (run m2)) /\ snd (run m1) = snd (run m2).
Proof.
  intro H. specialize (H initial). unfold run.
  destruct (m1 initial) as [[r1|e1] s1], (m2 initial) as [[r2|e2] s2]; try contradiction;
    destruct H as [<- H]; cbn; split; auto.
  red in H. rewrite H. reflexivity.
Qed.

(** C8. The audit sink never fails its caller. [postToSheets] always returns:
    without a URL it returns the skipped outcome ([null]; in the draft that
    logs as "CAphysical-mail", an outcome that says the URL is missing)
    without any network call, and a transport error of the post is returned
    as the outcome. So the pipeline is not changed by the audit write: however
    the webhook behaves, the handler answers with the same status after the
    same trace. *)
Theorem audit_sink_never_fails (w : World) (url : string) (payload : value) (s : St) :
  (exists outcome s', MailLabel.postToSheets w url payload s = (Ok outcome, s')) /\
  (exists outcome s', MailLabelCA.postToSheets w url payload s = (Ok outcome, s')) /\
  (url = "" ->
   MailLabel.postToSheets w url payload s = (Ok VNull, logged s [EvAudit payload]) /\
   MailLabelCA.postToSheets w url payload s =
     (Ok (obj [("ok", VBool false); ("status", VNumber 0);
               ("error", str "Missing SHEETS_WEBHOOK_URL env var")]),
      logged s [EvAudit payload])) /\
  (forall e,
     url <> "" ->
     fetch w (MailLabel.webhookRequest url payload) = NetworkError e ->
     MailLabel.postToSheets w url payload s =
       (Ok (obj [("ok", VBool false); ("error", str e)]),
        logged s [EvAudit payload; EvFetch (MailLabel.webhookRequest url payload)]) /\
     MailLabelCA.postToSheets w url payload s =
       (Ok (obj [("ok", VBool false); ("status", VNumber 0); ("error", str e)]),
        logged s [EvAudit payload; EvFetch (MailLabel.webhookRequest url payload)])) /\
  (forall (sink : FetchRequest -> FetchOutcome) (req : Request),
     "https://api.lob.com/v1/letters" <> env_or w "SHEETS_WEBHOOK_URL" "" ->
     MailLabel.getBaseUrl req ++ "/api/create-label" <> env_or w "SHEETS_WEBHOOK_URL" "" ->
     (statusOf (fst (run (MailLabel.handler (withSink w sink) req)))
        = statusOf (fst (run (MailLabel.handler w req))) /\
      snd (run (MailLabel.handler (withSink w sink) req))
        = snd (run (MailLabel.handler w req))) /\
     (statusOf (fst (run (MailLabelCA.handler (withSink w sink) req)))
        = statusOf (fst (run (MailLabelCA.handler w req))) /\
      snd (run (MailLabelCA.handler (withSink w sink) req))
        = snd (run (MailLabelCA.handler w req)))).
Proof.
  split; [|split; [|split; [|split]]].
  - destruct (mail_post_runs w url payload s) as (o & H). eauto.
  - destruct (ca_post_runs w url payload s) as (o & H). eauto.
  - intros ->. split; reflexivity.
  - intros e U F. apply String.eqb_neq in U.
    unfold MailLabel.postToSheets, MailLabelCA.postToSheets, bind, emit, try_catch,
      do_fetch, ret, throw, logged.
    cbn [trace reads]. rewrite U, F. cbn. rewrite <- !app_assoc. split; reflexivity.
  - intros sink req HL HR. split; apply agree_runs.
    + apply agree_handler; [exact HL|intro body; exact HR].
    + apply agree_ca_handler; [exact HL|intro body; exact HR].
Qed.

Lemma audit_sink_never_fails_webhook_down :
  fst (MailLabel.postToSheets (Scenario.world Scenario.healthy) "" Scenario.jane initial)
    = Ok VNull /\
  statusOf (fst (run (MailLabel.handler
                        (withSink (Scenario.deployed Scenario.healthy)
                           (fun _ => NetworkError "TypeError: fetch failed"))
                        Scenario.janeRequest))) = Some 200%N.
Proof.
  split.
  - destruct (audit_sink_never_fails (Scenario.world Scenario.healthy) ""
                Scenario.jane initial) as (_ & _ & Skipped & _).
    destruct (Skipped eq_refl) as [-> _]. reflexivity.
  - destruct (audit_sink_never_fails (Scenario.deployed Scenario.healthy) ""
                Scenario.jane initial) as (_ & _ & _ & _ & Same).
    destruct (Same (fun _ => NetworkError "TypeError: fetch failed") Scenario.janeRequest)
      as [[-> _] _].
    + intro E. vm_compute in E. discriminate.
    + intro E. vm_compute in E. discriminate.
    + vm_compute. reflexivity.
Defined.

(** * Further properties of the code *)

(** ** Strings *)

Lemma append_empty_r (s : string) : s ++ "" = s.
Proof. induction s as [|c s IH]; [reflexivity|]. cbn. rewrite IH. reflexivity. Qed.

Lemma append_assoc (a b c : string) : (a ++ b) ++ c = a ++ (b ++ c).
Proof. induction a as [|x a IH]; [reflexivity|]. cbn. rewrite IH. reflexivity. Qed.

Lemma rev_append_reverse (s acc : string) : rev_append s acc = reverse s ++ acc.
Proof.
  unfold reverse. revert acc.
  induction s as [|c s IH]; intro acc; [reflexivity|].
  cbn. rewrite IH, (IH (String c "")), append_assoc. reflexivity.
Qed.

Lemma reverse_cons (c : ascii) (s : string) : reverse (String c s) = reverse s ++ String c "".
Proof. unfold reverse at 1. cbn. apply rev_append_reverse. Qed.

Lemma reverse_append (a b : string) : reverse (a ++ b) = reverse b ++ reverse a.
Proof.
  induction a as [|c a IH].
  - cbn. rewrite append_empty_r. reflexivity.
  - cbn [append]. rewrite !reverse_cons, IH, append_assoc. reflexivity.
Qed.

Lemma reverse_involutive (s : string) : reverse (reverse s) = s.
Proof.
  induction s as [|c s IH]; [reflexivity|].
  rewrite reverse_cons, reverse_append, IH. reflexivity.
Qed.

Lemma trimStart_clean (s : string) : startsClean (trimStart s) = true.
Proof.
  induction s as [|c s IH]; [reflexivity|].
  cbn. destruct (is_space c) eqn:E; [exact IH|]. cbn. rewrite E. reflexivity.
Qed.

Lemma trimStart_fixed (s : string) : startsClean s = true -> trimStart s = s.
Proof.
  destruct s as [|c s]; [reflexivity|]. cbn. intro H.
  destruct (is_space c); [discriminate|reflexivity].
Qed.

(** What [trimStart] removes is a prefix. *)
Lemma trimStart_suffix (s : string) : exists p, s = p ++ trimStart s.
Proof.
  induction s as [|c s [p IH]]; [exists ""; reflexivity|].
  cbn. destruct (is_space c).
  - exists (String c p). cbn. rewrite <- IH. reflexivity.
  - exists "". reflexivity.
Qed.

Lemma startsClean_prefix (a b : string) :
  a <> "" -> startsClean (a ++ b) = startsClean a.
Proof. destruct a; [congruence|reflexivity]. Qed.

(** Neither end of a trimmed string is white space. *)
Lemma trim_clean (s : string) :
  startsClean (trim s) = true /\ startsClean (reverse (trim s)) = true.
Proof.
  unfold trim. rewrite reverse_involutive. split; [|apply trimStart_clean].
  destruct (trimStart_suffix (reverse (trimStart s))) as [p Hp].
  destruct (trimStart (reverse (trimStart s))) as [|c b] eqn:E; [reflexivity|].
  rewrite <- (startsClean_prefix _ (reverse p)).
  - rewrite <- reverse_append, <- Hp, reverse_involutive. apply trimStart_clean.
  - rewrite reverse_cons. destruct (reverse b); discriminate.
Qed.

Lemma trim_fixed (s : string) :
  startsClean s = true -> startsClean (reverse s) = true -> trim s = s.
Proof.
  intros H1 H2. unfold trim.
  rewrite (trimStart_fixed _ H1), (trimStart_fixed _ H2). apply reverse_involutive.
Qed.

Lemma trim_idempotent (s : string) : trim (trim s) = trim s.
Proof. destruct (trim_clean s). apply trim_fixed; assumption. Qed.

(** [indexOf(":")] and the two slices: the cut is at the first colon. *)
Lemma split_at_colon_spec (s a b : string) :
  split_at_colon s = Some (a, b) <-> s = a ++ ":" ++ b /\ colonFree a = true.
Proof.
  revert a. induction s as [|c s IH]; intro a.
  - cbn. split; [discriminate|]. intros [H _]. destruct a; discriminate.
  - cbn [split_at_colon]. destruct (Ascii.eqb c ":"%char) eqn:E.
    + apply Ascii.eqb_eq in E. subst c. split.
      * intro H. injection H as <- <-. split; reflexivity.
      * intros [H F]. destruct a as [|x a].
        -- cbn in H. injection H as ->. reflexivity.
        -- cbn in H. injection H as <- _. cbn in F. discriminate.
    + destruct (split_at_colon s) as [[a' b']|] eqn:S.
      * split.
        -- intro H. injection H as <- <-. destruct (proj1 (IH a') eq_refl) as [-> F].
           split; [reflexivity|]. cbn. rewrite E, F. reflexivity.
        -- intros [H F]. destruct a as [|x a].
           ++ cbn in H. injection H as -> _. rewrite Ascii.eqb_refl in E. discriminate.
           ++ cbn in H. injection H as <- H. cbn in F. apply andb_true_iff in F as [_ F].
              assert (Some (a', b') = Some (a, b)) as Hs by (apply IH; split; assumption).
              injection Hs as -> ->. reflexivity.
      * split; [discriminate|]. intros [H F]. destruct a as [|x a].
        -- cbn in H. injection H as -> _. rewrite Ascii.eqb_refl in E. discriminate.
        -- cbn in H. injection H as <- H. cbn in F. apply andb_true_iff in F as [_ F].
           assert (None = Some (a, b)) as Hs by (apply IH; split; assumption).
           discriminate.
Qed.

Lemma reverse_slashes (n : nat) : reverse (slashes n) = slashes n.
Proof.
  induction n as [|n IH]; [reflexivity|].
  cbn [slashes]. rewrite reverse_cons, IH.
  clear IH. induction n as [|n IH]; [reflexivity|]. cbn. rewrite IH. reflexivity.
Qed.

Lemma dropSlashes_slashes (n : nat) (s : string) :
  dropSlashes (slashes n ++ s) = dropSlashes s.
Proof. induction n as [|n IH]; [reflexivity|]. cbn. exact IH. Qed.

Lemma dropSlashes_fixed (s : string) :
  match s with String c _ => Ascii.eqb c "/"%char | EmptyString => false end = false ->
  dropSlashes s = s.
Proof. destruct s as [|c s]; [reflexivity|]. cbn. intros ->. reflexivity. Qed.

(** [s.replace(/\/+$/, "")] removes every trailing slash and nothing else. *)
Lemma stripTrailingSlashes_spec (base : string) (n : nat) :
  endsWithSlash base = false ->
  stripTrailingSlashes (base ++ slashes n) = base.
Proof.
  intro H. unfold stripTrailingSlashes.
  rewrite reverse_append, reverse_slashes, dropSlashes_slashes.
  rewrite dropSlashes_fixed by exact H. apply reverse_involutive.
Qed.

(** ** The helpers of api/mail-label.js *)

Lemma basic_header_not_empty (header : string) :
  startsWith header "Basic " = true -> String.eqb header "" = false.
Proof. destruct header; [discriminate|reflexivity]. Qed.

(** X2. [parseBasicAuth] returns a user and a password exactly
    when the Authorization header starts with "Basic " and what follows
    decodes to the user, a colon and the password, the user holding no
    colon: the cut is at the first colon, so a password may contain colons
    and a user may not. The first draft trims what follows "Basic " before
    decoding it; the later drafts decode it as it is. *)
Theorem parseBasicAuth_spec (w : World) (req : Request) (user pass : string) :
  (MailLabel.parseBasicAuth w req = Some (user, pass) <->
   exists header,
     MailLabel.authorizationHeader req = Some header /\
     startsWith header "Basic " = true /\
     base64_to_utf8 w (trim (slice_from 6 header)) = user ++ ":" ++ pass /\
     colonFree user = true) /\
  (MailLabelCA.parseBasicAuth w req = Some (user, pass) <->
   exists header,
     MailLabel.authorizationHeader req = Some header /\
     startsWith header "Basic " = true /\
     base64_to_utf8 w (slice_from 6 header) = user ++ ":" ++ pass /\
     colonFree user = true).
Proof.
  unfold MailLabel.parseBasicAuth, MailLabelCA.parseBasicAuth.
  split.
  - destruct (MailLabel.authorizationHeader req) as [header|].
    + destruct (startsWith header "Basic ") eqn:P.
      * rewrite (basic_header_not_empty _ P).
        cbn [negb orb]. change (String.length "Basic ") with 6.
        rewrite split_at_colon_spec. split.
        -- intros [H F]. exists header. auto.
        -- intros (h & Hh & _ & H & F). injection Hh as <-. auto.
      * rewrite orb_true_r. split; [discriminate|].
        intros (h & Hh & P' & _). injection Hh as <-. congruence.
    + split; [discriminate|]. intros (h & Hh & _). discriminate.
  - destruct (MailLabel.authorizationHeader req) as [header|].
    + destruct (startsWith header "Basic ") eqn:P.
      * rewrite (basic_header_not_empty _ P).
        cbn [negb orb]. change (String.length "Basic ") with 6.
        rewrite split_at_colon_spec. split.
        -- intros [H F]. exists header. auto.
        -- intros (h & Hh & _ & H & F). injection Hh as <-. auto.
      * rewrite orb_true_r. split; [discriminate|].
        intros (h & Hh & P' & _). injection Hh as <-. congruence.
    + split; [discriminate|]. intros (h & Hh & _). discriminate.
Qed.

(** ** The helpers of api/create-label.js *)

Lemma env_or_set (w : World) (name fallback value : string) :
  env w name = Some value -> value <> "" -> env_or w name fallback = value.
Proof.
  intros E N. unfold env_or. rewrite E.
  rewrite (proj2 (String.eqb_neq _ _) N). reflexivity.
Qed.

(** X3. Trailing slashes of the configured base URLs do not
    count: whatever their number, the token request goes to the sign-in base
    followed by /oauth/token and the label request to the API base followed
    by /v1/labels, with one slash in between. *)
Theorem base_url_trailing_slashes (w : World) (base : string) (n : nat) :
  endsWithSlash base = false ->
  base ++ slashes n <> "" ->
  (env w "SERA_SIGNIN_BASE" = Some (base ++ slashes n) ->
   fr_url (CreateLabel.tokenRequest w) = base ++ "/oauth/token") /\
  (env w "SERA_API_BASE" = Some (base ++ slashes n) ->
   forall accessToken idempotencyKey payload,
     fr_url (CreateLabel.labelsRequest w accessToken idempotencyKey payload) =
       base ++ "/v1/labels").
Proof.
  intros E N. split.
  - intro H. cbn [fr_url CreateLabel.tokenRequest]. unfold CreateLabel.SIGNIN_BASE.
    rewrite (env_or_set _ _ _ _ H N), (stripTrailingSlashes_spec _ _ E). reflexivity.
  - intros H accessToken idempotencyKey payload.
    cbn [fr_url CreateLabel.labelsRequest]. unfold CreateLabel.API_BASE.
    rewrite (env_or_set _ _ _ _ H N), (stripTrailingSlashes_spec _ _ E). reflexivity.
Qed.

Lemma base_url_trailing_slashes_twice :
  let w := Scenario.world
             {| Scenario.variables :=
                  [("SERA_SIGNIN_BASE", "https://signin.example//");
                   ("SERA_API_BASE", "https://api.example/sera//")];
                Scenario.token := Scenario.token Scenario.healthy;
                Scenario.carrier := Scenario.carrier Scenario.healthy;
                Scenario.letters := Scenario.letters Scenario.healthy;
                Scenario.webhook := Scenario.webhook Scenario.healthy |} in
  fr_url (CreateLabel.tokenRequest w) = "https://signin.example/oauth/token" /\
  fr_url (CreateLabel.labelsRequest w "at-1" "" VNull) = "https://api.example/sera/v1/labels".
Proof.
  cbv zeta. split.
  - apply (base_url_trailing_slashes _ "https://signin.example" 2);
      [reflexivity|discriminate|reflexivity].
  - apply (base_url_trailing_slashes _ "https://api.example/sera" 2);
      [reflexivity|discriminate|reflexivity].
Defined.

(** A double that is [===] to a finite constant is that constant. *)
Lemma eqb_finite (x c : float) (s : bool) (m : BinNums.positive) (e : Z) :
  Prim2SF c = S754_finite s m e -> PrimFloat.eqb x c = true -> x = c.
Proof.
  intros Hc H. apply FloatAxioms.Prim2SF_inj.
  rewrite FloatAxioms.eqb_spec, Hc in H. rewrite Hc.
  unfold SFeqb, SFcompare in H.
  destruct (Prim2SF x) as [s1| s1| |s1 m1 e1]; try discriminate.
  - destruct s; discriminate.
  - destruct s1; discriminate.
  - destruct s1, s; try discriminate.
    + destruct (Z.compare e1 e) eqn:E; try discriminate.
      apply Z.compare_eq in E. subst e1.
      destruct (PosDef.Pos.compare_cont Eq m1 m) eqn:C; try discriminate.
      apply Pos.compare_eq in C. subst. reflexivity.
    + destruct (Z.compare e1 e) eqn:E; try discriminate.
      apply Z.compare_eq in E. subst e1.
      destruct (PosDef.Pos.compare_cont Eq m1 m) eqn:C; try discriminate.
      apply Pos.compare_eq in C. subst. reflexivity.
Qed.

(** X4. Whatever the request says, the weight api/create-label.js
    resolves is 16 or 32 ounces. [normalizeWeightOz] throws only on a body
    that is [null] or [undefined], or on a weight that has no number: on
    [weightOz], or on [weightLbs] when the ounces are not accepted. *)
Theorem create_label_weight_16_or_32 (w : World) (body : value) (s : St) :
  match fst (CreateLabel.normalizeWeightOz w body s) with
  | Ok oz => oz = 16%float \/ oz = 32%float
  | Throw e =>
      nullish body = true \/ ozOf w body = Throw e \/ lbsOf w body = Throw e
  end.
Proof.
  unfold CreateLabel.normalizeWeightOz, get, ozOf, lbsOf.
  destruct (nullish body) eqn:N; [left; reflexivity|].
  rewrite bind_lift.
  destruct (Number_ w (opt_get body "weightOz")) as [oz|e] eqn:Eo;
    [|right; left; reflexivity].
  rewrite bind_lift.
  destruct (Number_isFinite oz && (PrimFloat.eqb oz 16 || PrimFloat.eqb oz 32)) eqn:Co.
  - cbn [fst ret]. apply andb_prop in Co as [_ Co]. apply orb_prop in Co as [E|E].
    + left. exact (eqb_finite oz 16 false 4503599627370496 (-48) eq_refl E).
    + right. exact (eqb_finite oz 32 false 4503599627370496 (-47) eq_refl E).
  - rewrite bind_lift.
    destruct (Number_ w (opt_get body "weightLbs")) as [lbs|e] eqn:El;
      [|right; right; reflexivity].
    rewrite bind_lift.
    destruct (Number_isFinite lbs && (PrimFloat.eqb lbs 1 || PrimFloat.eqb lbs 2)) eqn:Cl.
    + cbn [fst ret]. apply andb_prop in Cl as [_ Cl]. apply orb_prop in Cl as [E|E].
      * left. rewrite (eqb_finite lbs 1 false 4503599627370496 (-52) eq_refl E). reflexivity.
      * right. rewrite (eqb_finite lbs 2 false 4503599627370496 (-51) eq_refl E). reflexivity.
    + right. reflexivity.
Qed.

(** ** The records of api/create-label.js *)

Lemma only_filterMissing (P : Event -> Prop) (w : World) (body : value) (keys : list string) :
  only P (CreateLabel.filterMissing w body keys).
Proof.
  induction keys as [|k rest IH]; cbn [CreateLabel.filterMissing]; repeat only_step.
  exact IH.
Qed.

Lemma only_customer (P : Event -> Prop) (body : value) :
  only P (CreateLabel.customerFromAddress body).
Proof. unfold CreateLabel.customerFromAddress. repeat only_step. Qed.

Lemma only_weight (P : Event -> Prop) (w : World) (body : value) :
  only P (CreateLabel.normalizeWeightOz w body).
Proof. unfold CreateLabel.normalizeWeightOz. repeat only_step. Qed.

Lemma only_labelPayload (P : Event -> Prop) (w : World) (body : value)
    (from_address : CreateLabel.Address) (weightOz : float) :
  only P (CreateLabel.labelPayload w body from_address weightOz).
Proof.
  unfold CreateLabel.labelPayload, CreateLabel.todayYYYYMMDD. repeat only_step.
Qed.

(** With [skipLogging], api/create-label.js only fetches. *)
Lemma create_label_quiet (w : World) (req : Request) :
  skipsLogging w req -> only isFetch (CreateLabel.handler w req).
Proof.
  intro Sk. unfold CreateLabel.handler.
  apply only_try_catch; [|intro; apply only_ret].
  branch; [apply only_ret|].
  unfold CreateLabel.guarded.
  branch; [apply only_ret|].
  unfold CreateLabel.parseBody. apply only_bind_lift. intros body Hb.
  unfold CreateLabel.validate. rewrite (Sk body Hb).
  apply only_bind; [apply only_filterMissing|intro missing].
  branch; [apply only_ret|].
  unfold CreateLabel.issueLabel.
  apply only_bind; [apply only_customer|intro a].
  branch; [apply only_ret|].
  apply only_bind; [apply only_weight|intro oz].
  apply only_bind; [unfold CreateLabel.getAccessToken; repeat only_step; exact I|intro token].
  apply only_bind; [apply only_labelPayload|intro payload].
  apply only_bind; [unfold CreateLabel.uuidv4; repeat only_step|intro key].
  apply only_bind; [apply only_lift|intro bearer].
  apply only_bind; [apply only_fetch; exact I|intro labelResp].
  cbn [negb].
  repeat only_step; exact I.
Qed.

(** X5. A request to api/create-label.js whose body carries
    [skipLogging: true] leaves no audit record, on any path: whatever the
    configuration, the token endpoint and the carrier do, the handler hands
    nothing to its sink. *)
Theorem create_label_skip_logging (w : World) (req : Request) :
  skipsLogging w req ->
  audits (snd (run (CreateLabel.handler w req))) = [].
Proof.
  intro Sk. apply audits_fetches, only_run, create_label_quiet. exact Sk.
Qed.

Lemma create_label_skip_logging_jane :
  let req := Scenario.post None
               (obj [("name", str "Jane Doe"); ("address1", str "1 Main St");
                     ("city", str "Springfield"); ("state", str "IL"); ("zip", str "62704");
                     ("phone", str "2175551234"); ("deviceType", str "base-unit");
                     ("skipLogging", VBool true)]) in
  skipsLogging (Scenario.world Scenario.healthy) req /\
  statusOf (fst (run (CreateLabel.handler (Scenario.world Scenario.healthy) req))) = Some 200%N /\
  audits (snd (run (CreateLabel.handler (Scenario.world Scenario.healthy) req))) = [].
Proof.
  cbv zeta.
  assert (Sk : skipsLogging (Scenario.world Scenario.healthy)
                 (Scenario.post None
                    (obj [("name", str "Jane Doe"); ("address1", str "1 Main St");
                          ("city", str "Springfield"); ("state", str "IL");
                          ("zip", str "62704"); ("phone", str "2175551234");
                          ("deviceType", str "base-unit"); ("skipLogging", VBool true)]))).
  { intros body H. vm_compute in H. injection H as <-. reflexivity. }
  split; [exact Sk|]. split; [vm_compute; reflexivity|].
  apply (create_label_skip_logging _ _ Sk).
Defined.

(** ** The records of api/mail-label.js *)

Lemma tally_missingPayload (w : World) (body : value) (f : MailLabel.Fields)
    (missing : list string) :
  tally (fun _ => 0) (MailLabel.missingPayload w body f missing).
Proof. unfold MailLabel.missingPayload. repeat tally_step. Qed.

Lemma tally_labelFailPayload (w : World) (body : value) (f : MailLabel.Fields)
    (labelResp : FetchResponse) :
  tally (fun _ => 0) (MailLabel.labelFailPayload w body f labelResp).
Proof. unfold MailLabel.labelFailPayload. repeat tally_step. Qed.

Lemma tally_lobFailPayload (w : World) (body : value) (f : MailLabel.Fields)
    (labelJson trackingNumber weightOz : value) (lobResp : FetchResponse) :
  tally (fun _ => 0)
    (MailLabel.lobFailPayload w body f labelJson trackingNumber weightOz lobResp).
Proof. unfold MailLabel.lobFailPayload. repeat tally_step. Qed.

Lemma tally_successPayload (w : World) (body : value) (f : MailLabel.Fields)
    (labelJson trackingNumber weightOz lobJson : value) :
  tally (fun _ => 0)
    (MailLabel.successPayload w body f labelJson trackingNumber weightOz lobJson).
Proof. unfold MailLabel.successPayload. repeat tally_step. Qed.

(** From the request for a label on, the [try] block of api/mail-label.js
    hands one record to the sink when it returns, and none when it throws. *)
Lemma tally_mail_createAndMail (w : World) (req : Request) (body : value)
    (f : MailLabel.Fields) :
  tally (fun _ => 1) (MailLabel.createAndMail w req body f).
Proof.
  unfold MailLabel.createAndMail.
  apply tally_bind; [apply tally_fetch|intro labelResp; cbv beta].
  branch.
  - apply tally_bind; [apply tally_labelFailPayload|intro p].
    eapply tally_then; [apply tally_mail_post|answered].
  - apply tally_bind; [tally_step|intro t1; cbv beta].
    apply tally_bind; [branch; tally_step|intro t2; cbv beta].
    apply tally_bind; [tally_step|intro weightOz; cbv beta].
    apply tally_bind; [tally_step|intro labelData; cbv beta].
    apply tally_bind; [apply tally_build|intro doc; cbv beta].
    unfold MailLabel.mailLetter.
    apply tally_bind; [apply tally_fetch|intro lobResp; cbv beta].
    destruct (negb (resp_ok lobResp) || negb (truthy (opt_get (json_or_null lobResp) "id"))) eqn:C.
    + apply tally_bind; [apply tally_lobFailPayload|intro p].
      eapply tally_then; [apply tally_mail_post|answered].
    + apply orb_false_elim in C as [_ C]. apply negb_false_iff in C.
      pose proof (truthy_property_not_null _ _ C) as N.
      apply tally_bind; [apply tally_successPayload|intro p].
      eapply tally_then; [apply tally_mail_post|]. intros o.
      eexists. split; [intro s; rewrite !(get_of_object _ _ N); reflexivity|reflexivity].
Qed.

Lemma tally_mail_validate (w : World) (req : Request) (body : value) :
  String.eqb (env_or w "LOB_API_KEY" "") "" = false ->
  tally (fun _ => 1) (MailLabel.validate w req body).
Proof.
  intro K. unfold MailLabel.validate. rewrite K.
  apply tally_bind; [tally_step|intro f; cbv beta].
  branch; [|apply tally_mail_createAndMail].
  apply tally_bind; [apply tally_missingPayload|intro p].
  eapply tally_then; [apply tally_mail_post|answered].
Qed.

(** The [catch] of api/mail-label.js hands over one record and answers 500
    with the text of the error. *)
Lemma mail_catch_records (w : World) (e : string) (s : St) :
  exists s',
    (try_catch
       (crash <- MailLabel.crashPayload w e ;;
        MailLabel.postToSheets w (MailLabel.SHEETS_WEBHOOK_URL w) crash ;;;
        ret tt)
       (fun _ => ret tt) ;;;
     ret (MailLabel.sendJson 500 (obj [("ok", VBool false); ("error", str e)]))) s
    = (Ok (MailLabel.sendJson 500 (obj [("ok", VBool false); ("error", str e)])), s') /\
    records s' = records s + 1.
Proof.
  unfold try_catch, bind at 1. unfold bind at 1.
  unfold MailLabel.crashPayload at 1, bind at 1, Date_now, bind at 1, next_read, ret at 1.
  cbn beta iota. unfold bind at 1, todayIso at 1, bind at 1, next_read, ret at 1.
  cbn beta iota. unfold bind at 1, todayIso at 1, bind at 1, next_read, ret at 1.
  cbn beta iota. unfold ret at 1. cbn beta iota.
  unfold bind at 1.
  match goal with |- context [MailLabel.postToSheets w ?u ?p ?s0] =>
    pose proof (tally_mail_post w u p s0) as T;
    destruct (mail_post_runs w u p s0) as (o & Hp) end.
  rewrite Hp in T |- *.
  eexists. split; [reflexivity|]. exact T.
Qed.

Lemma records_run (m : M Response) :
  List.length (audits (snd (run m))) = records (snd (m initial)).
Proof. unfold run, records. destruct (m initial). reflexivity. Qed.

(** X6. api/mail-label.js hands exactly one audit record to its
    own sink for every request it does not turn away at a gate, whichever
    way the request ends (validation failure, label failure, letter failure,
    success, or an exception caught at the boundary, a body that does not
    parse included), and none for a request turned away (wrong method,
    user or password not configured, wrong credential, no key for the
    letter provider). *)
Theorem mail_label_one_record (w : World) (req : Request) :
  List.length (audits (snd (run (MailLabel.handler w req)))) =
    if turnedAway w req then 0 else 1.
Proof.
  rewrite records_run. unfold turnedAway.
  destruct (String.eqb (req_method req) "POST") eqn:Hm.
  2: { unfold MailLabel.handler, try_catch. rewrite Hm. reflexivity. }
  apply String.eqb_eq in Hm. rewrite (mail_method_post w req initial Hm).
  cbn [negb orb]. unfold try_catch at 1, MailLabel.guarded.
  destruct (String.eqb (env_or w "MAIL_USER" "") ""); [reflexivity|].
  destruct (String.eqb (env_or w "MAIL_PASS" "") ""); [reflexivity|].
  cbn [orb].
  destruct (MailLabel.refused _ _ _); [reflexivity|]. cbn [orb].
  unfold MailLabel.parseBody.
  destruct (MailLabel.bodyOf w req) as [body|e].
  - rewrite bind_lift.
    destruct (String.eqb (env_or w "LOB_API_KEY" "") "") eqn:K.
    { unfold MailLabel.validate. rewrite K. reflexivity. }
    pose proof (tally_mail_validate w req body K initial) as T.
    destruct (MailLabel.validate w req body initial) as [[res|e] s1].
    + exact T.
    + destruct (mail_catch_records w e s1) as (s' & -> & H). cbn [snd]. rewrite H, T. reflexivity.
  - unfold bind at 1, lift at 1.
    destruct (mail_catch_records w e initial) as (s' & -> & H). cbn [snd]. rewrite H. reflexivity.
Qed.

(** ** The records of the draft that logs as "CAphysical-mail" *)

Lemma tally_ca_missingPayload (w : World) (body : value) (f : MailLabel.Fields)
    (missing : list string) :
  tally (fun _ => 0) (MailLabelCA.missingPayload w body f missing).
Proof. unfold MailLabelCA.missingPayload. repeat tally_step. Qed.

Lemma tally_ca_labelFailPayload (w : World) (body : value) (f : MailLabel.Fields)
    (labelResp : FetchResponse) :
  tally (fun _ => 0) (MailLabelCA.labelFailPayload w body f labelResp).
Proof. unfold MailLabelCA.labelFailPayload. repeat tally_step. Qed.

Lemma tally_ca_lobFailPayload (w : World) (body : value) (f : MailLabel.Fields)
    (trackingNumber weightOz : value) (lobResp : FetchResponse) :
  tally (fun _ => 0) (MailLabelCA.lobFailPayload w body f trackingNumber weightOz lobResp).
Proof. unfold MailLabelCA.lobFailPayload. repeat tally_step. Qed.

Lemma tally_ca_successPayload (w : World) (body : value) (f : MailLabel.Fields)
    (trackingNumber weightOz lobJson : value) :
  tally (fun _ => 0) (MailLabelCA.successPayload w body f trackingNumber weightOz lobJson).
Proof. unfold MailLabelCA.successPayload. repeat tally_step. Qed.

Lemma tally_ca_handler (w : World) (req : Request) :
  tally written (MailLabelCA.handler w req).
Proof.
  unfold MailLabelCA.handler.
  apply tally_try_catch; [|intro e; apply tally_ret; reflexivity].
  branch; [apply tally_ret; reflexivity|].
  unfold MailLabelCA.guarded.
  branch; [apply tally_ret; reflexivity|].
  branch; [apply tally_ret; reflexivity|].
  unfold MailLabel.parseBody. apply tally_bind_lift. intros body _.
  unfold MailLabelCA.validate.
  branch; [apply tally_ret; reflexivity|].
  apply tally_bind; [tally_step|intro f; cbv beta].
  branch.
  { apply tally_bind; [apply tally_ca_missingPayload|intro p].
    eapply tally_then; [apply tally_ca_post|answered]. }
  unfold MailLabelCA.createAndMail.
  apply tally_bind; [apply tally_fetch|intro labelResp; cbv beta].
  branch.
  { apply tally_bind; [apply tally_ca_labelFailPayload|intro p].
    eapply tally_then; [apply tally_ca_post|answered]. }
  apply tally_bind; [tally_step|intro t1; cbv beta].
  apply tally_bind; [branch; tally_step|intro t2; cbv beta].
  apply tally_bind; [tally_step|intro weightOz; cbv beta].
  apply tally_bind; [tally_step|intro labelData; cbv beta].
  apply tally_bind; [apply tally_build|intro doc; cbv beta].
  unfold MailLabelCA.mailLetter.
  apply tally_bind; [apply tally_fetch|intro lobResp; cbv beta].
  destruct (negb (resp_ok lobResp) || negb (truthy (opt_get (json_or_null lobResp) "id"))) eqn:C.
  - apply tally_bind; [apply tally_ca_lobFailPayload|intro p].
    eapply tally_then; [apply tally_ca_post|answered].
  - apply orb_false_elim in C as [_ C]. apply negb_false_iff in C.
    pose proof (truthy_property_not_null _ _ C) as N.
    apply tally_bind; [apply tally_ca_successPayload|intro p].
    eapply tally_then; [apply tally_ca_post|]. intros o.
    eexists. split; [intro s; rewrite !(get_of_object _ _ N); reflexivity|reflexivity].
Qed.

Lemma ca_never_throws (w : World) (req : Request) (s : St) :
  exists res s', MailLabelCA.handler w req s = (Ok res, s').
Proof.
  unfold MailLabelCA.handler, try_catch.
  match goal with |- context [match ?m s with _ => _ end] => destruct (m s) as [[res|e] s1] end;
    unfold ret; eauto.
Qed.

(** X7. The draft that logs as "CAphysical-mail" always answers,
    and hands one audit record to its sink exactly when it answers 200 or
    400 (validation failure, label failure, letter failure, success). With
    every other answer there is none: 405, 401, the two configuration
    errors, and also the 500 of an exception caught at the boundary, whose
    [catch] writes no record. *)
Theorem ca_records_by_status (w : World) (req : Request) :
  exists res t,
    run (MailLabelCA.handler w req) = (Ok res, t) /\
    List.length (audits t) = written res.
Proof.
  unfold run. pose proof (tally_ca_handler w req initial) as T.
  destruct (ca_never_throws w req initial) as (res & s' & H).
  rewrite H in T |- *. exists res, (trace s'). split; [reflexivity|exact T].
Qed.

(** *** No second record in a deployment *)

Lemma audits_expanded (w : World) (origin : string) (t : list Event) :
  Forall (flat w origin) t -> audits (flat_map (Deployment.expand w origin) t) = audits t.
Proof.
  induction 1 as [|ev t H _ IH]; [reflexivity|].
  cbn [flat_map]. rewrite audits_app, H, IH, <- audits_app. reflexivity.
Qed.

(** What is sent with [skipLogging: true] arrives with it. *)
Lemma skipLogging_arrives (props : list (string * value)) :
  opt_get (Deployment.viaJson (VObject (MailLabelCA.setProp "skipLogging" (VBool true) props)))
    "skipLogging" = VBool true.
Proof.
  induction props as [|[k v] rest IH]; [reflexivity|].
  cbn [MailLabelCA.setProp].
  destruct (String.eqb "skipLogging" k) eqn:E.
  - cbn [Deployment.viaJson opt_get assoc]. rewrite E. reflexivity.
  - cbn [Deployment.viaJson opt_get] in IH |- *.
    destruct v; cbn [assoc]; rewrite ?E; exact IH.
Qed.

Lemma ca_label_request_quiet (w : World) (origin : string) (req : Request) (body : value) :
  flat w origin (EvFetch (MailLabelCA.labelRequest req body)).
Proof.
  unfold flat, Deployment.expand.
  destruct (Deployment.isCreateLabel origin _); [|reflexivity].
  change (audits (snd (Deployment.served w (MailLabelCA.labelRequest req body))) = []).
  unfold Deployment.served. apply audits_fetches, only_run, create_label_quiet.
  intros b Hb. unfold CreateLabel.bodyOf, Deployment.incoming in Hb.
  cbn [req_body fr_body MailLabelCA.labelRequest obj] in Hb.
  pose proof (skipLogging_arrives (MailLabelCA.spread body)) as S.
  cbn [Deployment.viaJson] in Hb, S.
  injection Hb as <-. exact S.
Qed.

(** No origin makes the letter provider's URL the label route. *)
Lemma letters_not_label_route (origin : string) :
  String.eqb "https://api.lob.com/v1/letters" (origin ++ "/api/create-label") = false.
Proof.
  apply String.eqb_neq. intro H. apply (f_equal reverse) in H.
  rewrite reverse_append in H. vm_compute in H. discriminate.
Qed.

Lemma only_ca_post (P : Event -> Prop) (w : World) (url : string) (p : value) :
  P (EvAudit p) -> P (EvFetch (MailLabel.webhookRequest url p)) ->
  only P (MailLabelCA.postToSheets w url p).
Proof.
  intros Ha Hf. unfold MailLabelCA.postToSheets.
  apply only_bind; [apply only_emit; exact Ha|intros _].
  branch; [apply only_ret|].
  apply only_try_catch; [|intro; apply only_ret].
  apply only_bind; [apply only_fetch; exact Hf|intro; apply only_ret].
Qed.

Section Deployed.

Variable w : World.
Variable origin : string.

Hypothesis sink_elsewhere :
  MailLabelCA.SHEETS_WEBHOOK_URL w <> origin ++ "/api/create-label".

Lemma flat_audit (p : value) : flat w origin (EvAudit p).
Proof. reflexivity. Qed.

Lemma flat_webhook (p : value) :
  flat w origin
    (EvFetch (MailLabel.webhookRequest
                (MailLabelCA.SHEETS_WEBHOOK_URL (Deployment.routed w origin)) p)).
Proof.
  unfold flat, Deployment.expand, Deployment.isCreateLabel.
  cbn [fr_url MailLabel.webhookRequest].
  change (MailLabelCA.SHEETS_WEBHOOK_URL (Deployment.routed w origin))
    with (MailLabelCA.SHEETS_WEBHOOK_URL w).
  rewrite (proj2 (String.eqb_neq _ _) sink_elsewhere). reflexivity.
Qed.

Lemma flat_letters (f : MailLabel.Fields) (doc : Pdf.Document) :
  flat w origin (EvFetch (MailLabelCA.lobRequest (Deployment.routed w origin) f doc)).
Proof.
  unfold flat, Deployment.expand, Deployment.isCreateLabel.
  cbn [fr_url MailLabelCA.lobRequest]. rewrite letters_not_label_route. reflexivity.
Qed.

Ltac posted :=
  apply only_ca_post; [apply flat_audit|apply flat_webhook].

Lemma ca_deployed_flat (req : Request) :
  only (flat w origin) (MailLabelCA.handler (Deployment.routed w origin) req).
Proof.
  unfold MailLabelCA.handler.
  apply only_try_catch; [|intro; apply only_ret].
  branch; [apply only_ret|].
  unfold MailLabelCA.guarded.
  branch; [apply only_ret|].
  branch; [apply only_ret|].
  apply only_bind; [apply only_lift|intro body].
  unfold MailLabelCA.validate.
  branch; [apply only_ret|].
  apply only_bind; [apply only_lift|intro f; cbv beta].
  branch.
  { apply only_bind; [unfold MailLabelCA.missingPayload; repeat only_step|intro p].
    apply only_bind; [posted|intro; apply only_ret]. }
  unfold MailLabelCA.createAndMail.
  apply only_bind; [apply only_fetch, ca_label_request_quiet|intro labelResp; cbv beta].
  branch.
  { apply only_bind; [unfold MailLabelCA.labelFailPayload; repeat only_step|intro p].
    apply only_bind; [posted|intro; apply only_ret]. }
  apply only_bind; [apply only_lift|intro t1; cbv beta].
  apply only_bind; [branch; only_step|intro t2; cbv beta].
  apply only_bind; [apply only_lift|intro weightOz; cbv beta].
  apply only_bind; [apply only_lift|intro labelData; cbv beta].
  apply only_bind; [apply only_build|intro doc; cbv beta].
  unfold MailLabelCA.mailLetter.
  apply only_bind; [apply only_fetch, flat_letters|intro lobResp; cbv beta].
  branch.
  - apply only_bind; [unfold MailLabelCA.lobFailPayload; repeat only_step|intro p].
    apply only_bind; [posted|intro; apply only_ret].
  - apply only_bind; [unfold MailLabelCA.successPayload; repeat only_step|intro p].
    apply only_bind; [posted|intro; repeat only_step].
Qed.

End Deployed.

(** X8. Deployed beside api/create-label.js, the draft that logs
    as "CAphysical-mail" leaves no second record: its request for a label
    carries [skipLogging: true], so api/create-label.js writes none, and
    the records of the whole deployment are the draft's own, one with an
    answer 200 or 400 and none otherwise. The webhook is taken not to be
    the label route itself. *)
Theorem ca_deployed_single_record (w : World) (origin : string) (req : Request) :
  MailLabelCA.SHEETS_WEBHOOK_URL w <> origin ++ "/api/create-label" ->
  exists res t,
    Deployment.mailLabelCA w origin req = (Ok res, t) /\
    List.length (audits t) = written res.
Proof.
  intro Sink. unfold Deployment.mailLabelCA.
  pose proof (only_run _ _ (ca_deployed_flat w origin Sink req)) as F.
  pose proof (tally_ca_handler (Deployment.routed w origin) req initial) as T.
  unfold run in F |- *.
  destruct (ca_never_throws (Deployment.routed w origin) req initial) as (res & s' & H).
  rewrite H in F, T |- *. cbn [snd] in F.
  exists res. eexists. split; [reflexivity|].
  rewrite (audits_expanded _ _ _ F). exact T.
Qed.

Lemma ca_deployed_single_record_jane :
  MailLabelCA.SHEETS_WEBHOOK_URL (Scenario.world Scenario.healthy) <>
    Scenario.origin ++ "/api/create-label" /\
  exists res t,
    Deployment.mailLabelCA (Scenario.world Scenario.healthy) Scenario.origin
      Scenario.janeRequest = (Ok res, t) /\
    List.length (audits t) = written res.
Proof.
  assert (Sink : MailLabelCA.SHEETS_WEBHOOK_URL (Scenario.world Scenario.healthy) <>
                 Scenario.origin ++ "/api/create-label").
  { intro H. vm_compute in H. discriminate. }
  split; [exact Sink|].
  apply (ca_deployed_single_record (Scenario.world Scenario.healthy) Scenario.origin
           Scenario.janeRequest Sink).
Defined.

(** ** The paths of api/create-label.js *)

Lemma trimmed_textual (k : string) (v : value) :
  textual v = true -> CreateLabel.trimmed k v = Ok (trim (textOf v)).
Proof.
  unfold CreateLabel.trimmed, or_else.
  destruct v as [| | | |s| |]; try discriminate; intros _; try reflexivity.
  cbn. destruct (String.eqb s "") eqn:E; [|reflexivity].
  apply String.eqb_eq in E. subst. reflexivity.
Qed.

Lemma blankOrFalsy_text (w : World) (body : value) (k : string) :
  textual (opt_get body k) = true ->
  blankOrFalsy w body k = String.eqb (trim (textOf (opt_get body k))) "".
Proof.
  unfold blankOrFalsy, or_else.
  destruct (opt_get body k) as [| | | |s| |]; try discriminate; intros _; try reflexivity.
  cbn. destruct (String.eqb s "") eqn:E; [|reflexivity].
  apply String.eqb_eq in E. subst. reflexivity.
Qed.

Lemma validated_not_null (w : World) (req : Request) (body : value) :
  Validated w req body -> nullish body = false.
Proof.
  intro V. pose proof (validated_fields V) as F.
  destruct body; try reflexivity; vm_compute in F; discriminate.
Qed.

Lemma filter_nil_In {A : Type} (f : A -> bool) (l : list A) (x : A) :
  filter f l = [] -> In x l -> f x = false.
Proof.
  intros H I. destruct (f x) eqn:E; [|reflexivity].
  assert (In x (filter f l)) as H' by (apply filter_In; auto).
  rewrite H in H'. destruct H'.
Qed.

Lemma validated_present (w : World) (req : Request) (body : value) (k : string) :
  Validated w req body -> Textual body -> In k requiredFields -> In k trimmedKeys ->
  String.eqb (trim (textOf (opt_get body k))) "" = false.
Proof.
  intros V T R K. rewrite <- (blankOrFalsy_text w) by exact (T k K).
  exact (filter_nil_In _ _ _ (validated_fields V) R).
Qed.

Lemma customer_runs (body : value) (s : St) :
  nullish body = false -> Textual body ->
  CreateLabel.customerFromAddress body s = (Ok (customerOf body), s).
Proof.
  intros N T. unfold CreateLabel.customerFromAddress.
  rewrite !(get_of_object _ _ N).
  repeat (rewrite bind_lift; cbv beta;
          rewrite trimmed_textual by (apply T; listed);
          rewrite bind_lift; cbv beta).
  reflexivity.
Qed.

Lemma address_complete (w : World) (req : Request) (body : value) :
  Validated w req body -> Textual body ->
  String.eqb (CreateLabel.a_name (customerOf body)) ""
  || String.eqb (CreateLabel.a_address_line1 (customerOf body)) ""
  || String.eqb (CreateLabel.a_city (customerOf body)) ""
  || String.eqb (CreateLabel.a_state_province (customerOf body)) ""
  || String.eqb (CreateLabel.a_postal_code (customerOf body)) "" = false.
Proof.
  intros V T. unfold customerOf.
  cbn [CreateLabel.a_name CreateLabel.a_address_line1 CreateLabel.a_city
       CreateLabel.a_state_province CreateLabel.a_postal_code].
  rewrite !(validated_present w req body) by (assumption || listed). reflexivity.
Qed.

Lemma granted_text (w : World) (accessToken : value) (bearer : string) :
  Granted w accessToken bearer -> String_ w accessToken = Ok bearer.
Proof. intros (r & data & _ & _ & _ & _ & _ & H). exact H. Qed.

Lemma granted_runs (w : World) (accessToken : value) (bearer : string) (s : St) :
  Granted w accessToken bearer ->
  CreateLabel.getAccessToken w s =
    (Ok accessToken, logged s [EvFetch (CreateLabel.tokenRequest w)]).
Proof.
  intros (r & data & F & Hok & J & T & -> & _).
  unfold CreateLabel.getAccessToken, do_fetch.
  unfold bind at 1. unfold bind at 1. unfold emit, ret at 1.
  rewrite F. cbn beta iota. unfold json_or_null. rewrite J, Hok, T. cbn [negb orb].
  rewrite (get_of_object _ _ (truthy_property_not_null _ _ T)). reflexivity.
Qed.

Lemma labelPayload_runs (w : World) (body : value) (a : CreateLabel.Address) (oz : float)
    (s : St) :
  nullish body = false -> Textual body ->
  exists payload,
    CreateLabel.labelPayload w body a oz s = (Ok payload, advanced s 1) /\
    opt_get (opt_get payload "package") "weight" = VNumber oz.
Proof.
  intros N T.
  unfold CreateLabel.labelPayload, CreateLabel.todayYYYYMMDD, todayIso, next_read.
  rewrite !(get_of_object _ _ N).
  unfold bind at 1. unfold bind at 1. unfold bind at 1. unfold ret at 1. cbn beta iota.
  unfold ret at 1. cbn beta iota.
  repeat (rewrite bind_lift; cbv beta;
          rewrite trimmed_textual by (apply T; listed);
          rewrite bind_lift; cbv beta).
  eexists. split; reflexivity.
Qed.

(** The check of the required fields either throws, on a field that has no
    text, or collects the fields that are blank or falsy. *)
Lemma filterMissing_cases (w : World) (body : value) (keys : list string) (s : St) :
  nullish body = false ->
  (exists e, CreateLabel.filterMissing w body keys s = (Throw e, s)) \/
  CreateLabel.filterMissing w body keys s = (Ok (filter (blankOrFalsy w body) keys), s).
Proof.
  intro N. induction keys as [|k rest IH]; [right; reflexivity|].
  cbn [CreateLabel.filterMissing filter].
  rewrite (get_of_object _ _ N), bind_lift. unfold blankOrFalsy at 1.
  destruct (String_ w (or_else (opt_get body k) (str ""))) as [text|e].
  - rewrite bind_lift. cbv zeta. unfold bind.
    destruct IH as [(e & ->)| ->].
    + left. exists e. reflexivity.
    + right. unfold ret. destruct (String.eqb (trim text) ""); reflexivity.
  - left. exists e. reflexivity.
Qed.

(** A request that passes the method test, the configuration and the
    parsing of the body reaches the check of the required fields. *)
Lemma create_reaches_validate (w : World) (req : Request) (body : value) :
  Validated w req body ->
  run (CreateLabel.handler w req) =
    run (try_catch (CreateLabel.validate w body)
           (fun e => ret (CreateLabel.json 500 (obj [("ok", VBool false); ("error", str e)])))).
Proof.
  intro V.
  unfold run, CreateLabel.handler, try_catch.
  rewrite (validated_post V). cbn [String.eqb Ascii.eqb Bool.eqb negb].
  unfold CreateLabel.guarded.
  rewrite (validated_id V), (validated_secret V), (validated_refresh V). cbn [negb orb].
  unfold CreateLabel.parseBody. rewrite (validated_body V), bind_lift.
  reflexivity.
Qed.

(** A validated request whose fields have a text reaches [issueLabel]. *)
Lemma create_reaches_issue (w : World) (req : Request) (body : value) :
  Validated w req body ->
  Converts w body ->
  run (CreateLabel.handler w req) =
    run (try_catch (CreateLabel.issueLabel w body (skipLoggingOf body))
           (fun e => ret (CreateLabel.json 500 (obj [("ok", VBool false); ("error", str e)])))).
Proof.
  intros V C. pose proof (validated_not_null _ _ _ V) as N.
  rewrite (create_reaches_validate w req body V).
  unfold run, try_catch, CreateLabel.validate. unfold bind at 1.
  change CreateLabel.required with requiredFields.
  rewrite (filterMissing_runs w body requiredFields initial N)
    by (intros k Hk; apply C, required_converted, Hk).
  rewrite (validated_fields V). reflexivity.
Qed.

Lemma weight_converts (w : World) (body : value) :
  Converts w body -> exists oz lbs, ozOf w body = Ok oz /\ lbsOf w body = Ok lbs.
Proof.
  intro C.
  destruct (C "weightOz" ltac:(listed)) as (t1 & H1).
  destruct (C "weightLbs" ltac:(listed)) as (t2 & H2).
  destruct (converts_number w _ _ H1) as (oz & Hoz).
  destruct (converts_number w _ _ H2) as (lbs & Hlbs).
  exists oz, lbs. split; assumption.
Qed.

Lemma uuid_runs (w : World) (s : St) :
  CreateLabel.uuidv4 w s = (Ok (randomUUID w (reads s)), advanced s 1).
Proof. reflexivity. Qed.

Lemma fetch_runs (w : World) (r : FetchRequest) (resp : FetchResponse) (s : St) :
  fetch w r = Responded resp -> do_fetch w r s = (Ok resp, logged s [EvFetch r]).
Proof. intro F. unfold do_fetch, bind, emit, ret. rewrite F. reflexivity. Qed.

(** The steps of [issueLabel] up to the answer of the carrier. *)
Ltac to_carrier V T G K Hoz Hlbs :=
  unfold CreateLabel.issueLabel;
  unfold bind at 1; rewrite (customer_runs _ _ (validated_not_null _ _ _ V) T);
  rewrite (address_complete _ _ _ V T);
  unfold bind at 1;
  rewrite (create_label_weight _ _ _ _ _ (validated_not_null _ _ _ V) Hoz Hlbs);
  unfold bind at 1; rewrite (granted_runs _ _ _ _ G);
  unfold bind at 1;
  match goal with |- context [CreateLabel.labelPayload ?w ?b ?a ?oz ?s] =>
    let payload := fresh "payload" in
    let Hp := fresh "Hp" in
    let Hw := fresh "Hw" in
    destruct (labelPayload_runs w b a oz s (validated_not_null _ _ _ V) T)
      as (payload & Hp & Hw);
    rewrite Hp
  end;
  unfold bind at 1; rewrite uuid_runs;
  unfold bind at 1; unfold lift at 1; rewrite (granted_text _ _ _ G);
  unfold bind at 1;
  match goal with |- context [do_fetch ?w ?r ?s] =>
    rewrite (fetch_runs w r _ s (K r eq_refl))
  end.


Lemma sheetsPayload_runs (w : World) (body : value) (a : CreateLabel.Address) (oz : float)
    (key : string) (labelData trackingNumber : value) (s : St) :
  nullish body = false -> Converts w body -> nullish labelData = false ->
  exists record,
    CreateLabel.sheetsPayload w body a oz key labelData trackingNumber s
      = (Ok record, advanced s 1) /\
    opt_get record "request_id" = str key /\
    opt_get record "source" = str "Connect Print" /\
    opt_get record "status" = str "Created" /\
    opt_get record "tracking_number" = trackingNumber /\
    opt_get record "weight_oz" = VNumber oz.
Proof.
  intros N C NL.
  destruct (textAt_runs w body "deviceType" N C ltac:(listed)) as (t1 & E1).
  destruct (textAt_runs w body "deviceSerial" N C ltac:(listed)) as (t2 & E2).
  destruct (textAt_runs w body "returnReason" N C ltac:(listed)) as (t3 & E3).
  unfold CreateLabel.sheetsPayload, todayIso, bind, next_read, lift, ret.
  rewrite E1, E2, E3, !(get_of_object _ _ NL).
  eexists. split; [reflexivity|]. repeat split.
Qed.

(** The logging step of [issueLabel]. *)
Lemma logging_runs (w : World) (body : value) (a : CreateLabel.Address) (oz : float)
    (key : string) (labelData trackingNumber : value) (skip : bool) (s : St) :
  nullish body = false -> Converts w body -> nullish labelData = false ->
  exists record sheetsLogged,
    (if negb skip then
       record <- CreateLabel.sheetsPayload w body a oz key labelData trackingNumber ;;
       CreateLabel.postToSheets w (CreateLabel.SHEETS_WEBHOOK_URL w) record
     else ret VNull) s
      = (Ok sheetsLogged, logged (advanced s (if skip then 0 else 1)) (logging w skip record)) /\
    (skip = true -> sheetsLogged = VNull) /\
    opt_get record "request_id" = str key /\
    opt_get record "source" = str "Connect Print" /\
    opt_get record "status" = str "Created" /\
    opt_get record "tracking_number" = trackingNumber /\
    opt_get record "weight_oz" = VNumber oz.
Proof.
  intros N C NL.
  destruct (sheetsPayload_runs w body a oz key labelData trackingNumber s N C NL)
    as (record & Hrec & Hfacts).
  destruct (create_post_runs w (CreateLabel.SHEETS_WEBHOOK_URL w) record (advanced s 1))
    as (o & Hpost).
  exists record. destruct skip; cbn [negb].
  - exists VNull. split; [|split; [reflexivity|exact Hfacts]].
    unfold ret, logging, logged, advanced. cbn. rewrite app_nil_r. destruct s; reflexivity.
  - exists o. split; [|split; [discriminate|exact Hfacts]].
    unfold bind at 1. rewrite Hrec, Hpost. reflexivity.
Qed.

(** The steps of [issueLabel] from the answer of the carrier to the end of
    the logging. *)
Ltac to_logged V C I :=
  rewrite (issued_ok I); cbn [negb];
  unfold json_or_null; rewrite (issued_json I);
  rewrite !(get_of_object _ _ (issued_object I));
  rewrite bind_lift; cbv beta; rewrite bind_lift; cbv beta; rewrite bind_lift; cbv beta;
  unfold bind at 1;
  match goal with
  | |- context [(if negb ?skip then
                   bind (CreateLabel.sheetsPayload ?w ?b ?a ?oz ?key ?ld ?tn) _
                 else ret VNull) ?s] =>
      let record := fresh "record" in
      let sheetsLogged := fresh "sheetsLogged" in
      let Hlog := fresh "Hlog" in
      let Hskip := fresh "Hskip" in
      let Hfacts := fresh "Hfacts" in
      destruct (logging_runs w b a oz key ld tn skip s
                  (validated_not_null _ _ _ V) C (issued_object I))
        as (record & sheetsLogged & Hlog & Hskip & Hfacts);
      rewrite Hlog
  end.




(** *** The examples *)

(** The facts of the examples, by evaluation. *)
Ltac validated := split; vm_compute; reflexivity.

Ltac textual_fields :=
  let k := fresh "k" in
  let H := fresh "H" in
  intros k H; cbn in H;
  repeat (destruct H as [<-|H]; [reflexivity|]); destruct H.

Ltac granted :=
  eexists; eexists; split; [vm_compute; reflexivity|];
  split; [vm_compute; reflexivity|];
  split; [vm_compute; reflexivity|];
  split; [vm_compute; reflexivity|];
  split; vm_compute; reflexivity.

Ltac serves :=
  let r := fresh "r" in
  let H := fresh "H" in
  intros r H; cbn [fetch Scenario.world Deployment.with_fetch Examples.byLink];
  rewrite H; vm_compute; reflexivity.

Lemma jane_textual : Textual Scenario.jane.
Proof. textual_fields. Qed.


Lemma healthy_issued :
  Issued (Scenario.world Scenario.healthy)
    {| resp_status := 200;
       resp_json := Some (obj [("tracking_number", str Scenario.tracking);
                               ("label_id", str "lbl_1");
                               ("label_data", str "JVBERi0xLjQ=")]);
       resp_text := "" |}
    (obj [("tracking_number", str Scenario.tracking);
          ("label_id", str "lbl_1");
          ("label_data", str "JVBERi0xLjQ=")]).
Proof. split; [serves|reflexivity|reflexivity|reflexivity]. Qed.


Lemma noLabelData_issued :
  Issued (Scenario.world Examples.noLabelData)
    {| resp_status := 200; resp_json := Some Examples.bare; resp_text := "" |}
    Examples.bare.
Proof. split; [serves|reflexivity|reflexivity|reflexivity]. Qed.


Lemma byLink_issued :
  Issued Examples.byLink
    {| resp_status := 200; resp_json := Some Examples.linked; resp_text := "" |}
    Examples.linked.
Proof. split; [serves|reflexivity|reflexivity|reflexivity]. Qed.


Lemma mail_try_statuses (w : World) (req : Request) :
  answers mailStatus
    (if negb (String.eqb (req_method req) "POST") then
       ret (MailLabel.sendJson 405 (obj [("ok", VBool false); ("error", str "Method Not Allowed")]))
     else MailLabel.guarded w req).
Proof.
  unfold MailLabel.guarded, MailLabel.validate, MailLabel.createAndMail, MailLabel.mailLetter.
  repeat answers_step.
Qed.

Lemma ca_try_statuses (w : World) (req : Request) :
  answers mailStatus
    (if negb (String.eqb (req_method req) "POST") then
       ret (MailLabel.sendJson 405 (obj [("ok", VBool false); ("error", str "Method Not Allowed")]))
     else MailLabelCA.guarded w req).
Proof.
  unfold MailLabelCA.guarded, MailLabelCA.validate, MailLabelCA.createAndMail,
    MailLabelCA.mailLetter.
  repeat answers_step.
Qed.

(** X13. The handlers never throw: whatever the request and
    whatever the collaborators do, api/mail-label.js (both drafts that
    write records) and api/create-label.js answer. The status of
    api/mail-label.js is one of 200, 400, 401, 405 and 500: a failure of
    the label or of the letter is answered 400, never with the status of
    the collaborator. *)
Theorem handlers_always_answer (w : World) (req : Request) :
  (exists res t,
     run (MailLabel.handler w req) = (Ok res, t) /\ In (statusCode res) mailStatuses) /\
  (exists res t,
     run (MailLabelCA.handler w req) = (Ok res, t) /\ In (statusCode res) mailStatuses) /\
  (exists res t, run (CreateLabel.handler w req) = (Ok res, t)).
Proof.
  split; [|split].
  - unfold run, MailLabel.handler, try_catch at 1.
    pose proof (mail_try_statuses w req initial) as H.
    match goal with |- context [match ?m initial with _ => _ end] =>
      change (forall a s', m initial = (Ok a, s') -> mailStatus a) in H;
      destruct (m initial) as [[res|e] s1]
    end.
    + exists res, (trace s1). split; [reflexivity|]. exact (H res s1 eq_refl).
    + destruct (crash_answers_500 w e s1) as (s' & ->).
      eexists. eexists. split; [reflexivity|]. cbn. tauto.
  - unfold run, MailLabelCA.handler, try_catch at 1.
    pose proof (ca_try_statuses w req initial) as H.
    match goal with |- context [match ?m initial with _ => _ end] =>
      change (forall a s', m initial = (Ok a, s') -> mailStatus a) in H;
      destruct (m initial) as [[res|e] s1]
    end.
    + exists res, (trace s1). split; [reflexivity|]. exact (H res s1 eq_refl).
    + eexists. eexists. split; [reflexivity|]. cbn. tauto.
  - unfold run, CreateLabel.handler, try_catch.
    match goal with |- context [match ?m initial with _ => _ end] =>
      destruct (m initial) as [[res|e] s1]
    end; eexists; eexists; reflexivity.
Qed.

(** *** The second check of the address *)

(** What [(body.k || "").trim()] returns is empty exactly when the check of
    the required fields takes the field for missing. *)
Lemma trimmed_blank (w : World) (body : value) (k key s : string) :
  CreateLabel.trimmed k (opt_get body key) = Ok s ->
  blankOrFalsy w body key = String.eqb s "".
Proof.
  unfold CreateLabel.trimmed, blankOrFalsy.
  destruct (or_else (opt_get body key) (str "")); try discriminate.
  intro H. injection H as <-. reflexivity.
Qed.

Lemma filterMissing_ok (w : World) (body : value) (keys missing : list string)
    (s s' : St) :
  CreateLabel.filterMissing w body keys s = (Ok missing, s') ->
  missing = filter (blankOrFalsy w body) keys.
Proof.
  intro H. destruct (nullish body) eqn:N.
  - destruct keys as [|k rest]; [injection H as <- _; reflexivity|].
    cbn [CreateLabel.filterMissing] in H. unfold get in H. rewrite N in H. discriminate H.
  - destruct (filterMissing_cases w body keys s N) as [(e & E)|E]; rewrite E in H.
    + discriminate H.
    + injection H as <- _. reflexivity.
Qed.

(** What [customerFromAddress] returns is empty where the check of the
    required fields takes the field for missing. *)
Lemma customer_ok (w : World) (body : value) :
  answers (fun a =>
             blankOrFalsy w body "name" = String.eqb (CreateLabel.a_name a) "" /\
             blankOrFalsy w body "address1" = String.eqb (CreateLabel.a_address_line1 a) "" /\
             blankOrFalsy w body "city" = String.eqb (CreateLabel.a_city a) "" /\
             blankOrFalsy w body "state" = String.eqb (CreateLabel.a_state_province a) "" /\
             blankOrFalsy w body "zip" = String.eqb (CreateLabel.a_postal_code a) "")
    (CreateLabel.customerFromAddress body).
Proof.
  intros s a s' H. unfold CreateLabel.customerFromAddress in H.
  destruct (nullish body) eqn:N.
  { unfold get in H. rewrite N in H. discriminate H. }
  rewrite !(get_of_object _ _ N) in H.
  repeat (rewrite bind_lift in H; cbv beta in H;
          match type of H with
          | context [CreateLabel.trimmed ?k ?v] =>
              let E := fresh "E" in
              destruct (CreateLabel.trimmed k v) eqn:E; [|discriminate H];
              apply (trimmed_blank w) in E
          end;
          rewrite bind_lift in H; cbv beta in H).
  injection H as <- _.
  cbn [CreateLabel.a_name CreateLabel.a_address_line1 CreateLabel.a_city
       CreateLabel.a_state_province CreateLabel.a_postal_code].
  repeat split; assumption.
Qed.

Ltac differs :=
  let H := fresh "H" in
  intro H; first [discriminate H | inversion H].

(** X14. The second check of the address in api/create-label.js
    never fires: no request is answered 400 "From address incomplete". A
    request that passes the check of the required fields has a name, an
    address line, a city, a state and a ZIP code that are not empty once
    trimmed, or one of them is no string and trimming it throws. *)
Theorem address_check_never_fires (w : World) (req : Request) (res : Response)
    (t : list Event) :
  run (CreateLabel.handler w req) = (Ok res, t) -> res <> addressIncomplete.
Proof.
  intro Hrun. refine (answers_run (fun r => r <> addressIncomplete) _ res t _ Hrun).
  clear Hrun. unfold CreateLabel.handler.
  apply answers_try_catch; [|intro e; apply answers_ret; differs].
  destruct (negb _); [apply answers_ret; differs|].
  unfold CreateLabel.guarded.
  destruct (_ || _); [apply answers_ret; differs|].
  apply (answers_bind (fun _ => True)); [apply answers_any|intros body _].
  unfold CreateLabel.validate.
  apply (answers_bind (fun missing => missing = filter (blankOrFalsy w body) requiredFields)).
  { intros s missing s' H. exact (filterMissing_ok _ _ _ _ _ _ H). }
  intros missing ->.
  destruct (filter (blankOrFalsy w body) requiredFields) as [|k ks] eqn:F.
  2: { apply answers_ret. differs. }
  cbn [List.length Nat.eqb negb].
  unfold CreateLabel.issueLabel.
  eapply answers_bind; [apply (customer_ok w)|].
  intros a (H1 & H2 & H3 & H4 & H5). cbv beta.
  rewrite <- H1, <- H2, <- H3, <- H4, <- H5.
  rewrite !(filter_nil_In (blankOrFalsy w body) _ _ F) by listed.
  cbn [orb].
  apply (answers_bind (fun _ => True)); [apply answers_any|intros oz _].
  apply (answers_bind (fun _ => True)); [apply answers_any|intros token _].
  apply (answers_bind (fun _ => True)); [apply answers_any|intros payload _].
  apply (answers_bind (fun _ => True)); [apply answers_any|intros key _].
  apply (answers_bind (fun _ => True)); [apply answers_any|intros bearer _].
  apply (answers_bind (fun _ => True)); [apply answers_any|intros labelResp _].
  destruct (negb _); [apply answers_ret; differs|].
  apply (answers_bind (fun _ => True)); [apply answers_any|intros tracking _].
  apply (answers_bind (fun _ => True)); [apply answers_any|intros labels _].
  apply (answers_bind (fun _ => True)); [apply answers_any|intros label_data _].
  apply (answers_bind (fun _ => True)); [apply answers_any|intros sheetsLogged _].
  destruct (truthy _); [apply answers_ret; differs|].
  destruct (truthy _); [|apply answers_ret; differs].
  apply (answers_bind (fun _ => True)); [apply answers_any|intros bearer' _].
  apply (answers_bind (fun _ => True)); [apply answers_any|intros url _].
  apply (answers_bind (fun _ => True)); [apply answers_any|intros fileResp _].
  apply answers_ret; differs.
Qed.

Lemma address_check_never_fires_anonymous :
  exists res t,
    run (CreateLabel.handler (Scenario.world Scenario.healthy)
           (Scenario.post None Scenario.anonymous)) = (Ok res, t) /\
    statusCode res = 400%N /\
    res <> addressIncomplete.
Proof.
  eexists. eexists.
  assert (E : run (CreateLabel.handler (Scenario.world Scenario.healthy)
                     (Scenario.post None Scenario.anonymous)) =
              (Ok (CreateLabel.json 400
                     (obj [("ok", VBool false);
                           ("error", str "Missing required fields: name, phone")])), []))
    by (vm_compute; reflexivity).
  split; [exact E|]. split; [reflexivity|].
  exact (address_check_never_fires _ _ _ _ E).
Defined.

(** *** A field that is no string *)

Lemma trimmed_unfit (k : string) (v : value) :
  unfit v = true -> exists e, CreateLabel.trimmed k v = Throw e.
Proof.
  unfold unfit, CreateLabel.trimmed, or_else.
  destruct (truthy v); [|discriminate].
  destruct v; try discriminate; intros _; eexists; reflexivity.
Qed.

Lemma trimmed_fit (k : string) (v : value) :
  unfit v = false -> exists s, CreateLabel.trimmed k v = Ok s.
Proof.
  unfold unfit, CreateLabel.trimmed, or_else.
  destruct (truthy v) eqn:T; [|intros _; eexists; reflexivity].
  destruct v; try discriminate; intros _; eexists; reflexivity.
Qed.

(** [customerFromAddress] throws on a field that is truthy and no string. *)
Lemma customer_throws (body : value) (k : string) (s : St) :
  nullish body = false -> In k customerKeys -> unfit (opt_get body k) = true ->
  exists e, CreateLabel.customerFromAddress body s = (Throw e, s).
Proof.
  intros N I U. unfold CreateLabel.customerFromAddress.
  rewrite !(get_of_object _ _ N).
  repeat (rewrite bind_lift; cbv beta;
          match goal with
          | |- context [CreateLabel.trimmed ?k' ?v] =>
              destruct (unfit v) eqn:?;
              [ destruct (trimmed_unfit k' v) as (? & ->); [assumption|eexists; reflexivity]
              | destruct (trimmed_fit k' v) as (? & ->); [assumption|] ]
          end;
          rewrite bind_lift; cbv beta).
  cbn in I. repeat (destruct I as [<-|I]; [congruence|]). destruct I.
Qed.

(** X15. A request to api/create-label.js that has every
    required field, and in which the name, an address line, the city, the
    state, the ZIP code, the phone number or the e-mail address is truthy
    and no string (a ZIP code sent as a number), is answered 500, not 400:
    the check of the required fields takes the value through [String], and
    [customerFromAddress] calls [trim] on the value itself. Nothing is
    requested or logged. *)
Theorem create_label_field_not_text (w : World) (req : Request) (body : value) (k : string) :
  Validated w req body -> In k customerKeys -> unfit (opt_get body k) = true ->
  exists e,
    run (CreateLabel.handler w req) =
      (Ok (CreateLabel.json 500 (obj [("ok", VBool false); ("error", str e)])), []).
Proof.
  intros V I U. pose proof (validated_not_null _ _ _ V) as N.
  rewrite (create_reaches_validate w req body V).
  unfold run, try_catch, CreateLabel.validate. unfold bind at 1.
  change CreateLabel.required with requiredFields.
  destruct (filterMissing_cases w body requiredFields initial N) as [(e & ->)| ->].
  - exists e. reflexivity.
  - rewrite (validated_fields V). cbn [List.length Nat.eqb negb].
    destruct (customer_throws body k initial N I U) as (e & H).
    exists e. unfold CreateLabel.issueLabel.
    unfold bind at 1. rewrite H. reflexivity.
Qed.

Lemma create_label_field_not_text_zip :
  exists e,
    run (CreateLabel.handler (Scenario.world Scenario.healthy)
           (Scenario.post None Examples.numericZip)) =
      (Ok (CreateLabel.json 500 (obj [("ok", VBool false); ("error", str e)])), []).
Proof.
  apply (create_label_field_not_text _ _ Examples.numericZip "zip").
  - validated.
  - cbn. tauto.
  - reflexivity.
Defined.

(** ** The exceptions of api/mail-label.js *)

(** The [catch] of api/mail-label.js: the record it hands over. *)
Lemma mail_catch_runs (w : World) (e : string) (s : St) :
  exists record,
    (try_catch
       (crash <- MailLabel.crashPayload w e ;;
        MailLabel.postToSheets w (MailLabel.SHEETS_WEBHOOK_URL w) crash ;;;
        ret tt)
       (fun _ => ret tt) ;;;
     ret (MailLabel.sendJson 500 (obj [("ok", VBool false); ("error", str e)]))) s
    = (Ok (MailLabel.sendJson 500 (obj [("ok", VBool false); ("error", str e)])),
       logged (advanced s 3)
         (EvAudit record ::
          if String.eqb (MailLabel.SHEETS_WEBHOOK_URL w) "" then []
          else [EvFetch (MailLabel.webhookRequest (MailLabel.SHEETS_WEBHOOK_URL w) record)])) /\
    opt_get record "status" = str "Exception" /\
    opt_get record "tracking_number" = str "" /\
    opt_get record "customer_name" = str "" /\
    opt_get record "latest_event" = str ("Unhandled error: " ++ e).
Proof.
  unfold try_catch, bind at 1. unfold bind at 1.
  unfold MailLabel.crashPayload at 1, bind at 1, Date_now, bind at 1, next_read, ret at 1.
  cbn beta iota. unfold bind at 1, todayIso at 1, bind at 1, next_read, ret at 1.
  cbn beta iota. unfold bind at 1, todayIso at 1, bind at 1, next_read, ret at 1.
  cbn beta iota. unfold ret at 1. cbn beta iota.
  unfold bind at 1.
  match goal with |- context [MailLabel.postToSheets w ?u ?p ?s0] =>
    destruct (mail_post_runs w u p s0) as (o & ->); exists p
  end.
  split; [reflexivity|]. repeat split.
Qed.

Lemma fetch_fails (w : World) (r : FetchRequest) (e : string) (s : St) :
  fetch w r = NetworkError e ->
  do_fetch w r s = (Throw e, logged s [EvFetch r]).
Proof. intro F. unfold do_fetch, bind, emit, throw. rewrite F. reflexivity. Qed.

(** X16. When the label is created and the request to the
    letter provider fails in transport ([fetch] rejects), the exception is
    caught at the boundary and answered 500 with its text. The record
    api/mail-label.js then writes is the one of its [catch]: status
    "Exception", last event "Unhandled error: ..." and every field of the
    request and of the label empty, the tracking number of the label that
    was just created included. The draft that logs as "CAphysical-mail"
    answers the same and writes no record at all. The fields [f] and the
    weight are those the handler read off the request before the label. *)
Theorem letter_provider_unreachable (w : World) :
  (forall req body f weightOz labelJson doc e,
     PastGate MailLabel.parseBasicAuth w req body ->
     MailLabel.readFields w body = Ok f ->
     missingOf w body = [] ->
     MailLabel.normalizeWeightOz w body = Ok weightOz ->
     Labelled w (MailLabel.labelRequest req body) true labelJson doc ->
     fetch w (MailLabel.lobRequest w f doc) = NetworkError e ->
     exists record,
       run (MailLabel.handler w req) =
         (Ok (MailLabel.sendJson 500 (obj [("ok", VBool false); ("error", str e)])),
          [EvFetch (MailLabel.labelRequest req body);
           EvFetch (MailLabel.lobRequest w f doc);
           EvAudit record] ++
          (if String.eqb (MailLabel.SHEETS_WEBHOOK_URL w) "" then []
           else [EvFetch (MailLabel.webhookRequest (MailLabel.SHEETS_WEBHOOK_URL w) record)]))%list /\
       opt_get record "status" = str "Exception" /\
       opt_get record "tracking_number" = str "" /\
       opt_get record "customer_name" = str "" /\
       opt_get record "latest_event" = str ("Unhandled error: " ++ e)) /\
  (forall req body f weightOz labelJson doc e,
     PastGate MailLabelCA.parseBasicAuth w req body ->
     MailLabel.readFields w body = Ok f ->
     missingOf w body = [] ->
     MailLabel.normalizeWeightOz w body = Ok weightOz ->
     Labelled w (MailLabelCA.labelRequest req body) false labelJson doc ->
     fetch w (MailLabelCA.lobRequest w f doc) = NetworkError e ->
     run (MailLabelCA.handler w req) =
       (Ok (MailLabel.sendJson 500 (obj [("ok", VBool false); ("error", str e)])),
        [EvFetch (MailLabelCA.labelRequest req body);
         EvFetch (MailLabelCA.lobRequest w f doc)])).
Proof.
  split; intros req body f weightOz labelJson doc e G Hf Hm W L F.
  - unfold run. rewrite (mail_method_post w req initial (is_post G)).
    unfold try_catch at 1. rewrite (mail_reaches_label w req body f G Hf Hm).
    rewrite (mail_label_created w req body f labelJson weightOz doc initial L W).
    unfold MailLabel.mailLetter. unfold bind at 1.
    rewrite (fetch_fails _ _ _ _ F). cbv beta iota.
    match goal with |- context [bind (try_catch _ _) _ ?s0] =>
      destruct (mail_catch_runs w e s0) as (record & Hc & Hfacts)
    end.
    exists record. split; [|exact Hfacts].
    rewrite Hc. reflexivity.
  - unfold run. rewrite (ca_method_post w req initial (is_post G)).
    unfold try_catch at 1. rewrite (ca_reaches_label w req body f G Hf Hm).
    rewrite (ca_label_created w req body f labelJson weightOz doc initial L W).
    unfold MailLabelCA.mailLetter. unfold bind at 1.
    rewrite (fetch_fails _ _ _ _ F). reflexivity.
Qed.

Lemma jane_past_gate_lobUnreachable :
  PastGate MailLabel.parseBasicAuth (Scenario.deployed Examples.lobUnreachable)
    Scenario.janeRequest Scenario.jane /\
  PastGate MailLabelCA.parseBasicAuth (Scenario.deployed Examples.lobUnreachable)
    Scenario.janeRequest Scenario.jane.
Proof. split; concrete_gate. Qed.

Lemma jane_labelled_lobUnreachable :
  Labelled (Scenario.deployed Examples.lobUnreachable)
    (MailLabel.labelRequest Scenario.janeRequest Scenario.jane) true
    (answerOf (Scenario.deployed Examples.lobUnreachable)
       (MailLabel.labelRequest Scenario.janeRequest Scenario.jane))
    Scenario.packet /\
  Labelled (Scenario.deployed Examples.lobUnreachable)
    (MailLabelCA.labelRequest Scenario.janeRequest Scenario.jane) false
    (answerOf (Scenario.deployed Examples.lobUnreachable)
       (MailLabelCA.labelRequest Scenario.janeRequest Scenario.jane))
    Scenario.packet.
Proof. split; concrete_label. Qed.

Lemma letter_provider_unreachable_jane :
  let w := Scenario.deployed Examples.lobUnreachable in
  (exists record,
     statusOf (fst (run (MailLabel.handler w Scenario.janeRequest))) = Some 500%N /\
     audits (snd (run (MailLabel.handler w Scenario.janeRequest))) = [record] /\
     opt_get record "tracking_number" = str "" /\
     opt_get record "latest_event" = str "Unhandled error: TypeError: fetch failed") /\
  statusOf (fst (run (MailLabelCA.handler w Scenario.janeRequest))) = Some 500%N /\
  audits (snd (run (MailLabelCA.handler w Scenario.janeRequest))) = [].
Proof.
  cbv zeta.
  destruct (letter_provider_unreachable (Scenario.deployed Examples.lobUnreachable)) as [V1 CA].
  destruct jane_past_gate_lobUnreachable as [G1 G2].
  destruct jane_labelled_lobUnreachable as [L1 L2].
  assert (Hf : MailLabel.readFields (Scenario.deployed Examples.lobUnreachable) Scenario.jane
               = Ok Examples.janeFields) by (vm_compute; reflexivity).
  assert (W : MailLabel.normalizeWeightOz (Scenario.deployed Examples.lobUnreachable)
                Scenario.jane = Ok (VNumber 16)) by (vm_compute; reflexivity).
  split.
  - destruct (V1 Scenario.janeRequest Scenario.jane Examples.janeFields (VNumber 16) _
                Scenario.packet "TypeError: fetch failed" G1 Hf eq_refl W L1)
      as (record & Hrun & _ & Htr & _ & Hev).
    + vm_compute. reflexivity.
    + exists record. rewrite Hrun. split; [reflexivity|]. split; [reflexivity|].
      split; [exact Htr|exact Hev].
  - rewrite (CA Scenario.janeRequest Scenario.jane Examples.janeFields (VNumber 16) _
               Scenario.packet "TypeError: fetch failed" G2 Hf eq_refl W L2).
    + split; reflexivity.
    + vm_compute. reflexivity.
Defined.

(** *** A body that is [null] *)

Section NullBody.

Variable w : World.
Variable req : Request.

Hypothesis posted : req_method req = "POST".
Hypothesis null_body : MailLabel.bodyOf w req = Ok VNull.

Lemma null_body_mail :
  env_or w "MAIL_USER" "" <> "" -> env_or w "MAIL_PASS" "" <> "" ->
  env_or w "LOB_API_KEY" "" <> "" ->
  Authorized w (MailLabel.parseBasicAuth w req) ->
  exists e record,
    run (MailLabel.handler w req) =
      (Ok (MailLabel.sendJson 500 (obj [("ok", VBool false); ("error", str e)])),
       EvAudit record ::
       (if String.eqb (MailLabel.SHEETS_WEBHOOK_URL w) "" then []
        else [EvFetch (MailLabel.webhookRequest (MailLabel.SHEETS_WEBHOOK_URL w) record)])) /\
    opt_get record "status" = str "Exception" /\
    opt_get record "latest_event" = str ("Unhandled error: " ++ e).
Proof.
  intros U P K A.
  unfold run. rewrite (mail_method_post w req initial posted).
  unfold try_catch at 1, MailLabel.guarded.
  rewrite (eqb_empty_false _ U), (eqb_empty_false _ P). cbn [orb].
  red in A. rewrite A, refused_matching.
  unfold MailLabel.parseBody. rewrite null_body, bind_lift.
  unfold MailLabel.validate. rewrite (eqb_empty_false _ K).
  cbn -[try_catch MailLabel.crashPayload MailLabel.postToSheets MailLabel.sendJson
        MailLabel.SHEETS_WEBHOOK_URL].
  match goal with |- context [bind (try_catch _ _) _ ?s0] =>
    destruct (mail_catch_runs w "TypeError: Cannot read properties of null (reading 'email')" s0)
      as (record & Hc & Hst & _ & _ & Hev)
  end.
  eexists. exists record. split; [|split; [exact Hst|exact Hev]].
  rewrite Hc. reflexivity.
Qed.

Lemma null_body_ca :
  env_or w "MAIL_USER" "" <> "" -> env_or w "MAIL_PASS" "" <> "" ->
  env_or w "LOB_API_KEY" "" <> "" ->
  Authorized w (MailLabelCA.parseBasicAuth w req) ->
  exists e,
    run (MailLabelCA.handler w req) =
      (Ok (MailLabel.sendJson 500 (obj [("ok", VBool false); ("error", str e)])), []).
Proof.
  intros U P K A.
  unfold run. rewrite (ca_method_post w req initial posted).
  unfold try_catch at 1, MailLabelCA.guarded.
  rewrite (eqb_empty_false _ U), (eqb_empty_false _ P). cbn [orb].
  red in A. rewrite A, refused_matching.
  unfold MailLabel.parseBody. rewrite null_body, bind_lift.
  unfold MailLabelCA.validate. rewrite (eqb_empty_false _ K).
  eexists. cbn. reflexivity.
Qed.

Lemma null_body_create :
  truthy (CreateLabel.CLIENT_ID w) = true ->
  truthy (CreateLabel.CLIENT_SECRET w) = true ->
  truthy (CreateLabel.REFRESH_TOKEN w) = true ->
  exists e,
    run (CreateLabel.handler w req) =
      (Ok (CreateLabel.json 500 (obj [("ok", VBool false); ("error", str e)])), []).
Proof.
  intros C1 C2 C3.
  unfold run, CreateLabel.handler, try_catch. rewrite posted.
  cbn [String.eqb Ascii.eqb Bool.eqb negb].
  unfold CreateLabel.guarded. rewrite C1, C2, C3. cbn [negb orb].
  unfold CreateLabel.parseBody.
  change (CreateLabel.bodyOf w req) with (MailLabel.bodyOf w req).
  rewrite null_body, bind_lift.
  eexists. cbn. reflexivity.
Qed.

End NullBody.

(** X17. A POST request whose body is the JSON text [null] passes
    the gates and is answered 500, not 400, by all three handlers: every
    required field is missing, and building the answer reads a field off
    [null], which throws. api/mail-label.js writes the record of its
    [catch]; the draft that logs as "CAphysical-mail" and
    api/create-label.js write none, and nothing is requested. *)
Theorem null_body_answers_500 (w : World) (req : Request) :
  req_method req = "POST" ->
  MailLabel.bodyOf w req = Ok VNull ->
  (env_or w "MAIL_USER" "" <> "" -> env_or w "MAIL_PASS" "" <> "" ->
   env_or w "LOB_API_KEY" "" <> "" ->
   (Authorized w (MailLabel.parseBasicAuth w req) ->
    exists e record,
      run (MailLabel.handler w req) =
        (Ok (MailLabel.sendJson 500 (obj [("ok", VBool false); ("error", str e)])),
         EvAudit record ::
         (if String.eqb (MailLabel.SHEETS_WEBHOOK_URL w) "" then []
          else [EvFetch (MailLabel.webhookRequest (MailLabel.SHEETS_WEBHOOK_URL w) record)])) /\
      opt_get record "status" = str "Exception" /\
      opt_get record "latest_event" = str ("Unhandled error: " ++ e)) /\
   (Authorized w (MailLabelCA.parseBasicAuth w req) ->
    exists e,
      run (MailLabelCA.handler w req) =
        (Ok (MailLabel.sendJson 500 (obj [("ok", VBool false); ("error", str e)])), []))) /\
  (truthy (CreateLabel.CLIENT_ID w) = true ->
   truthy (CreateLabel.CLIENT_SECRET w) = true ->
   truthy (CreateLabel.REFRESH_TOKEN w) = true ->
   exists e,
     run (CreateLabel.handler w req) =
       (Ok (CreateLabel.json 500 (obj [("ok", VBool false); ("error", str e)])), [])).
Proof.
  intros P B. split.
  - intros U Pw K. split; intro A.
    + exact (null_body_mail w req P B U Pw K A).
    + exact (null_body_ca w req P B U Pw K A).
  - exact (null_body_create w req P B).
Qed.

Lemma null_body_answers_500_parsed :
  MailLabel.bodyOf Examples.parsing Examples.nullRequest = Ok VNull /\
  statusOf (fst (run (MailLabel.handler Examples.parsing Examples.nullRequest))) = Some 500%N /\
  List.length (audits (snd (run (MailLabel.handler Examples.parsing Examples.nullRequest)))) = 1 /\
  statusOf (fst (run (MailLabelCA.handler Examples.parsing Examples.nullRequest))) = Some 500%N /\
  statusOf (fst (run (CreateLabel.handler Examples.parsing Examples.nullRequest))) = Some 500%N.
Proof.
  destruct (null_body_answers_500 Examples.parsing Examples.nullRequest eq_refl eq_refl)
    as [Hmail Hcreate].
  destruct Hmail as [H1 H2]; try (intro H; vm_compute in H; discriminate).
  destruct H1 as (e & record & -> & _); [vm_compute; reflexivity|].
  destruct H2 as (e' & ->); [vm_compute; reflexivity|].
  destruct Hcreate as (e'' & ->); try reflexivity.
  repeat split.
Defined.

(** ** The fields of the records *)

(** X19. Every record api/mail-label.js builds, in both drafts
    that write records and on every exit (validation failure, label
    failure, letter failure, success, exception), has the same 24 fields in
    the same order: what is not known is empty or [null], not left out. The
    record of api/create-label.js has 20 of them, in that order too: it
    lacks [lob_letter_id], [status_last_checked], [delivered_at] and
    [latest_event]. *)
Theorem audit_records_schema (w : World) (body : value) (f : MailLabel.Fields)
    (a : CreateLabel.Address) (missing : list string) (labelResp lobResp : FetchResponse)
    (labelJson trackingNumber weightOz lobJson : value) (oz : float) (e key : string)
    (s : St) :
  hasKeys auditSchema (MailLabel.missingPayload w body f missing s) /\
  hasKeys auditSchema (MailLabel.labelFailPayload w body f labelResp s) /\
  hasKeys auditSchema
    (MailLabel.lobFailPayload w body f labelJson trackingNumber weightOz lobResp s) /\
  hasKeys auditSchema
    (MailLabel.successPayload w body f labelJson trackingNumber weightOz lobJson s) /\
  hasKeys auditSchema (MailLabel.crashPayload w e s) /\
  hasKeys auditSchema (MailLabelCA.missingPayload w body f missing s) /\
  hasKeys auditSchema (MailLabelCA.labelFailPayload w body f labelResp s) /\
  hasKeys auditSchema (MailLabelCA.lobFailPayload w body f trackingNumber weightOz lobResp s) /\
  hasKeys auditSchema (MailLabelCA.successPayload w body f trackingNumber weightOz lobJson s) /\
  hasKeys labelSchema
    (CreateLabel.sheetsPayload w body a oz key labelJson trackingNumber s) /\
  List.length auditSchema = 24 /\
  labelSchema =
    filter (fun k => negb (existsb (String.eqb k)
                             ["lob_letter_id"; "status_last_checked"; "delivered_at";
                              "latest_event"]))
      auditSchema.
Proof.
  repeat split;
    unfold hasKeys;
    match goal with
    | |- match fst (?m ?s0) with _ => _ end =>
        let H := fresh "H" in
        destruct (m s0) as [[built|err] s'] eqn:H; cbn [fst]; [|exact I];
        unfold MailLabel.missingPayload, MailLabel.labelFailPayload,
          MailLabel.lobFailPayload, MailLabel.successPayload, MailLabel.crashPayload,
          MailLabelCA.missingPayload, MailLabelCA.labelFailPayload,
          MailLabelCA.lobFailPayload, MailLabelCA.successPayload,
          CreateLabel.sheetsPayload in H;
        repeat step_ok H; apply ret_ok in H as [-> _]; reflexivity
    end.
Qed.

Lemma only_plain_try (w : World) (jsonError : FetchResponse -> string) (req : Request) :
  only (toRouteOrLob req)
    (if negb (String.eqb (req_method req) "POST") then
       ret (MailLabel.sendJson 405 (obj [("ok", VBool false); ("error", str "Method Not Allowed")]))
     else MailLabelPlain.guarded w jsonError req).
Proof.
  unfold MailLabelPlain.guarded, MailLabel.parseBody, MailLabelPlain.validate,
    MailLabelPlain.createAndMail, MailLabelPlain.mailLetter.
  repeat first
    [ apply only_build
    | apply only_fetch; cbn; tauto
    | only_step ].
Qed.

(** X20. The draft of api/mail-label.js that declares
    [postToSheets] and never calls it writes no record, whatever the
    request and its outcome; the requests it sends go to the label route of
    its own deployment and to the letters of Lob, never to the webhook. *)
Theorem plain_draft_writes_no_record (w : World) (jsonError : FetchResponse -> string)
    (req : Request) :
  audits (snd (run (MailLabelPlain.handler w jsonError req))) = [] /\
  Forall (toRouteOrLob req) (snd (run (MailLabelPlain.handler w jsonError req))).
Proof.
  assert (H : Forall (toRouteOrLob req) (snd (run (MailLabelPlain.handler w jsonError req)))).
  { apply only_run. unfold MailLabelPlain.handler.
    apply only_try_catch; [apply only_plain_try|intro; apply only_ret]. }
  split; [|exact H].
  apply audits_fetches. eapply Forall_impl; [|exact H].
  intros [r|p]; cbn; tauto.
Qed.

Lemma refused_authorized (w : World) (creds : option (string * string)) :
  Authorized w creds ->
  MailLabel.refused creds (env_or w "MAIL_USER" "") (env_or w "MAIL_PASS" "") = false.
Proof.
  unfold Authorized, MailLabel.refused. intros ->. rewrite !String.eqb_refl. reflexivity.
Qed.

Lemma eqb_set (s : string) : s <> "" -> String.eqb s "" = false.
Proof. intro H. apply String.eqb_neq. exact H. Qed.

(** X21. In the draft without records an answer of the label
    route that is no JSON is not read as a failed label: past the gates and
    with every field read and present, the handler answers 500 with the
    text [resp.json()] rejects with, after the one request to the label
    route. *)
Theorem plain_draft_label_not_json (w : World) (jsonError : FetchResponse -> string)
    (req : Request) (body : value) (f : MailLabel.Fields) (labelResp : FetchResponse) :
  PastGate MailLabelCA.parseBasicAuth w req body ->
  MailLabel.readFields w body = Ok f ->
  MailLabel.missingFields f = [] ->
  fetch w (MailLabel.labelRequest req body) = Responded labelResp ->
  resp_json labelResp = None ->
  run (MailLabelPlain.handler w jsonError req) =
    (Ok (MailLabel.sendJson 500
           (obj [("ok", VBool false); ("error", str (jsonError labelResp))])),
     [EvFetch (MailLabel.labelRequest req body)]).
Proof.
  intros [Hpost Hu Hp Hauth Hbody _ Hkey] Hf Hmiss Hfetch Hjson.
  unfold run, MailLabelPlain.handler, try_catch, MailLabelPlain.guarded.
  rewrite Hpost, (eqb_set _ Hu), (eqb_set _ Hp), (refused_authorized w _ Hauth).
  cbn [String.eqb Ascii.eqb Bool.eqb negb orb].
  unfold MailLabel.parseBody. rewrite Hbody.
  unfold bind at 1, lift at 1.
  unfold MailLabelPlain.validate. rewrite (eqb_set _ Hkey), Hf.
  unfold bind at 1, lift at 1. rewrite Hmiss.
  cbn [List.length Nat.eqb negb].
  unfold MailLabelPlain.createAndMail, bind, do_fetch, bind, emit. rewrite Hfetch.
  unfold ret, lift, MailLabelPlain.json_of. rewrite Hjson. reflexivity.
Qed.

Lemma plain_draft_label_not_json_gateway :
  run (MailLabelPlain.handler Drafts.behindGateway Drafts.jsonError Scenario.janeRequest) =
    (Ok (MailLabel.sendJson 500
           (obj [("ok", VBool false);
                 ("error", str (Drafts.jsonError Drafts.errorPage))])),
     [EvFetch (MailLabel.labelRequest Scenario.janeRequest Scenario.jane)]).
Proof.
  apply (plain_draft_label_not_json Drafts.behindGateway Drafts.jsonError
           Scenario.janeRequest Scenario.jane Examples.janeFields Drafts.errorPage).
  - concrete_gate.
  - vm_compute. reflexivity.
  - reflexivity.
  - reflexivity.
  - reflexivity.
Defined.

Lemma wrongCode_spec (accessCode : option string) :
  AccessCode.wrongCode accessCode = true <-> accessCode <> Some "072288".
Proof.
  unfold AccessCode.wrongCode. destruct accessCode as [s|].
  - destruct (String.eqb_spec s "072288") as [->|N]; cbn; split; intro H;
      try reflexivity; try discriminate H; try congruence.
  - split; [discriminate|reflexivity].
Qed.

Lemma early_mailTo_statuses (w : World) (build : value -> M Pdf.Document) (req : Request)
    (body : value) :
  answers (fun res => In (statusCode res) [200; 400; 500]%N) (Early.mailTo w build req body).
Proof. unfold Early.mailTo. repeat answers_step. Qed.

(** X22. The draft of api/mail-label.js behind an access code
    answers every POST whose body it can read. When the field accessCode
    has a text, it answers 403 exactly when that text, trimmed, is not
    "072288"; when it has none, reading it throws and the answer is 500
    with the text of the exception. A request it refuses costs no call: the
    code is tested before the configuration, the address and the label. *)
Theorem access_code_gate (w : World) (build : value -> M Pdf.Document) (req : Request)
    (body : value) :
  req_method req = "POST" ->
  Early.bodyOf w req = Ok body ->
  exists res t,
    run (AccessCode.handler w build req) = (Ok res, t) /\
    (forall code,
       MailLabel.requireField w body "accessCode" = Ok code ->
       (statusCode res = 403%N <-> code <> Some "072288")) /\
    (forall e,
       MailLabel.requireField w body "accessCode" = Throw e ->
       res = MailLabel.sendJson 500 (obj [("ok", VBool false); ("error", str e)]) /\
       t = []) /\
    (statusCode res = 403%N -> res = refusedCode /\ t = []).
Proof.
  intros Hpost Hbody.
  unfold run, AccessCode.handler, AccessCode.guarded. rewrite Hpost, Hbody.
  cbn [String.eqb Ascii.eqb Bool.eqb negb].
  unfold try_catch, bind at 1, lift at 1.
  destruct (MailLabel.requireField w body "accessCode") as [code|e].
  2: { eexists. eexists. split; [reflexivity|].
       split; [intros code H; discriminate H|].
       split; [intros e' H; injection H as <-; split; reflexivity|].
       cbn [statusCode MailLabel.sendJson]. discriminate. }
  unfold bind at 1, lift at 1.
  pose proof (wrongCode_spec code) as W.
  destruct (AccessCode.wrongCode code).
  - eexists. eexists. split; [reflexivity|]. cbn [statusCode MailLabel.sendJson trace initial].
    split; [|split; [intros e H; discriminate H|intros _; split; reflexivity]].
    intros code' H. injection H as <-.
    split; [intros _; apply W; reflexivity|reflexivity].
  - assert (C : code = Some "072288").
    { destruct code as [s|].
      - destruct (String.eqb_spec s "072288") as [->|N]; [reflexivity|].
        exfalso. assert (H : false = true) by (apply W; congruence). discriminate H.
      - exfalso. assert (H : false = true) by (apply W; discriminate). discriminate H. }
    pose proof (early_mailTo_statuses w build req body initial) as H.
    destruct (Early.mailTo w build req body initial) as [[res|e] s1].
    + specialize (H res s1 eq_refl).
      assert (N : statusCode res <> 403%N).
      { intro E. rewrite E in H. cbn in H. intuition discriminate. }
      exists res, (trace s1). split; [reflexivity|].
      split; [|split; [intros e H'; discriminate H'|intro E; destruct (N E)]].
      intros code' H'. injection H' as <-.
      split; [intro E; destruct (N E)|intro D; destruct (D C)].
    + eexists. eexists. split; [reflexivity|]. cbn [statusCode MailLabel.sendJson].
      split; [|split; [intros e' H'; discriminate H'|discriminate]].
      intros code' H'. injection H' as <-.
      split; [discriminate|intro D; destruct (D C)].
Qed.

Lemma access_code_gate_trimmed :
  exists res t,
    run (AccessCode.handler (Scenario.deployed Scenario.healthy) Drafts.builder Drafts.withCode)
      = (Ok res, t) /\
    (forall code,
       MailLabel.requireField (Scenario.deployed Scenario.healthy)
         (req_body Drafts.withCode) "accessCode" = Ok code ->
       (statusCode res = 403%N <-> code <> Some "072288")) /\
    (forall e,
       MailLabel.requireField (Scenario.deployed Scenario.healthy)
         (req_body Drafts.withCode) "accessCode" = Throw e ->
       res = MailLabel.sendJson 500 (obj [("ok", VBool false); ("error", str e)]) /\
       t = []) /\
    (statusCode res = 403%N -> res = refusedCode /\ t = []).
Proof.
  apply (access_code_gate (Scenario.deployed Scenario.healthy) Drafts.builder Drafts.withCode
           (req_body Drafts.withCode)); reflexivity.
Defined.

Lemma plain_try_statuses (w : World) (jsonError : FetchResponse -> string) (req : Request) :
  answers mailStatus
    (if negb (String.eqb (req_method req) "POST") then
       ret (MailLabel.sendJson 405 (obj [("ok", VBool false); ("error", str "Method Not Allowed")]))
     else MailLabelPlain.guarded w jsonError req).
Proof.
  unfold MailLabelPlain.guarded, MailLabelPlain.validate, MailLabelPlain.createAndMail,
    MailLabelPlain.mailLetter.
  repeat answers_step.
Qed.

Lemma early_try_statuses (w : World) (build : value -> M Pdf.Document) (req : Request) :
  answers mailStatus
    (if negb (String.eqb (req_method req) "POST") then
       ret (MailLabel.sendJson 405 (obj [("ok", VBool false); ("error", str "Method Not Allowed")]))
     else Early.guarded w build req).
Proof.
  unfold Early.guarded, Early.mailTo.
  repeat answers_step.
Qed.

Lemma access_try_statuses (w : World) (build : value -> M Pdf.Document) (req : Request) :
  answers (fun res => In (statusCode res) accessStatuses)
    (if negb (String.eqb (req_method req) "POST") then
       ret (MailLabel.sendJson 405 (obj [("ok", VBool false); ("error", str "Method Not Allowed")]))
     else AccessCode.guarded w build req).
Proof.
  unfold AccessCode.guarded, Early.mailTo.
  repeat answers_step.
Qed.

(** X23. The three earlier drafts of api/mail-label.js never
    throw either, whatever the builder of the document does. The draft
    behind HTTP Basic authentication and the draft without records answer
    200, 400, 401, 405 or 500; the draft behind the access code answers
    200, 400, 403, 405 or 500 and never 401. *)
Theorem drafts_always_answer (w : World) (jsonError : FetchResponse -> string)
    (build : value -> M Pdf.Document) (req : Request) :
  (exists res t,
     run (MailLabelPlain.handler w jsonError req) = (Ok res, t) /\
     In (statusCode res) mailStatuses) /\
  (exists res t,
     run (Early.handler w build req) = (Ok res, t) /\ In (statusCode res) mailStatuses) /\
  (exists res t,
     run (AccessCode.handler w build req) = (Ok res, t) /\
     In (statusCode res) accessStatuses /\ statusCode res <> 401%N).
Proof.
  split; [|split].
  - unfold run, MailLabelPlain.handler, try_catch at 1.
    pose proof (plain_try_statuses w jsonError req initial) as H.
    match goal with |- context [match ?m initial with _ => _ end] =>
      change (forall a s', m initial = (Ok a, s') -> mailStatus a) in H;
      destruct (m initial) as [[res|e] s1]
    end.
    + exists res, (trace s1). split; [reflexivity|]. exact (H res s1 eq_refl).
    + eexists. eexists. split; [reflexivity|]. cbn. tauto.
  - unfold run, Early.handler, try_catch at 1.
    pose proof (early_try_statuses w build req initial) as H.
    match goal with |- context [match ?m initial with _ => _ end] =>
      change (forall a s', m initial = (Ok a, s') -> mailStatus a) in H;
      destruct (m initial) as [[res|e] s1]
    end.
    + exists res, (trace s1). split; [reflexivity|]. exact (H res s1 eq_refl).
    + eexists. eexists. split; [reflexivity|]. cbn. tauto.
  - unfold run, AccessCode.handler, try_catch at 1.
    pose proof (access_try_statuses w build req initial) as H.
    match goal with |- context [match ?m initial with _ => _ end] =>
      change (forall a s', m initial = (Ok a, s') -> In (statusCode a) accessStatuses) in H;
      destruct (m initial) as [[res|e] s1]
    end.
    + exists res, (trace s1). split; [reflexivity|].
      specialize (H res s1 eq_refl). split; [exact H|].
      intro E. rewrite E in H. cbn in H. intuition discriminate.
    + eexists. eexists. split; [reflexivity|]. cbn. split; [tauto|discriminate].
Qed.
